(** * CLIMCAPS daily sub-aggregation: a shallow embedding of
      [climcaps_subaggregation.py] and of the production driver loops

    The Python module is translated function by function.  Python values
    are modelled as the code uses them: [int] as [Z], [str] as [string],
    [bytes] as [list byte], lists as [list], insertion-ordered [dict]s as
    association lists (a [dict] has no key twice: where a property needs
    it, it is stated as [NoDup] of the keys), exceptions as an error
    result.  The collaborators the module calls but does not define (the
    earthaccess log-in, catalog and transfer calls, the netCDF4 reader,
    the S3 byte stream, numpy's type promotion) are the fields of an
    environment record; every call made on them, and every call made on
    the netCDF4 writer, is appended to an event log carried by the state.
    The writer's calls are recorded, never refused.  The local file
    system is a list of readable paths and a list of directories, without
    a tree: [os.mkdir] finds the directory or makes it, and a parent
    directory that is missing is not represented.

    [concat_granules] is given twice: on values, and on a store of
    objects where lists, dicts and arrays are reached through
    references; the two are proved to agree. *)

From Stdlib Require Import ZArith List String Ascii Lia Bool DecimalString DecimalPos.
From stdpp Require Import base list strings.
Import ListNotations.

Open Scope string_scope.
Open Scope list_scope.
Open Scope Z_scope.

(** ** Exceptions and results *)

(** The exceptions the code can raise, by Python class, with their
    argument.  [OSError] is what the module's own [raise OSError(...)]
    raises; a failure inside the netCDF4 library when it opens a
    container is kept apart as [NetCDFError] with the library's message,
    whatever Python class the library gives it. *)
Inductive exn : Type :=
| ValueError (msg : string)
| KeyError (key : string)
| IndexError (msg : string)
| TypeError (msg : string)
| OSError (msg : string)
| OverflowError (msg : string)
| FileNotFoundError (path : string)
| UnboundLocalError (name : string)
| NetCDFError (msg : string).

Inductive result (A : Type) : Type :=
| Ok (a : A)
| Raise (e : exn).
Arguments Ok {A} a.
Arguments Raise {A} e.

Definition rbind {A B : Type} (r : result A) (k : A -> result B) : result B :=
  match r with
  | Ok a => k a
  | Raise e => Raise e
  end.

Declare Scope result_scope.
Delimit Scope result_scope with result.
Notation "x <- c1 ;; c2" := (rbind c1 (fun x => c2))
  (at level 100, c1 at next level, right associativity) : result_scope.

(** ** Python sequences *)

Module Py.

(** [l[idx]] with Python's negative indices. *)
Definition getitem {A : Type} (l : list A) (idx : Z) : result A :=
  let n := Z.of_nat (length l) in
  let i := if idx <? 0 then idx + n else idx in
  if (i <? 0) || (n <=? i) then Raise (IndexError "list index out of range")
  else match nth_error l (Z.to_nat i) with
       | Some x => Ok x
       | None => Raise (IndexError "list index out of range")
       end.

Fixpoint remove_nth {A : Type} (i : nat) (l : list A) : list A :=
  match l, i with
  | [], _ => []
  | _ :: t, O => t
  | x :: t, S j => x :: remove_nth j t
  end.

(** [l.pop(idx)]: the list after the removal (the popped value is
    discarded by the caller). *)
Definition pop {A : Type} (l : list A) (idx : Z) : result (list A) :=
  let n := Z.of_nat (length l) in
  let i := if idx <? 0 then idx + n else idx in
  if (n =? 0) then Raise (IndexError "pop from empty list")
  else if (i <? 0) || (n <=? i) then Raise (IndexError "pop index out of range")
  else Ok (remove_nth (Z.to_nat i) l).

(** [s.split(c)] for a one-character separator: always at least one
    segment. *)
Fixpoint split (c : ascii) (s : string) : list string :=
  match s with
  | EmptyString => [EmptyString]
  | String a rest =>
      if Ascii.eqb a c then EmptyString :: split c rest
      else match split c rest with
           | [] => [String a EmptyString]
           | seg :: segs => String a seg :: segs
           end
  end.

(** [s[:n]] *)
Fixpoint take (n : nat) (s : string) : string :=
  match n, s with
  | O, _ => EmptyString
  | S _, EmptyString => EmptyString
  | S m, String a rest => String a (take m rest)
  end.

(** ['{:d}'.format(z)] *)
Definition str_of_int (z : Z) : string := NilZero.string_of_int (Z.to_int z).

Fixpoint repeat_char (c : ascii) (n : nat) : string :=
  match n with
  | O => EmptyString
  | S m => String c (repeat_char c m)
  end.

(** ['{:4d}'.format(z)]: right-aligned in a field of [w] blanks. *)
Definition fmt_d_width (w : nat) (z : Z) : string :=
  let s := str_of_int z in
  repeat_char " " (w - String.length s) +:+ s.

(** ['{:03d}'.format(z)]: zeros go between the sign and the digits. *)
Definition fmt_d_zero (w : nat) (z : Z) : string :=
  let s := str_of_int (Z.abs z) in
  if z <? 0 then "-" +:+ repeat_char "0" (w - 1 - String.length s) +:+ s
  else repeat_char "0" (w - String.length s) +:+ s.

End Py.

(** ** The [datetime] arithmetic of the day window *)

Module Datetime.

Record date : Type := mkdate { year : Z; month : Z; day : Z }.

Definition is_leap (y : Z) : bool :=
  (y mod 4 =? 0) && (negb (y mod 100 =? 0) || (y mod 400 =? 0)).

Definition days_in_month (y m : Z) : Z :=
  if m =? 2 then (if is_leap y then 29 else 28)
  else if (m =? 4) || (m =? 6) || (m =? 9) || (m =? 11) then 30
  else 31.

(** days of the year before the first of month [m], for a common year *)
Definition days_before_month_common (m : Z) : Z :=
  match m with
  | 1 => 0 | 2 => 31 | 3 => 59 | 4 => 90 | 5 => 120 | 6 => 151
  | 7 => 181 | 8 => 212 | 9 => 243 | 10 => 273 | 11 => 304 | 12 => 334
  | _ => 0
  end.

Definition days_before_month (y m : Z) : Z :=
  days_before_month_common m + (if (2 <? m) && is_leap y then 1 else 0).

Definition days_before_year (y : Z) : Z :=
  let p := y - 1 in p * 365 + p / 4 - p / 100 + p / 400.

(** proleptic Gregorian ordinal: 0001-01-01 is day 1 *)
Definition toordinal (d : date) : Z :=
  days_before_year (year d) + days_before_month (year d) (month d) + day d.

Definition MINYEAR : Z := 1.
Definition MAXYEAR : Z := 9999.
Definition MAXORDINAL : Z := 3652059.

Definition fromordinal (n0 : Z) : date :=
  let n := n0 - 1 in
  let n400 := n / 146097 in
  let n := n mod 146097 in
  let n100 := n / 36524 in
  let n := n mod 36524 in
  let n4 := n / 1461 in
  let n := n mod 1461 in
  let n1 := n / 365 in
  let n := n mod 365 in
  let y := n400 * 400 + 1 + n100 * 100 + n4 * 4 + n1 in
  if (n1 =? 4) || (n100 =? 4) then mkdate (y - 1) 12 31
  else
    let leapyear := (n1 =? 3) && (negb (n4 =? 24) || (n100 =? 3)) in
    let m := Z.shiftr (n + 50) 5 in
    let preceding :=
      days_before_month_common m + (if (2 <? m) && leapyear then 1 else 0) in
    if n <? preceding then
      let m' := m - 1 in
      let preceding' :=
        preceding -
        ((if m' =? 2 then 28
          else if (m' =? 4) || (m' =? 6) || (m' =? 9) || (m' =? 11) then 30
          else 31)
         + (if (m' =? 2) && leapyear then 1 else 0)) in
      mkdate y m' (n - preceding' + 1)
    else mkdate y m (n - preceding + 1).

(** [datetime(y, m, d)] *)
Definition datetime (y m d : Z) : result date :=
  if (y <? MINYEAR) || (MAXYEAR <? y) then
    Raise (ValueError "year is out of range")
  else if (m <? 1) || (12 <? m) then
    Raise (ValueError "month must be in 1..12")
  else if (d <? 1) || (days_in_month y m <? d) then
    Raise (ValueError "day is out of range for month")
  else Ok (mkdate y m d).

(** [dt + timedelta(days = n)] *)
Definition add_days (dt : date) (n : Z) : result date :=
  if 999999999 <? Z.abs n then
    Raise (OverflowError "days must have magnitude <= 999999999")
  else
    let o := toordinal dt + n in
    if (o <? 1) || (MAXORDINAL <? o) then
      Raise (OverflowError "date value out of range")
    else Ok (fromordinal o).

(** [dt.strftime('%Y%m%d')] and [dt.strftime('%Y-%m-%d')]; [%Y] is the
    year as the C library prints it, without padding (four digits from
    the year 1000 on). *)
Definition strftime_Ymd (dt : date) : string :=
  Py.str_of_int (year dt) +:+ Py.fmt_d_zero 2 (month dt)
  +:+ Py.fmt_d_zero 2 (day dt).

Definition strftime_Y_m_d (dt : date) : string :=
  Py.str_of_int (year dt) +:+ "-" +:+ Py.fmt_d_zero 2 (month dt)
  +:+ "-" +:+ Py.fmt_d_zero 2 (day dt).

End Datetime.

(** ** Data model *)

(** Insertion-ordered Python [dict] with [str] keys. *)
Definition dict (V : Type) : Type := list (string * V).

Module Dict.

Fixpoint get {V : Type} (d : dict V) (k : string) : option V :=
  match d with
  | [] => None
  | (k', v) :: rest => if String.eqb k' k then Some v else get rest k
  end.

(** [d[k] = v]: an existing key keeps its position, a new key goes last. *)
Fixpoint set {V : Type} (d : dict V) (k : string) (v : V) : dict V :=
  match d with
  | [] => [(k, v)]
  | (k', v') :: rest =>
      if String.eqb k' k then (k', v) :: rest else (k', v') :: set rest k v
  end.

Definition keys {V : Type} (d : dict V) : list string := map fst d.

Definition mem {V : Type} (d : dict V) (k : string) : bool :=
  match get d k with Some _ => true | None => false end.

(** [d[k]] as an expression *)
Definition getitem {V : Type} (d : dict V) (k : string) : result V :=
  match get d k with
  | Some v => Ok v
  | None => Raise (KeyError k)
  end.

End Dict.

(** Scalars held by arrays and attributes. A float is kept as its bit
    pattern: the code never computes with one. *)
Inductive value : Type :=
| VStr (s : string)
| VInt (z : Z)
| VFloat (bits : Z)
| VNone.

(** [type(x) == str] *)
Definition is_str (x : value) : bool :=
  match x with VStr _ => true | _ => false end.

Inductive dtype : Type :=
| DObject
| DInt (bits : nat)
| DUInt (bits : nat)
| DFloat (bits : nat).

Definition dtype_eqb (a b : dtype) : bool :=
  match a, b with
  | DObject, DObject => true
  | DInt m, DInt n | DUInt m, DUInt n | DFloat m, DFloat n => Nat.eqb m n
  | _, _ => false
  end.

(** A numpy array: element type, shape and the elements in C order. *)
Record ndarray : Type := mkarray {
  arr_dtype : dtype;
  shape : list nat;
  flat : list value
}.

(** What numpy decides when two arrays of different element types are
    joined: the common type and the conversion of an element to it. *)
Record Numpy : Type := {
  result_type : dtype -> dtype -> result dtype;
  astype : dtype -> value -> value
}.

Fixpoint list_eqb {A : Type} (eqb : A -> A -> bool) (l1 l2 : list A) : bool :=
  match l1, l2 with
  | [], [] => true
  | x :: t1, y :: t2 => eqb x y && list_eqb eqb t1 t2
  | _, _ => false
  end.

Module Np.

(** [a.copy()] *)
Definition copy (a : ndarray) : ndarray :=
  mkarray (arr_dtype a) (shape a) (flat a).

(** [np.concatenate([a, b], axis=0)] *)
Definition concatenate (np : Numpy) (a b : ndarray) : result ndarray :=
  match shape a, shape b with
  | [], _ | _, [] =>
      Raise (ValueError "zero-dimensional arrays cannot be concatenated")
  | na :: ta, nb :: tb =>
      if negb (Nat.eqb (length ta) (length tb)) then
        Raise (ValueError "all the input arrays must have same number of dimensions")
      else if negb (list_eqb Nat.eqb ta tb) then
        Raise (ValueError "all the input array dimensions except for the concatenation axis must match exactly")
      else if dtype_eqb (arr_dtype a) (arr_dtype b) then
        Ok (mkarray (arr_dtype a) ((na + nb)%nat :: ta) (flat a ++ flat b))
      else
        rbind (result_type np (arr_dtype a) (arr_dtype b)) (fun dt =>
        Ok (mkarray dt ((na + nb)%nat :: ta)
              (map (astype np dt) (flat a) ++ map (astype np dt) (flat b))))
  end.

(** [a.shape[0]] *)
Definition shape0 (a : ndarray) : result nat :=
  match shape a with
  | [] => Raise (IndexError "tuple index out of range")
  | n :: _ => Ok n
  end.

(** [a.flat[0]] *)
Definition flat0 (a : ndarray) : result value :=
  match flat a with
  | [] => Raise (IndexError "index 0 is out of bounds for size 0")
  | x :: _ => Ok x
  end.

End Np.

(** Per-variable dimension descriptor: [{'names': [...], 'sizes': [...]}] *)
Record dimrec : Type := mkdimrec {
  names : list string;
  sizes : list nat
}.

(** A catalog entry; [data_links()] returns its URLs in order. *)
Record Granule : Type := mkgranule { data_links : list string }.

(** One entry of the list returned by [earthaccess.download]: a file name
    ([str]) or an exception object. *)
Inductive dl_entry : Type :=
| DlPath (f : string)
| DlError (msg : string).

(** A remote stream handle as returned by [earthaccess.open]; [read()]
    yields its payload. *)
Record S3Obj : Type := mks3 { s3_key : string; s3_payload : list Byte.byte }.

(** The read side of a netCDF4 container: variables and groups by path,
    and the dimensions declared at the root. *)
Record NcVariable : Type := mkncvar {
  nv_data : ndarray;
  nv_dimensions : list string;
  nv_attrs : dict value
}.

Inductive NcNode : Type :=
| NVar (v : NcVariable)
| NGroup (group_dimensions : dict nat).

Record NcFile : Type := mkncfile {
  nc_nodes : dict NcNode;
  nc_dimensions : dict nat
}.

(** The element type handed to [createVariable]: Python's [str] or a
    numpy dtype. *)
Inductive out_dtype : Type :=
| OutStr
| OutDtype (d : dtype).

(** ** External calls and the state they act on *)

Inductive event : Type :=
| EvLogin (strategy : string)
| EvSearch (short_name start stop : string)
| EvMkdir (d : string)
| EvDownload (gl : list Granule) (d : string)
| EvOpen (gl : list Granule)
| EvRead (o : S3Obj)
| EvClose (o : S3Obj)
| EvDatasetMemory (payload : list Byte.byte)
| EvDatasetRead (fname : string)
| EvDatasetWrite (fname : string)
| EvDatasetClose
| EvCreateDimension (dim : string) (size : nat)
| EvCreateVariable (v : string) (dt : out_dtype) (dimensions : list string)
    (fill_value : option value)
| EvAssign (v : string) (a : ndarray)
| EvSetncattr (v aname : string) (avalue : value)
| EvRemove (f : string)
| EvPrint (s : string).

(** What [netCDF4.Dataset(..., mode='r')] makes of its source: a
    container, or a refusal with the library's message. *)
Inductive opened : Type :=
| Opened (nc : NcFile)
| Refused (msg : string).

Definition dataset_result (o : opened) : result NcFile :=
  match o with
  | Opened nc => Ok nc
  | Refused msg => Raise (NetCDFError msg)
  end.

(** The collaborators. [login strategy] is what [earthaccess.login]
    does when called with that strategy: it returns, or raises what the
    library raises.  [download k gl d] is what the [k]-th call of
    [earthaccess.download] made during a run returns. *)
Record Env : Type := {
  numpy : Numpy;
  login : string -> result unit;
  search_data : string -> string -> string -> list Granule;
  download : nat -> list Granule -> string -> list dl_entry;
  s3_open : list Granule -> list S3Obj;
  dataset_memory : list Byte.byte -> opened;
  dataset_file : string -> opened
}.

Record World : Type := mkworld {
  files : list string;      (* readable paths of the local file system *)
  dirs : list string;
  downloads : nat;           (* batch downloads issued so far *)
  log : list event
}.

(** State-and-exception monad: an exception keeps the state reached. *)
Definition ST (S A : Type) : Type := S -> result A * S.

Definition ret {S A : Type} (a : A) : ST S A := fun s => (Ok a, s).

Definition bind {S A B : Type} (m : ST S A) (k : A -> ST S B) : ST S B :=
  fun s => match m s with
           | (Ok a, s') => k a s'
           | (Raise e, s') => (Raise e, s')
           end.

Definition lift {S A : Type} (r : result A) : ST S A := fun s => (r, s).

Definition raise {S A : Type} (e : exn) : ST S A := fun s => (Raise e, s).

Declare Scope M_scope.
Delimit Scope M_scope with M.
Notation "x <- c1 ;; c2" := (bind c1 (fun x => c2))
  (at level 100, c1 at next level, right associativity) : M_scope.
Notation "c1 ;;; c2" := (bind c1 (fun _ => c2))
  (at level 100, right associativity) : M_scope.

Definition M (A : Type) : Type := ST World A.

Definition emit (e : event) : M unit :=
  fun w => (Ok tt, mkworld (files w) (dirs w) (downloads w) (log w ++ [e])).

(** [for x in l: body], threading an accumulator *)
Fixpoint for_each {S A T : Type} (l : list A) (body : A -> T -> ST S T) (t : T)
  : ST S T :=
  match l with
  | [] => ret t
  | x :: rest => bind (body x t) (for_each rest body)
  end.

Fixpoint rfold {A S : Type} (l : list A) (body : A -> S -> result S) (s : S)
  : result S :=
  match l with
  | [] => Ok s
  | x :: rest => rbind (body x s) (rfold rest body)
  end.

Definition str_in (s : string) (l : list string) : bool :=
  existsb (String.eqb s) l.

(** [os.access(path, os.R_OK)] *)
Definition os_access (w : World) (path : string) : bool := str_in path (files w).

(** ** [startup] and [get_climcaps_short_name] *)

(** [earthaccess.login(strategy=...)] *)
Definition earthaccess_login (env : Env) (strategy : string) : M unit :=
  (emit (EvLogin strategy) ;;; lift (login env strategy))%M.

(** [try: login(strategy='netrc')
     except FileNotFoundError: login(strategy='interactive', persist=True)]:
    any other exception of the first call, and any exception of the
    second, leaves [startup]. *)
Definition startup (env : Env) : M unit :=
  fun w =>
    match earthaccess_login env "netrc" w with
    | (Raise (FileNotFoundError _), w1) => earthaccess_login env "interactive" w1
    | other => other
    end.

Definition climcaps_short_names : dict string :=
  [ ("snpp-normal", "SNDRSNIML2CCPRETN");
    ("snpp-full", "SNDRSNIML2CCPRET");
    ("jpss1", "SNDRJ1IML2CCPRET") ].

Definition get_climcaps_short_name (platform : string) : result string :=
  Dict.getitem climcaps_short_names platform.

(** ** Catalog resolver: [get_granule_list] *)

(** The date token of a data link: [link.split('/')[-1].split('.')[3][:8]]. *)
Definition link_ymd (link : string) : result string :=
  (filename <- Py.getitem (Py.split "/" link) (-1) ;;
   seg <- Py.getitem (Py.split "." filename) 3 ;;
   Ok (Py.take 8 seg))%result.

(** The token the loop body reads for [idx]: that of
    [granule_list[idx].data_links()[idx]]. *)
Definition boundary_ymd (granule_list : list Granule) (idx : Z) : result string :=
  (g <- Py.getitem granule_list idx ;;
   link <- Py.getitem (data_links g) idx ;;
   link_ymd link)%result.

(** One pass of the body of [for idx in (0, -1)]. *)
Definition trim_at (expected_ymd : string) (idx : Z) (granule_list : list Granule)
  : result (list Granule) :=
  (ymd <- boundary_ymd granule_list idx ;;
   if negb (String.eqb ymd expected_ymd) then Py.pop granule_list idx
   else Ok granule_list)%result.

Definition trim_boundaries (expected_ymd : string) (granule_list : list Granule)
  : result (list Granule) :=
  rfold [0; -1] (trim_at expected_ymd) granule_list.

(** The requested day and the query window of [(year, doy)]. *)
Definition day_window (year doy : Z) : result (Datetime.date * Datetime.date) :=
  (year_start <- Datetime.datetime year 1 1 ;;
   window_start <- Datetime.add_days year_start (doy - 1) ;;
   window_stop <- Datetime.add_days window_start 1 ;;
   Ok (window_start, window_stop))%result.

Definition get_granule_list (env : Env) (year doy : Z) (short_name : string)
  : M (list Granule) :=
  (win <- lift (day_window year doy) ;;
   let '(window_start, window_stop) := win in
   let start := Datetime.strftime_Y_m_d window_start in
   let stop := Datetime.strftime_Y_m_d window_stop in
   emit (EvSearch short_name start stop) ;;;
   let granule_list := search_data env short_name start stop in
   if (0 <? length granule_list)%nat then
     lift (trim_boundaries (Datetime.strftime_Ymd window_start) granule_list)
   else ret granule_list)%M.

(** ** Granule loader *)

(** [nc[v]] *)
Definition nc_getitem (nc : NcFile) (v : string) : result NcNode :=
  match Dict.get (nc_nodes nc) v with
  | Some node => Ok node
  | None => Raise (IndexError (v +:+ " not found in /"))
  end.

(** [nc[v]] used as a variable ([nc[v][:]], [nc[v].dimensions], ...) *)
Definition nc_variable (nc : NcFile) (v : string) : result NcVariable :=
  (node <- nc_getitem nc v ;;
   match node with
   | NVar x => Ok x
   | NGroup _ => Raise (TypeError "'Group' object is not subscriptable")
   end)%result.

(** The size of [dim]: [nc.dimensions[dim].size], and on [KeyError]
    [nc[v.split('/')[0]].dimensions[dim].size]. *)
Definition dim_size (nc : NcFile) (v dim : string) : result nat :=
  match Dict.get (nc_dimensions nc) dim with
  | Some n => Ok n
  | None =>
      (grp <- Py.getitem (Py.split "/" v) 0 ;;
       node <- nc_getitem nc grp ;;
       match node with
       | NGroup gd => Dict.getitem gd dim
       | NVar _ =>
           Raise (TypeError "tuple indices must be integers or slices, not str")
       end)%result
  end.

(** [for dim in nc[v].dimensions: names.append(dim); sizes.append(...)] *)
Fixpoint load_dims (nc : NcFile) (v : string) (dimensions : list string)
  (acc : dimrec) : result dimrec :=
  match dimensions with
  | [] => Ok acc
  | dim :: rest =>
      (n <- dim_size nc v dim ;;
       load_dims nc v rest (mkdimrec (names acc ++ [dim]) (sizes acc ++ [n])))%result
  end.

Definition loaded : Type := dict ndarray * dict dimrec * dict (dict value).

Definition _load_from_netCDF4 (nc : NcFile) (var_list : list string)
  : result loaded :=
  rfold var_list
    (fun v '(dat, dims, attrs) =>
       (x <- nc_variable nc v ;;
        d <- load_dims nc v (nv_dimensions x) (mkdimrec [] []) ;;
        Ok (Dict.set dat v (nv_data x), Dict.set dims v d,
            Dict.set attrs v (nv_attrs x)))%result)
    ([], [], []).

(** [with netCDF4.Dataset(...) as nc: body]: the container is closed on
    the way out, also when the body raises. *)
Definition with_dataset {A : Type} (open : M NcFile) (body : NcFile -> M A) : M A :=
  (nc <- open ;;
   fun w => let '(r, w') := body nc w in
            (r, snd (emit EvDatasetClose w')))%M.

Definition open_read (env : Env) (fname : string) : M NcFile :=
  (emit (EvDatasetRead fname) ;;;
   fun w => if os_access w fname then (dataset_result (dataset_file env fname), w)
            else (Raise (FileNotFoundError fname), w))%M.

Definition load_granule_from_file (env : Env) (fname : string)
  (var_list : list string) : M loaded :=
  with_dataset (open_read env fname)
    (fun nc => lift (_load_from_netCDF4 nc var_list)).

Definition s3_read_failed : exn := OSError "s3 read failed to return any data".

Definition load_granule_from_s3 (env : Env) (s3_obj : S3Obj)
  (var_list : list string) : M loaded :=
  (emit (EvRead s3_obj) ;;;
   let nc_bytes := s3_payload s3_obj in
   if (length nc_bytes =? 0)%nat then raise s3_read_failed
   else
     with_dataset
       (emit (EvDatasetMemory nc_bytes) ;;;
        lift (dataset_result (dataset_memory env nc_bytes)))
       (fun nc => lift (_load_from_netCDF4 nc var_list)))%M.

(** ** Aggregator: [concat_granules] *)

Definition atrack : string := "atrack".

(** [l[0] = x] *)
Definition setitem0 {A : Type} (l : list A) (x : A) : result (list A) :=
  match l with
  | [] => Raise (IndexError "list assignment index out of range")
  | _ :: rest => Ok (x :: rest)
  end.

(** [cdat = {}; for v in dat_list[0]: cdat[v] = dat_list[0][v].copy()] *)
Definition seed (first : dict ndarray) : dict ndarray :=
  fold_left (fun cdat '(v, a) => Dict.set cdat v (Np.copy a)) first [].

(** The body of [for v in dat] for the variable [v] of a later record. *)
Definition fold_var (np : Numpy) (dims : dict dimrec) (kv : string * ndarray)
  (cdat : dict ndarray) : result (dict ndarray) :=
  let '(v, a) := kv in
  (d <- Dict.getitem dims v ;;
   match names d with
   | [] => Ok cdat
   | _ =>
       if str_in atrack (names d) then
         (c <- Dict.getitem cdat v ;;
          joined <- Np.concatenate np c a ;;
          Ok (Dict.set cdat v joined))
       else Ok cdat
   end)%result.

Definition fold_granule (np : Numpy) (dims : dict dimrec) (dat : dict ndarray)
  (cdat : dict ndarray) : result (dict ndarray) :=
  rfold dat (fold_var np dims) cdat.

(** The body of [for v in cdat] that rebuilds the descriptors. *)
Definition reconcile_var (dims : dict dimrec) (kv : string * ndarray)
  (cdims : dict dimrec) : result (dict dimrec) :=
  let '(v, a) := kv in
  (d <- Dict.getitem dims v ;;
   let new_dim_names := names d in
   let new_dim_sizes := sizes d in
   new_dim_sizes <-
     match new_dim_names with
     | [] => Ok new_dim_sizes
     | n0 :: _ =>
         if String.eqb n0 atrack then
           (n <- Np.shape0 a ;; setitem0 new_dim_sizes n)
         else Ok new_dim_sizes
     end ;;
   Ok (Dict.set cdims v (mkdimrec new_dim_names new_dim_sizes)))%result.

Definition concat_granules (np : Numpy) (dat_list : list (dict ndarray))
  (dims : dict dimrec) : result (dict ndarray * dict dimrec) :=
  (first <- Py.getitem dat_list 0 ;;
   cdat <- rfold (tl dat_list) (fold_granule np dims) (seed first) ;;
   cdims <- rfold cdat (reconcile_var dims) [] ;;
   Ok (cdat, cdims))%result.

(** ** [concat_granules] over a store of Python objects

    The same function, with every list, dict and array an object of a
    store and every variable a reference, so that sharing between the
    inputs and the outputs is visible: a statement that assigns into a
    container is a write at the container's location. *)

Module Store.

Abbreviation loc := nat.

Inductive obj : Type :=
| OArray (a : ndarray)
| ODict (d : dict loc)       (* a dict of references *)
| ORefs (l : list loc)        (* a list of references: [dat_list] *)
| OStrs (l : list string)     (* a list of str: ['names'] *)
| OInts (l : list nat).       (* a list of int: ['sizes'] *)

Abbreviation heap := (list obj).

Definition H (A : Type) : Type := ST heap A.

(** a new object *)
Definition alloc (o : obj) : H loc := fun h => (Ok (length h), h ++ [o]).

Definition read (l : loc) : H obj :=
  fun h => match h !! l with
           | Some o => (Ok o, h)
           | None => (Raise (TypeError "dangling reference"), h)
           end.

(** in-place update of the object at [l] *)
Definition write (l : loc) (o : obj) : H unit :=
  fun h => (Ok tt, <[l := o]> h).

Definition wrong_type {A : Type} : H A :=
  raise (TypeError "object of unexpected type").

Definition read_array (l : loc) : H ndarray :=
  (o <- read l ;; match o with OArray a => ret a | _ => wrong_type end)%M.

Definition read_dict (l : loc) : H (dict loc) :=
  (o <- read l ;; match o with ODict d => ret d | _ => wrong_type end)%M.

Definition read_refs (l : loc) : H (list loc) :=
  (o <- read l ;; match o with ORefs r => ret r | _ => wrong_type end)%M.

Definition read_strs (l : loc) : H (list string) :=
  (o <- read l ;; match o with OStrs r => ret r | _ => wrong_type end)%M.

Definition read_ints (l : loc) : H (list nat) :=
  (o <- read l ;; match o with OInts r => ret r | _ => wrong_type end)%M.

(** [d[k]] for the dict at [ld] *)
Definition dict_getitem (ld : loc) (k : string) : H loc :=
  (d <- read_dict ld ;; lift (Dict.getitem d k))%M.

(** [d[k] = x] for the dict at [ld] *)
Definition dict_setitem (ld : loc) (k : string) (x : loc) : H unit :=
  (d <- read_dict ld ;; write ld (ODict (Dict.set d k x)))%M.

(** [cdat[v] = dat_list[0][v].copy()] *)
Definition seed_var (cdat : loc) (kv : string * loc) (_ : unit) : H unit :=
  let '(v, la) := kv in
  (a <- read_array la ;;
   fresh <- alloc (OArray (Np.copy a)) ;;
   dict_setitem cdat v fresh)%M.

Definition fold_var (np : Numpy) (dims cdat : loc) (kv : string * loc)
  (_ : unit) : H unit :=
  let '(v, la) := kv in
  (lrec <- dict_getitem dims v ;;
   lnames <- dict_getitem lrec "names" ;;
   ns <- read_strs lnames ;;
   match ns with
   | [] => ret tt
   | _ =>
       (* the second [dims[v]['names']] of the source *)
       lrec' <- dict_getitem dims v ;;
       lnames' <- dict_getitem lrec' "names" ;;
       ns' <- read_strs lnames' ;;
       if str_in atrack ns' then
         lc <- dict_getitem cdat v ;;
         c <- read_array lc ;;
         a <- read_array la ;;
         joined <- lift (Np.concatenate np c a) ;;
         fresh <- alloc (OArray joined) ;;
         dict_setitem cdat v fresh
       else ret tt
   end)%M.

Definition fold_granule (np : Numpy) (dims cdat : loc) (ldat : loc)
  (_ : unit) : H unit :=
  (dat <- read_dict ldat ;; for_each dat (fold_var np dims cdat) tt)%M.

Definition reconcile_var (dims cdat cdims : loc) (v : string) (_ : unit)
  : H unit :=
  (lrec <- dict_getitem dims v ;;
   lnames <- dict_getitem lrec "names" ;;
   ns <- read_strs lnames ;;
   new_dim_names <- alloc (OStrs ns) ;;
   lrec' <- dict_getitem dims v ;;
   lsizes <- dict_getitem lrec' "sizes" ;;
   ss <- read_ints lsizes ;;
   new_dim_sizes <- alloc (OInts ss) ;;
   ns1 <- read_strs new_dim_names ;;
   match ns1 with
   | [] => ret tt
   | n0 :: _ =>
       if String.eqb n0 atrack then
         lc <- dict_getitem cdat v ;;
         c <- read_array lc ;;
         n <- lift (Np.shape0 c) ;;
         cur <- read_ints new_dim_sizes ;;
         upd <- lift (setitem0 cur n) ;;
         write new_dim_sizes (OInts upd)
       else ret tt
   end ;;;
   fresh <- alloc (ODict [("names", new_dim_names); ("sizes", new_dim_sizes)]) ;;
   dict_setitem cdims v fresh)%M.

Definition concat_granules (np : Numpy) (dat_list dims : loc) : H (loc * loc) :=
  (cdat <- alloc (ODict []) ;;
   recs <- read_refs dat_list ;;
   l0 <- lift (Py.getitem recs 0) ;;
   first <- read_dict l0 ;;
   for_each first (seed_var cdat) tt ;;;
   recs' <- read_refs dat_list ;;
   for_each (tl recs') (fold_granule np dims cdat) tt ;;;
   cdims <- alloc (ODict []) ;;
   vars <- read_dict cdat ;;
   for_each (Dict.keys vars) (reconcile_var dims cdat cdims) tt ;;;
   ret (cdat, cdims))%M.

(** *** Sharing between the store before and after a call *)

(** The references an object holds all point at or above [n]. *)
Definition refs_fresh (n : nat) (o : obj) : Prop :=
  match o with
  | ODict d => Forall (fun kv => n <= snd kv)%nat d
  | ORefs l => Forall (fun x => n <= x)%nat l
  | OArray _ | OStrs _ | OInts _ => True
  end.

(** No object at or above [n] refers to an object below [n]. *)
Definition closed (n : nat) (h : heap) : Prop :=
  forall l o, (n <= l)%nat -> h !! l = Some o -> refs_fresh n o.

(** [h] is [h0] followed by objects that do not refer into [h0]. *)
Definition extends (h0 h : heap) : Prop :=
  h0 `prefix_of` h /\ closed (length h0) h.

(** Started in an extension of [h0], [m] ends in an extension of [h0],
    and what it returns satisfies [Q]. *)
Definition hoare {A : Type} (h0 : heap) (m : H A) (Q : A -> Prop) : Prop :=
  forall h, extends h0 h ->
            extends h0 (snd (m h)) /\ forall a, fst (m h) = Ok a -> Q a.

(** Objects found in [h] are found in [h'], unchanged. *)
Definition stable (h h' : heap) : Prop :=
  forall l o, h !! l = Some o -> h' !! l = Some o.

(** *** Reading a value back from the store *)

(** The dict of references [d] stands for the dict of arrays [dat]. *)
Definition rep_arrays (h : heap) (d : dict loc) (dat : dict ndarray) : Prop :=
  Forall2 (fun kl ka => fst kl = fst ka /\ h !! snd kl = Some (OArray (snd ka)))
    d dat.

(** The object at [l] is a record with the arrays of [dat]. *)
Definition rep_dat (h : heap) (l : loc) (dat : dict ndarray) : Prop :=
  exists d, h !! l = Some (ODict d) /\ rep_arrays h d dat.

Definition rep_dat_list (h : heap) (l : loc) (dat_list : list (dict ndarray))
  : Prop :=
  exists ls, h !! l = Some (ORefs ls) /\ Forall2 (rep_dat h) ls dat_list.

(** The object at [l] is [{'names': ..., 'sizes': ...}] with the lists
    of [r]. *)
Definition rep_dimrec (h : heap) (l : loc) (r : dimrec) : Prop :=
  exists ln ls,
    h !! l = Some (ODict [("names", ln); ("sizes", ls)]) /\
    h !! ln = Some (OStrs (names r)) /\ h !! ls = Some (OInts (sizes r)).

Definition rep_dimrecs (h : heap) (d : dict loc) (dims : dict dimrec) : Prop :=
  Forall2 (fun kl kr => fst kl = fst kr /\ rep_dimrec h (snd kl) (snd kr)) d dims.

Definition rep_dims (h : heap) (l : loc) (dims : dict dimrec) : Prop :=
  exists d, h !! l = Some (ODict d) /\ rep_dimrecs h d dims.

(** The descriptors the call builds: as [rep_dims], with every record
    made after the dict that lists them. *)
Definition rep_own_dims (h : heap) (lcd : loc) (cdims : dict dimrec) : Prop :=
  exists d,
    h !! lcd = Some (ODict d) /\
    Forall2 (fun kl kr => fst kl = fst kr /\ (lcd < snd kl)%nat /\
                          rep_dimrec h (snd kl) (snd kr)) d cdims.

(** *** A step on the store against a step on values *)

(** The step on the store ended in [res], the step on values in [p]:
    both raised the same exception, or both returned and the object at
    [l] stands for the value returned. *)
Definition same_outcome {V : Type} (rep : heap -> loc -> V -> Prop) (l : loc)
  (res : result unit * heap) (p : result V) : Prop :=
  match p with
  | Ok x => fst res = Ok tt /\ rep (snd res) l x
  | Raise e => fst res = Raise e
  end.

Definition sim_dat (h0 : heap) (lc : loc) (res : result unit * heap)
  (p : result (dict ndarray)) : Prop :=
  extends h0 (snd res) /\ same_outcome rep_dat lc res p.

Definition sim_dims (h0 : heap) (lcd : loc) (res : result unit * heap)
  (p : result (dict dimrec)) : Prop :=
  extends h0 (snd res) /\ same_outcome rep_dims lcd res p.

(** The call on the store ended in [res], the call on values in [p]:
    the same exception, or two references to dicts that stand for the
    aggregate and its descriptors. *)
Definition same_result (res : result (loc * loc) * heap)
  (p : result (dict ndarray * dict dimrec)) : Prop :=
  match p with
  | Ok (cdat, cdims) =>
      exists lc lcd,
        fst res = Ok (lc, lcd) /\
        rep_dat (snd res) lc cdat /\ rep_dims (snd res) lcd cdims
  | Raise e => fst res = Raise e
  end.

End Store.

(** ** Writer: [write_cdat] *)

Definition FillValue : string := "_FillValue".

(** [merged_dim_list]: every variable's (name, size) pairs, a later size
    for the same name replacing the earlier one. *)
Definition merged_dim_list (dims : dict dimrec) : dict nat :=
  fold_left
    (fun merged '(_, d) =>
       fold_left (fun merged '(dim, dim_size) => Dict.set merged dim dim_size)
         (combine (names d) (sizes d)) merged)
    dims [].

Definition not_str_msg : string :=
  "concatenated array has type object, and does not contain python strings. Cannot write batch to netCDF4".

(** The element type chosen for the created variable. *)
Definition output_dtype (a : ndarray) : result out_dtype :=
  if dtype_eqb (arr_dtype a) DObject then
    (x <- Np.flat0 a ;;
     if is_str x then Ok OutStr else Raise (ValueError not_str_msg))%result
  else Ok (OutDtype (arr_dtype a)).

(** The body of [for v in cdat]. *)
Definition write_var (dims : dict dimrec) (attrs : dict (dict value))
  (kv : string * ndarray) (_ : unit) : M unit :=
  let '(v, a) := kv in
  (av <- lift (Dict.getitem attrs v) ;;
   let fill_value := Dict.get av FillValue in
   dt <- lift (output_dtype a) ;;
   d <- lift (Dict.getitem dims v) ;;
   emit (EvCreateVariable v dt (names d) fill_value) ;;;
   emit (EvAssign v a) ;;;
   for_each av
     (fun '(aname, avalue) _ =>
        if String.eqb aname FillValue then ret tt
        else emit (EvSetncattr v aname avalue))
     tt)%M.

(** [netCDF4.Dataset(fname, 'w')] creates the file. *)
Definition open_write (fname : string) : M unit :=
  (emit (EvDatasetWrite fname) ;;;
   fun w => (Ok tt,
             mkworld (if os_access w fname then files w else files w ++ [fname])
               (dirs w) (downloads w) (log w)))%M.

Definition write_cdat (cdat : dict ndarray) (dims : dict dimrec)
  (attrs : dict (dict value)) (fname : string) : M unit :=
  let merged := merged_dim_list dims in
  (open_write fname ;;;
   fun w =>
     let '(r, w') :=
       (for_each merged
          (fun '(dim, dim_size) _ => emit (EvCreateDimension dim dim_size)) tt ;;;
        for_each cdat (write_var dims attrs) tt) w in
     (r, snd (emit EvDatasetClose w')))%M.

(** ** Transfer retry wrapper: [_earthaccess_download] *)

(** [os.path.join(a, b)] *)
Definition path_join (a b : string) : string :=
  match b with
  | String "/" _ => b
  | _ =>
      if (String.length a =? 0)%nat then b
      else if String.eqb (substring (String.length a - 1) 1 a) "/" then a +:+ b
      else a +:+ "/" +:+ b
  end.

(** [try: os.mkdir(d) except FileExistsError: pass], the parent of [d]
    being there: the directory is found, or it is made. *)
Definition mkdir_exist_ok (d : string) : M unit :=
  (emit (EvMkdir d) ;;;
   fun w => (Ok tt,
             mkworld (files w) (if str_in d (dirs w) then dirs w else dirs w ++ [d])
               (downloads w) (log w)))%M.

Definition is_path (e : dl_entry) : bool :=
  match e with DlPath _ => true | DlError _ => false end.

(** [list(map(type, files)).count(str)] *)
Definition count_str (entries : list dl_entry) : nat :=
  length (List.filter is_path entries).

Fixpoint add_paths (fs : list string) (ps : list string) : list string :=
  match ps with
  | [] => fs
  | p :: rest => add_paths (if str_in p fs then fs else fs ++ [p]) rest
  end.

Definition entry_paths (d : string) (entries : list dl_entry) : list string :=
  flat_map (fun e => match e with DlPath f => [path_join d f] | DlError _ => [] end)
    entries.

(** One call of [earthaccess.download(granule_list, tmp_dir)]: the files
    it reports as fetched are now in [tmp_dir]. *)
Definition earthaccess_download (env : Env) (granule_list : list Granule)
  (tmp_dir : string) : M (list dl_entry) :=
  fun w =>
    let entries := download env (downloads w) granule_list tmp_dir in
    (Ok entries,
     mkworld (add_paths (files w) (entry_paths tmp_dir entries)) (dirs w)
       (S (downloads w)) (log w ++ [EvDownload granule_list tmp_dir])).

Definition max_num_tries : nat := 3.

(** The local variables of the retry loop; [dl_files] is [None] while
    [files] is unbound. *)
Record dl_state : Type := mkdl {
  num_tries : nat;
  num_downloaded_files : nat;
  dl_files : option (list dl_entry)
}.

(** The outcome of a computation that runs the retry loop: [OutOfFuel]
    when the loop needs more iterations than the bound given. *)
Inductive outcome (A : Type) : Type :=
| Done (r : result A)
| OutOfFuel.
Arguments Done {A} r.
Arguments OutOfFuel {A}.

(** The [while] loop; [fuel] bounds the number of iterations run. *)
Fixpoint download_loop (env : Env) (fuel : nat) (granule_list : list Granule)
  (tmp_dir : string) (num_expected_files : nat) (st : dl_state) (w : World)
  : outcome dl_state * World :=
  if (num_tries st <? max_num_tries)%nat
     && (num_downloaded_files st <? num_expected_files)%nat
  then
    match fuel with
    | O => (OutOfFuel, w)
    | S fuel' =>
        match earthaccess_download env granule_list tmp_dir w with
        | (Ok entries, w') =>
            download_loop env fuel' granule_list tmp_dir num_expected_files
              (mkdl (num_tries st) (count_str entries) (Some entries)) w'
        | (Raise e, w') => (Done (Raise e), w')
        end
    end
  else (Done (Ok st), w).

(** [[os.path.join(tmp_dir, f) for f in files]] *)
Fixpoint join_all (tmp_dir : string) (entries : list dl_entry)
  : result (list string) :=
  match entries with
  | [] => Ok []
  | DlPath f :: rest =>
      (ps <- join_all tmp_dir rest ;; Ok (path_join tmp_dir f :: ps))%result
  | DlError _ :: _ =>
      Raise (TypeError "expected str, bytes or os.PathLike object, not Exception")
  end.

Definition _earthaccess_download (env : Env) (fuel : nat)
  (granule_list : list Granule) (tmp_dir : string) (w : World)
  : outcome (list string) * World :=
  let '(_, w1) := mkdir_exist_ok tmp_dir w in
  match download_loop env fuel granule_list tmp_dir (length granule_list)
          (mkdl 0 0 None) w1 with
  | (OutOfFuel, w2) => (OutOfFuel, w2)
  | (Done (Raise e), w2) => (Done (Raise e), w2)
  | (Done (Ok st), w2) =>
      match dl_files st with
      | None => (Done (Raise (UnboundLocalError "files")), w2)
      | Some entries => (Done (join_all tmp_dir entries), w2)
      end
  end.

(** ** Orchestrator: [run_subagg] *)

(** [os.remove(path)] *)
Definition os_remove (path : string) : M unit :=
  (emit (EvRemove path) ;;;
   fun w => if os_access w path then
              (Ok tt,
               mkworld (List.filter (fun f => negb (String.eqb path f)) (files w))
                 (dirs w) (downloads w) (log w))
            else (Raise (FileNotFoundError path), w))%M.

(** What the two loading loops leave behind: [dat_list], and [dims] and
    [attrs] of the last granule loaded (unbound before the first). *)
Definition load_acc : Type :=
  list (dict ndarray) * option (dict dimrec * dict (dict value)).

Definition load_files (env : Env) (var_list : list string)
  (downloaded_filepaths : list string) : M load_acc :=
  for_each downloaded_filepaths
    (fun fpath '(dat_list, _) =>
       (r <- load_granule_from_file env fpath var_list ;;
        let '(dat, dims, attrs) := r in
        os_remove fpath ;;;
        ret (dat_list ++ [dat], Some (dims, attrs)))%M)
    ([], None).

Definition load_streams (env : Env) (var_list : list string)
  (s3_objs : list S3Obj) : M load_acc :=
  for_each s3_objs
    (fun s3_obj '(dat_list, _) =>
       (r <- load_granule_from_s3 env s3_obj var_list ;;
        let '(dat, dims, attrs) := r in
        emit (EvClose s3_obj) ;;;
        ret (dat_list ++ [dat], Some (dims, attrs)))%M)
    ([], None).

(** [cdat, cdims = concat_granules(dat_list, dims);
     write_cdat(cdat, cdims, attrs, output_file)] *)
Definition aggregate_and_write (env : Env) (acc : load_acc)
  (output_file : string) : M unit :=
  match acc with
  | (_, None) => raise (UnboundLocalError "dims")
  | (dat_list, Some (dims, attrs)) =>
      (c <- lift (concat_granules (numpy env) dat_list dims) ;;
       let '(cdat, cdims) := c in
       write_cdat cdat cdims attrs output_file)%M
  end.

Definition no_granules_msg (year doy : Z) : string :=
  "Year " +:+ Py.str_of_int year +:+ ", DOY " +:+ Py.str_of_int doy
  +:+ " returned no granules".

(** Run an always-terminating computation as an outcome. *)
Definition done {A : Type} (m : M A) (w : World) : outcome A * World :=
  let '(r, w') := m w in (Done r, w').

Definition run_subagg (env : Env) (fuel : nat) (year doy : Z)
  (platform : string) (var_list : list string) (output_file : string)
  (local_download : bool) (tmp_dir : string) (w : World)
  : outcome unit * World :=
  match (short_name <- lift (get_climcaps_short_name platform) ;;
         get_granule_list env year doy short_name)%M w with
  | (Raise e, w1) => (Done (Raise e), w1)
  | (Ok granule_list, w1) =>
      if (length granule_list =? 0)%nat then
        done (emit (EvPrint (no_granules_msg year doy))) w1
      else if local_download then
        match _earthaccess_download env fuel granule_list tmp_dir w1 with
        | (OutOfFuel, w2) => (OutOfFuel, w2)
        | (Done (Raise e), w2) => (Done (Raise e), w2)
        | (Done (Ok downloaded_filepaths), w2) =>
            done (acc <- load_files env var_list downloaded_filepaths ;;
                  aggregate_and_write env acc output_file)%M w2
        end
      else
        done (emit (EvOpen granule_list) ;;;
              acc <- load_streams env var_list (s3_open env granule_list) ;;
              aggregate_and_write env acc output_file)%M w1
  end.

Definition tmp_dir_default : string := "climcaps_subagg_tmp".

(** ** The production driver loop ([ghg_project_production.py]) *)

Definition with_suffixes (pre : string) (rvars : list string) : list string :=
  flat_map (fun rv => map (fun s => pre +:+ rv +:+ s) [""; "_qc"; "_err"]) rvars.

Definition var_list : list string :=
  ["obs_time_tai93"; "lat"; "lon"; "land_frac"; "surf_alt"]
  ++ with_suffixes ""
       ["air_temp"; "surf_air_temp"; "spec_hum"; "surf_spec_hum"; "h2o_vap_tot";
        "ch4_mmr_midtrop"; "surf_temp"; "cld_frac"; "cld_top_pres"; "surf_ir_emis"]
  ++ ["air_temp_dof"; "h2o_vap_dof"; "ch4_dof"; "co2_dof";
      "surf_ir_wnum_cnt"; "surf_ir_wnum"; "num_cld"; "num_cld_qc";
      "air_pres"; "air_pres_lay"; "air_pres_lay_bnds"]
  ++ with_suffixes "mw/" ["mw_air_temp"; "mw_surf_temp"]
  ++ map (fun v => "ave_kern/" +:+ v)
       ["co2_ave_kern"; "co2_func_pres"; "co2_func_last_indx";
        "co2_func_indxs"; "co2_func_htop"; "co2_func_hbot"]
  ++ with_suffixes "aux/"
       ["co2_vmr"; "for_cld_frac_tot"; "for_cld_top_pres_tot";
        "for_cld_frac_2lay"; "for_cld_top_pres_2lay"]
  ++ map (fun v => "aux/" +:+ v)
       ["clim_surf_ir_emis"; "clim_surf_ir_wnum"; "clim_surf_ir_wnum_cnt";
        "cldfrc_tot"; "cldfrc_500"; "ampl_eta"; "fg_air_temp"; "fg_surf_temp";
        "fov_weight"; "chi2_temp"; "chi2_h2o"; "chi2_co2"; "pbest"; "pgood";
        "nbest"; "ngood"; "qualtemp"; "qualsurf"].

(** ['{:s}_subaggregate_{:4d}-{:03d}.nc'.format(short_name, year, doy)] *)
Definition output_file_name (short_name : string) (year doy : Z) : string :=
  short_name +:+ "_subaggregate_" +:+ Py.fmt_d_width 4 year +:+ "-"
  +:+ Py.fmt_d_zero 3 doy +:+ ".nc".

Definition skipping_msg (year doy : Z) : string :=
  "**** skipping yr " +:+ Py.str_of_int year +:+ " doy "
  +:+ Py.fmt_d_width 3 doy +:+ ", file already exists".

Definition computing_msg (year doy : Z) : string :=
  "**** computing yr " +:+ Py.str_of_int year +:+ " doy " +:+ Py.fmt_d_width 3 doy.

(** The elapsed times printed after a unit are wall-clock readings; the
    model keeps the fixed part of the line. *)
Definition elapsed_msg : string := "****     elapsed time (this file): ".

(** The body of [for doy in doy_list]; [output_path] is the identity in
    the daily script and [os.path.join(output_dir, .)] in the yearly one. *)
Definition production_day (env : Env) (fuel : nat) (platform short_name : string)
  (year : Z) (output_path : string -> string) (doy : Z) (w : World)
  : outcome unit * World :=
  let output_file := output_path (output_file_name short_name year doy) in
  if os_access w output_file then
    done (emit (EvPrint (skipping_msg year doy))) w
  else
    let '(_, w1) := emit (EvPrint (computing_msg year doy)) w in
    match run_subagg env fuel year doy platform var_list output_file true
            tmp_dir_default w1 with
    | (Done (Ok _), w2) => done (emit (EvPrint elapsed_msg)) w2
    | stopped => stopped
    end.

Fixpoint production_loop (env : Env) (fuel : nat) (platform short_name : string)
  (year : Z) (output_path : string -> string) (doy_list : list Z) (w : World)
  : outcome unit * World :=
  match doy_list with
  | [] => (Done (Ok tt), w)
  | doy :: rest =>
      match production_day env fuel platform short_name year output_path doy w with
      | (Done (Ok _), w') =>
          production_loop env fuel platform short_name year output_path rest w'
      | stopped => stopped
      end
  end.

(** [ghg_project_production.py]: platform 'snpp-normal', year 2015,
    [doy_list = range(8, 11)]. *)
Definition ghg_project_production (env : Env) (fuel : nat) (w : World)
  : outcome unit * World :=
  let platform := "snpp-normal" in
  match get_climcaps_short_name platform with
  | Raise e => (Done (Raise e), w)
  | Ok short_name =>
      match startup env w with
      | (Raise e, w1) => (Done (Raise e), w1)
      | (Ok _, w1) =>
          production_loop env fuel platform short_name 2015 (fun f => f)
            [8; 9; 10] w1
      end
  end.

(** [ghg_project_production_yearly.py] for the year given on the command
    line, [year] being [int(year_string)]: the output directories are
    created, the days of the year are counted, [startup] logs in, every
    day of the year is visited, and the files go under [output_dir].  An
    exception of a set-up step ends the script there. *)
Definition output_top_dir : string := "/home/merrelli/data/CLIMCAPS".

Definition ghg_project_production_yearly (env : Env) (fuel : nat)
  (year_string : string) (year : Z) (w : World) : outcome unit * World :=
  let platform := "snpp-normal" in
  match get_climcaps_short_name platform with
  | Raise e => (Done (Raise e), w)
  | Ok short_name =>
      let output_dir := path_join (path_join output_top_dir platform) year_string in
      match (mkdir_exist_ok (path_join output_top_dir platform) ;;;
             mkdir_exist_ok output_dir ;;;
             lift (next <- Datetime.datetime (year + 1) 1 1 ;;
                   this <- Datetime.datetime year 1 1 ;;
                   Ok (Datetime.toordinal next - Datetime.toordinal this))%result)%M
              w with
      | (Raise e, w2) => (Done (Raise e), w2)
      | (Ok ndays, w2) =>
          let doy_list := map (fun i => Z.of_nat i + 1) (seq 0 (Z.to_nat ndays)) in
          match startup env w2 with
          | (Raise e, w3) => (Done (Raise e), w3)
          | (Ok _, w3) =>
              production_loop env fuel platform short_name year
                (path_join output_dir) doy_list w3
          end
      end
  end.

(** ** Observations on the event log *)

Definition is_download (e : event) : bool :=
  match e with EvDownload _ _ => true | _ => false end.

Definition is_read (e : event) : bool :=
  match e with EvRead _ => true | _ => false end.

(** The events of the resolve / fetch / load / write pipeline: every
    event but the log-in and the printed messages. *)
Definition is_pipeline (e : event) : bool :=
  match e with
  | EvLogin _ | EvPrint _ => false
  | _ => true
  end.

(** number of batch downloads issued *)
Definition count_downloads (l : list event) : nat :=
  length (List.filter is_download l).

(** The errors a failed lookup in a list, dict or container raises. *)
Definition lookup_error (e : exn) : Prop :=
  match e with
  | IndexError _ | KeyError _ | TypeError _ => True
  | _ => False
  end.

Definition raises_only {A : Type} (P : exn -> Prop) (r : result A) : Prop :=
  match r with
  | Ok _ => True
  | Raise e => P e
  end.

(** The events of a read that got a payload: the container is opened on
    exactly these bytes and, once opened, closed again. *)
Definition parse_events (env : Env) (payload : list Byte.byte) : list event :=
  EvDatasetMemory payload ::
  match dataset_memory env payload with
  | Opened _ => [EvDatasetClose]
  | Refused _ => []
  end.

(** ** Observations on the aggregate *)

(** The leading-axis extent of an array, 0 for a scalar. *)
Definition extent0 (a : ndarray) : nat := hd 0%nat (shape a).

(** The leading-axis extent of variable [v] in a record: 0 when the
    record does not hold [v]. *)
Definition leading_extent (dat : dict ndarray) (v : string) : nat :=
  match Dict.get dat v with
  | Some a => extent0 a
  | None => 0%nat
  end.

Definition sum_nat (l : list nat) : nat := fold_right Nat.add 0%nat l.

(** Whether [concat_granules] joins variable [v]: its descriptor in
    [dims] lists the track axis. *)
Definition tracked (dims : dict dimrec) (v : string) : bool :=
  match Dict.get dims v with
  | Some d => str_in atrack (names d)
  | None => false
  end.

(** Arrays that [np.concatenate] joins along axis 0 as they are: same
    element type, at least one axis, same trailing shape. *)
Definition joinable (a b : ndarray) : Prop :=
  arr_dtype a = arr_dtype b /\ shape a <> [] /\ shape b <> [] /\
  tl (shape a) = tl (shape b).

(** Inputs of the kind the loader produces from granules of one
    product: every variable has its descriptor; a variable whose
    descriptor starts with the track axis is an array with at least one
    axis and a size per name; and the array a later record holds for a
    tracked variable can be joined to the first record's. *)
Definition aggregable (first : dict ndarray) (rest : list (dict ndarray))
  (dims : dict dimrec) : Prop :=
  (forall v a, In (v, a) first ->
     exists d, Dict.get dims v = Some d /\
               ((exists others, names d = atrack :: others) ->
                shape a <> [] /\ sizes d <> [])) /\
  (forall dat v a, In dat rest -> In (v, a) dat ->
     exists d, Dict.get dims v = Some d /\
               (str_in atrack (names d) = true ->
                exists a0, Dict.get first v = Some a0 /\ joinable a0 a)).

(** What the running aggregate keeps of the first record. *)
Definition follows (first cdat : dict ndarray) : Prop :=
  Dict.keys cdat = Dict.keys first /\
  forall v a0, Dict.get first v = Some a0 ->
    exists c, Dict.get cdat v = Some c /\
              arr_dtype c = arr_dtype a0 /\
              tl (shape c) = tl (shape a0) /\
              (shape a0 <> [] -> shape c <> []).

(** ** Observations on the writer *)

(** An array [write_cdat] refuses: element type object, and a first
    element that is not a [str]. *)
Definition offending (a : ndarray) : bool :=
  dtype_eqb (arr_dtype a) DObject
  && match flat a with
     | x :: _ => negb (is_str x)
     | [] => false
     end.

(** The three mappings are keyed alike: every variable of [cdat] has its
    descriptor and its attribute map. *)
Definition covered (cdat : dict ndarray) (dims : dict dimrec)
  (attrs : dict (dict value)) : Prop :=
  forall v, In v (Dict.keys cdat) ->
            Dict.mem dims v = true /\ Dict.mem attrs v = true.

(** Every object array has a first element. *)
Definition objects_inhabited (cdat : dict ndarray) : Prop :=
  forall v a, In (v, a) cdat -> arr_dtype a = DObject -> flat a <> [].


Definition add_log (w : World) (evs : list event) : World :=
  mkworld (files w) (dirs w) (downloads w) (log w ++ evs).

(** The calls [write_var] makes for one variable, when it raises
    nothing: creation, assignment, then the attributes. *)
Definition attr_events (v : string) (av : dict value) : list event :=
  flat_map (fun '(aname, avalue) =>
              if String.eqb aname FillValue then []
              else [EvSetncattr v aname avalue]) av.

Definition var_events (dims : dict dimrec) (attrs : dict (dict value))
  (kv : string * ndarray) : result (list event) :=
  let '(v, a) := kv in
  (av <- Dict.getitem attrs v ;;
   dt <- output_dtype a ;;
   d <- Dict.getitem dims v ;;
   Ok (EvCreateVariable v dt (names d) (Dict.get av FillValue)
       :: EvAssign v a :: attr_events v av))%result.

Arguments var_events : simpl never.

(** The calls of the loop over [cdat], up to the first variable that
    raises. *)
Fixpoint vars_events (dims : dict dimrec) (attrs : dict (dict value))
  (cdat : dict ndarray) : result unit * list event :=
  match cdat with
  | [] => (Ok tt, [])
  | kv :: rest =>
      match var_events dims attrs kv with
      | Raise e => (Raise e, [])
      | Ok evs =>
          let '(r, evs') := vars_events dims attrs rest in (r, evs ++ evs')
      end
  end.

Definition dim_events (merged : dict nat) : list event :=
  map (fun '(dim, dim_size) => EvCreateDimension dim dim_size) merged.

(** ** Further observations *)

(** The exceptions of a list index out of range, and of the date
    arithmetic. *)
Definition index_error (e : exn) : Prop :=
  match e with IndexError _ => True | _ => False end.

Definition window_error (e : exn) : Prop :=
  match e with
  | ValueError _ | OverflowError _ => True
  | _ => False
  end.

(** The elements variable [v] has in a record, none when the record
    does not hold [v]. *)
Definition flat_of (dat : dict ndarray) (v : string) : list value :=
  match Dict.get dat v with
  | Some a => flat a
  | None => []
  end.

(** The size the container declares for dimension [dim] of variable
    [v]: the size of the root dimension of that name and, only when the
    root has no dimension of that name, the size given by the top-level
    group of [v], the group named by the part of [v] before its first
    ['/']. *)
Definition declared_size (nc : NcFile) (v dim : string) (n : nat) : Prop :=
  Dict.get (nc_dimensions nc) dim = Some n \/
  (Dict.get (nc_dimensions nc) dim = None /\
   exists grp rest gd,
     Py.split "/" v = grp :: rest /\
     Dict.get (nc_nodes nc) grp = Some (NGroup gd) /\
     Dict.get gd dim = Some n).

(** What the loader returns holds for variable [v] of container [nc]:
    the variable's array and attributes, and a descriptor with the
    variable's dimension names and, for each name in turn, the size the
    container declares. *)
Definition loads (nc : NcFile) (r : loaded) (v : string) : Prop :=
  let '(dat, dims, attrs) := r in
  exists x d,
    Dict.get (nc_nodes nc) v = Some (NVar x) /\
    Dict.get dat v = Some (nv_data x) /\
    Dict.get attrs v = Some (nv_attrs x) /\
    Dict.get dims v = Some d /\
    names d = nv_dimensions x /\
    Forall2 (declared_size nc v) (names d) (sizes d).

(** The body of the loader's loop. *)
Definition load_var (nc : NcFile) (v : string) (acc : loaded) : result loaded :=
  let '(dat, dims, attrs) := acc in
  (x <- nc_variable nc v ;;
   d <- load_dims nc v (nv_dimensions x) (mkdimrec [] []) ;;
   Ok (Dict.set dat v (nv_data x), Dict.set dims v d,
       Dict.set attrs v (nv_attrs x)))%result.

(** The dimensions, variables and assignments a log records, in order. *)
Definition created_dimensions (l : list event) : dict nat :=
  flat_map (fun e => match e with
                     | EvCreateDimension dim n => [(dim, n)]
                     | _ => []
                     end) l.

Definition created_variables (l : list event) : list string :=
  flat_map (fun e => match e with
                     | EvCreateVariable v _ _ _ => [v]
                     | _ => []
                     end) l.

Definition assigned (l : list event) : dict ndarray :=
  flat_map (fun e => match e with
                     | EvAssign v a => [(v, a)]
                     | _ => []
                     end) l.

(** The (name, size) pairs of all the descriptors, in the order the two
    loops that build [merged_dim_list] visit them. *)
Definition declared (dims : dict dimrec) : dict nat :=
  flat_map (fun '(_, d) => combine (names d) (sizes d)) dims.

(** The exceptions [write_cdat] raises on an array it cannot type, and
    the exception of [os.path.join] on a list entry that is no path. *)
Definition format_error (e : exn) : Prop :=
  match e with
  | ValueError _ | IndexError _ => True
  | _ => False
  end.


Definition is_close (e : event) : bool :=
  match e with EvClose _ => true | _ => false end.

(** Reading a day number back from its ['{:03d}'] form: an optional
    sign, then decimal digits. *)
Definition parse_d (s : string) : option Z :=
  match s with
  | EmptyString => None
  | String a t =>
      if Ascii.eqb a "-" then
        option_map (fun d => - Z.of_uint d) (NilEmpty.uint_of_string t)
      else option_map Z.of_uint (NilEmpty.uint_of_string s)
  end.

(** The file system of [w'] is that of [w], but for the path [out]. *)
Definition same_files_but (out : string) (w w' : World) : Prop :=
  (forall p, p <> out -> os_access w' p = os_access w p) /\
  dirs w' = dirs w /\ downloads w' = downloads w.

(** ** Sample inputs *)

Definition np_same : Numpy :=
  {| result_type := fun a _ => Ok a; astype := fun _ x => x |}.

(** An environment whose catalog answers every query with [gl], whose
    batch download answers every call with [entries], and whose files and
    streams all hold the container [nc]. *)
Definition sample_env (gl : list Granule) (entries : list dl_entry)
  (streams : list S3Obj) (nc : opened) : Env :=
  {| numpy := np_same;
     login := fun _ => Ok tt;
     search_data := fun _ _ _ => gl;
     download := fun _ _ _ => entries;
     s3_open := fun _ => streams;
     dataset_memory := fun _ => nc;
     dataset_file := fun _ => nc |}.

Definition empty_world : World := mkworld [] [] 0 [].

(** A granule of the JPSS-1 product with a single data link, named after
    the pattern quoted in [get_granule_list]. *)
Definition climcaps_url (stamp : string) : string :=
  "https://data.gesdisc.earthdata.nasa.gov/data/SNDR.J1.CRIMSS." +:+ stamp
  +:+ ".m06.g240.L2_CLIMCAPS_RET.std.v02_28.G.200215102526.nc".

Definition granule_of (stamp : string) : Granule :=
  mkgranule [climcaps_url stamp].

(** A granule of the requested day with a second data link, whose file
    name does not carry the date in its fourth segment. *)
Definition granule_two_links : Granule :=
  mkgranule
    [ climcaps_url "20191009T2354";
      "https://data.gesdisc.earthdata.nasa.gov/data/SNDR.J1.CRIMSS.L2_CLIMCAPS_RET.20191009T2354.g240.aux.nc" ].

(** A container with the track variable [lat] (two scans) and the
    static scalar [land_frac]. *)
Definition lat_var (a b : Z) : NcVariable :=
  mkncvar (mkarray (DFloat 32) [2%nat] [VFloat a; VFloat b]) ["atrack"]
    [("_FillValue", VFloat (-9999)); ("units", VStr "degrees_north")].

Definition land_frac_var (x : Z) : NcVariable :=
  mkncvar (mkarray (DFloat 32) [] [VFloat x]) [] [("units", VStr "1")].

Definition sample_nc : NcFile :=
  mkncfile [("lat", NVar (lat_var 1 2)); ("land_frac", NVar (land_frac_var 7))]
    [("atrack", 2%nat)].

Definition sample_stream : S3Obj := mks3 "granule" [Byte.x89; Byte.x48; Byte.x44; Byte.x46].

(** A container with the group [aux]: the dimension [atrack] is declared
    by the root with size 3 and again by the group with size 5, [fov] by
    the group alone. *)
Definition chi2_var : NcVariable :=
  mkncvar
    (mkarray (DFloat 32) [3%nat; 2%nat]
       [VFloat 1; VFloat 2; VFloat 3; VFloat 4; VFloat 5; VFloat 6])
    ["atrack"; "fov"] [("units", VStr "1")].

Definition grouped_nc : NcFile :=
  mkncfile
    [ ("aux", NGroup [("atrack", 5%nat); ("fov", 2%nat)]);
      ("aux/chi2_temp", NVar chi2_var) ]
    [("atrack", 3%nat)].

(** Two granules of 2019-10-09, served as streams that hold [sample_nc]. *)
Definition streaming_env : Env :=
  sample_env [granule_of "20191009T0000"; granule_of "20191009T2354"] []
    [sample_stream; sample_stream] (Opened sample_nc).

(** Two loaded records with [lat] of shape (45,) on the track axis and
    the dimensionless [land_frac], and the descriptors of one of them. *)
Definition lat45 (x : Z) : ndarray :=
  mkarray (DFloat 32) [45%nat] (List.repeat (VFloat x) 45).

Definition record_of (lat land : Z) : dict ndarray :=
  [ ("lat", lat45 lat); ("land_frac", mkarray (DFloat 32) [] [VFloat land]) ].

Definition sample_dims : dict dimrec :=
  [ ("lat", mkdimrec ["atrack"] [45%nat]); ("land_frac", mkdimrec [] []) ].

(** The aggregate of the two sample records. *)
Definition sample_aggregate : dict ndarray * dict dimrec :=
  match concat_granules np_same [record_of 1 7; record_of 2 8] sample_dims with
  | Ok r => r
  | Raise _ => ([], [])
  end.










Definition temp_cdat : dict ndarray :=
  [ ("surf_temp", mkarray (DFloat 32) [2%nat] [VFloat 280; VFloat 281]);
    ("num_cld", mkarray (DInt 8) [2%nat] [VInt 0; VInt 2]) ].

Definition temp_dims : dict dimrec :=
  [ ("surf_temp", mkdimrec ["atrack"] [2%nat]);
    ("num_cld", mkdimrec ["atrack"] [2%nat]) ].

Definition temp_attrs : dict (dict value) :=
  [ ("surf_temp", [("_FillValue", VInt (-9999)); ("units", VStr "K")]);
    ("num_cld", [("units", VStr "1")]) ].

(** A store in which the two records of [dat_list] share their arrays:
    locations 0-1 the arrays, 2-3 the records, 4 [dat_list], 5-10 the
    descriptors and their lists, 11 [dims]. *)
Definition shared_store : Store.heap :=
  [ Store.OArray (mkarray (DFloat 32) [2%nat] [VFloat 1; VFloat 2]);
    Store.OArray (mkarray (DFloat 32) [] [VFloat 7]);
    Store.ODict [("lat", 0%nat); ("land_frac", 1%nat)];
    Store.ODict [("lat", 0%nat); ("land_frac", 1%nat)];
    Store.ORefs [2%nat; 3%nat];
    Store.OStrs ["atrack"];
    Store.OInts [2%nat];
    Store.ODict [("names", 5%nat); ("sizes", 6%nat)];
    Store.OStrs [];
    Store.OInts [];
    Store.ODict [("names", 8%nat); ("sizes", 9%nat)];
    Store.ODict [("lat", 7%nat); ("land_frac", 10%nat)] ].

(** The record both entries of [dat_list] stand for in [shared_store],
    and the descriptors held there. *)
Definition shared_record : dict ndarray :=
  [ ("lat", mkarray (DFloat 32) [2%nat] [VFloat 1; VFloat 2]);
    ("land_frac", mkarray (DFloat 32) [] [VFloat 7]) ].

Definition shared_dims : dict dimrec :=
  [ ("lat", mkdimrec ["atrack"] [2%nat]); ("land_frac", mkdimrec [] []) ].

(** What the loader returns for [sample_nc], and the aggregate of two
    such records. *)
Definition sample_loaded : loaded :=
  match _load_from_netCDF4 sample_nc ["lat"; "land_frac"] with
  | Ok r => r
  | Raise _ => ([], [], [])
  end.

Definition sample_loaded_aggregate : dict ndarray * dict dimrec :=
  match concat_granules np_same [fst (fst sample_loaded); fst (fst sample_loaded)]
          (snd (fst sample_loaded)) with
  | Ok c => c
  | Raise _ => ([], [])
  end.

(** An environment whose batch download fails on its first [failures]
    calls and then delivers the one file asked for. *)
Definition flaky_env (failures : nat) : Env :=
  {| numpy := np_same;
     login := fun _ => Ok tt;
     search_data := fun _ _ _ => [];
     download := fun k _ _ =>
                   if (k <? failures)%nat then [DlError "timed out"]
                   else [DlPath "granule.nc"];
     s3_open := fun _ => [];
     dataset_memory := fun _ => Refused "unused";
     dataset_file := fun _ => Refused "unused" |}.

(** A file system with two downloaded granules and an unrelated file,
    in an environment where every file holds [sample_nc]. *)
Definition downloaded_world : World :=
  mkworld ["tmp/a.nc"; "tmp/b.nc"; "keep.nc"] ["tmp"] 1 [].

Definition local_env : Env :=
  sample_env [granule_of "20191009T0000"; granule_of "20191009T2354"]
    [DlPath "a.nc"; DlPath "b.nc"] [] (Opened sample_nc).

(** A catalog that answers with a single granule of 2015-01-08, and a
    file system that holds the output of day 8 of 2015. *)
Definition stale_env : Env :=
  sample_env [granule_of "20150108T2354"] [] [] (Refused "unused").

Definition day8_done : World :=
  mkworld ["SNDRSNIML2CCPRETN_subaggregate_2015-008.nc"] [] 0 [].

(** A file system where the directory [tmp] has been made, and one with
    the two output directories of the yearly driver for 2016. *)
Definition tmp_made : World := mkworld [] ["tmp"] 0 [].

Definition yearly_world : World :=
  mkworld []
    [ "/home/merrelli/data/CLIMCAPS/snpp-normal";
      "/home/merrelli/data/CLIMCAPS/snpp-normal/2016" ] 0 [].

(** An environment in which no log-in succeeds for want of
    credentials. *)
Definition offline_env : Env :=
  {| numpy := np_same;
     login := fun _ => Raise (OSError "no credentials");
     search_data := fun _ _ _ => [];
     download := fun _ _ _ => [];
     s3_open := fun _ => [];
     dataset_memory := fun _ => Refused "unused";
     dataset_file := fun _ => Refused "unused" |}.

(** * Properties *)
Example split_basename :
  Py.getitem (Py.split "/" "https://host/dir/SNDR.J1.CRIMSS.20191009T2354.m06.nc") (-1)
  = Ok "SNDR.J1.CRIMSS.20191009T2354.m06.nc".
Proof. reflexivity. Qed.

Example split_token :
  Py.split "." "SNDR.J1.CRIMSS.20191009T2354.m06.nc"
  = ["SNDR"; "J1"; "CRIMSS"; "20191009T2354"; "m06"; "nc"].
Proof. reflexivity. Qed.

Example fmt_examples :
  Py.fmt_d_width 4 2015 = "2015" /\ Py.fmt_d_width 4 15 = "  15" /\
  Py.fmt_d_zero 3 8 = "008" /\ Py.fmt_d_zero 3 (-8) = "-08" /\
  Py.fmt_d_zero 3 1234 = "1234".
Proof. repeat split; reflexivity. Qed.

Example doy_282_of_2019 :
  rbind (Datetime.datetime 2019 1 1) (fun d => Datetime.add_days d (282 - 1))
  = Ok (Datetime.mkdate 2019 10 9).
Proof. reflexivity. Qed.

Example doy_366_of_2016_and_2015 :
  rbind (Datetime.datetime 2016 1 1) (fun d => Datetime.add_days d 365)
  = Ok (Datetime.mkdate 2016 12 31) /\
  rbind (Datetime.datetime 2015 1 1) (fun d => Datetime.add_days d 365)
  = Ok (Datetime.mkdate 2016 1 1) /\
  rbind (Datetime.datetime 2015 1 1) (fun d => Datetime.add_days d (-1))
  = Ok (Datetime.mkdate 2014 12 31).
Proof. repeat split; reflexivity. Qed.

Lemma rfold_cons {A S : Type} (x : A) (l : list A) (body : A -> S -> result S)
  (s : S) :
  rfold (x :: l) body s = rbind (body x s) (rfold l body).
Proof. reflexivity. Qed.

Lemma rbind_Ok {A B : Type} (r : result A) (k : A -> result B) (b : B) :
  rbind r k = Ok b -> exists a, r = Ok a /\ k a = Ok b.
Proof. destruct r as [a|e]; simpl; [eauto | discriminate]. Qed.

(** ** Transfer retry wrapper *)

Lemma count_downloads_app (l1 l2 : list event) :
  count_downloads (l1 ++ l2) = (count_downloads l1 + count_downloads l2)%nat.
Proof.
  unfold count_downloads. rewrite List.filter_app, List.length_app. reflexivity.
Qed.

(** While no call delivers every file, each unit of fuel is spent on one
    more call of the batch download: [num_tries] stays at 0. *)
Lemma download_loop_never_full (env : Env) (gl : list Granule) (tmp_dir : string) :
  (forall k, (count_str (download env k gl tmp_dir) < length gl)%nat) ->
  forall fuel st w,
    num_tries st = 0%nat ->
    (num_downloaded_files st < length gl)%nat ->
    fst (download_loop env fuel gl tmp_dir (length gl) st w) = OutOfFuel /\
    count_downloads (log (snd (download_loop env fuel gl tmp_dir (length gl) st w)))
    = (count_downloads (log w) + fuel)%nat.
Proof.
  intros Hfail fuel. induction fuel as [|fuel IH]; intros st w Htries Hnum.
  - simpl. rewrite Htries.
    replace (num_downloaded_files st <? length gl)%nat with true
      by (symmetry; apply Nat.ltb_lt; exact Hnum).
    simpl. split; [reflexivity | lia].
  - simpl. rewrite Htries.
    replace (num_downloaded_files st <? length gl)%nat with true
      by (symmetry; apply Nat.ltb_lt; exact Hnum).
    simpl.
    match goal with
    | |- context [download_loop env fuel gl tmp_dir (length gl) ?s ?w'] =>
        destruct (IH s w') as [Hr Hc]; [reflexivity | apply Hfail |]
    end.
    rewrite Hr, Hc. split; [reflexivity|].
    simpl. rewrite count_downloads_app. unfold count_downloads at 2. simpl. lia.
Qed.

(** The early stop works: when the first attempt delivers every file,
    the loop ends after that one call. *)
Lemma download_loop_stops_on_success (env : Env) (gl : list Granule)
  (tmp_dir : string) (w : World) (fuel : nat) :
  (0 < length gl)%nat ->
  (length gl <= count_str (download env (downloads w) gl tmp_dir))%nat ->
  fst (download_loop env (S fuel) gl tmp_dir (length gl) (mkdl 0 0 None) w)
  = Done (Ok (mkdl 0 (count_str (download env (downloads w) gl tmp_dir))
                (Some (download env (downloads w) gl tmp_dir)))) /\
  count_downloads
    (log (snd (download_loop env (S fuel) gl tmp_dir (length gl) (mkdl 0 0 None) w)))
  = (count_downloads (log w) + 1)%nat.
Proof.
  intros Hlen Hall. cbn [download_loop num_tries num_downloaded_files].
  replace (0 <? max_num_tries)%nat with true by reflexivity.
  replace (0 <? length gl)%nat with true by (symmetry; apply Nat.ltb_lt; exact Hlen).
  cbn [andb]. unfold earthaccess_download.
  assert (Hstop : forall st' w',
             num_downloaded_files st' = count_str (download env (downloads w) gl tmp_dir) ->
             download_loop env fuel gl tmp_dir (length gl) st' w' = (Done (Ok st'), w')).
  { intros st' w' Hn.
    assert (Hc : ((num_tries st' <? max_num_tries)%nat
                  && (num_downloaded_files st' <? length gl)%nat) = false).
    { apply andb_false_iff. right. apply Nat.ltb_ge. rewrite Hn. exact Hall. }
    destruct fuel; simpl; rewrite Hc; reflexivity. }
  rewrite Hstop by reflexivity. simpl. split; [reflexivity|].
  rewrite count_downloads_app. unfold count_downloads at 2. simpl. lia.
Qed.

(** C1 (the code does not do this): [_earthaccess_download] is claimed to
    call the batch download at most 3 times and to terminate.  The loop
    never increments [num_tries]: when no attempt delivers every file (the
    returned list always holds fewer path entries than granules were
    asked for), the loop exhausts any number [fuel] of iterations, having
    called the batch download [fuel] times. *)
Theorem earthaccess_download_unbounded (env : Env) (gl : list Granule)
  (tmp_dir : string) (w : World) (fuel : nat) :
  (forall k, (count_str (download env k gl tmp_dir) < length gl)%nat) ->
  fst (_earthaccess_download env fuel gl tmp_dir w) = OutOfFuel /\
  count_downloads (log (snd (_earthaccess_download env fuel gl tmp_dir w)))
  = (count_downloads (log w) + fuel)%nat.
Proof.
  intros Hfail. unfold _earthaccess_download.
  assert (Hlen : (0 < length gl)%nat) by (specialize (Hfail 0%nat); lia).
  destruct (mkdir_exist_ok tmp_dir w) as [u w1] eqn:Hmk.
  destruct (download_loop_never_full env gl tmp_dir Hfail fuel (mkdl 0 0 None)
              w1 eq_refl Hlen) as [Hr Hc].
  destruct (download_loop env fuel gl tmp_dir (length gl) (mkdl 0 0 None) w1)
    as [r w2].
  simpl in Hr, Hc. subst r. simpl. split; [reflexivity|].
  rewrite Hc. unfold mkdir_exist_ok, bind, emit in Hmk. simpl in Hmk.
  inversion Hmk; subst. simpl. rewrite count_downloads_app.
  unfold count_downloads at 2. simpl. lia.
Qed.

(** One granule whose download fails on every attempt: four iterations
    are not enough, and four batch downloads were issued. *)
Lemma earthaccess_download_unbounded_witness :
  let env := sample_env [granule_of "20191009T2354"] [DlError "timed out"] []
               (Refused "unused") in
  fst (_earthaccess_download env 4 [granule_of "20191009T2354"] "tmp" empty_world)
  = OutOfFuel /\
  count_downloads
    (log (snd (_earthaccess_download env 4 [granule_of "20191009T2354"] "tmp"
                 empty_world)))
  = (count_downloads (log empty_world) + 4)%nat.
Proof.
  apply (earthaccess_download_unbounded
           (sample_env [granule_of "20191009T2354"] [DlError "timed out"] []
              (Refused "unused"))
           [granule_of "20191009T2354"] "tmp" empty_world 4).
  intros k. cbv. lia.
Defined.

(** ** Catalog resolver *)

Lemma get_granule_list_unfold (env : Env) (year doy : Z) (short_name : string)
  (w : World) (window_start window_stop : Datetime.date) :
  day_window year doy = Ok (window_start, window_stop) ->
  get_granule_list env year doy short_name w =
  let start := Datetime.strftime_Y_m_d window_start in
  let stop := Datetime.strftime_Y_m_d window_stop in
  let granule_list := search_data env short_name start stop in
  ((if (0 <? length granule_list)%nat
    then trim_boundaries (Datetime.strftime_Ymd window_start) granule_list
    else Ok granule_list),
   mkworld (files w) (dirs w) (downloads w)
     (log w ++ [EvSearch short_name start stop])).
Proof.
  intros Hwin. unfold get_granule_list, bind, lift, emit, ret. rewrite Hwin.
  simpl. destruct (0 <? length _)%nat; reflexivity.
Qed.

Lemma getitem_first {A : Type} (x : A) (l : list A) : Py.getitem (x :: l) 0 = Ok x.
Proof.
  unfold Py.getitem. simpl length. rewrite Nat2Z.inj_succ.
  replace (0 <? 0) with false by reflexivity.
  replace ((0 <? 0) || (Z.succ (Z.of_nat (length l)) <=? 0)) with false.
  - reflexivity.
  - symmetry. apply orb_false_iff. split; [reflexivity | apply Z.leb_gt; lia].
Qed.

Lemma getitem_last {A : Type} (pre : list A) (x : A) :
  Py.getitem (pre ++ [x]) (-1) = Ok x.
Proof.
  unfold Py.getitem. rewrite List.length_app. simpl length.
  replace (-1 <? 0) with true by reflexivity.
  replace (-1 + Z.of_nat (length pre + 1)) with (Z.of_nat (length pre)) by lia.
  replace ((Z.of_nat (length pre) <? 0)
           || (Z.of_nat (length pre + 1) <=? Z.of_nat (length pre))) with false.
  - rewrite Nat2Z.id, nth_error_app2 by lia. rewrite Nat.sub_diag. reflexivity.
  - symmetry. apply orb_false_iff. split; [apply Z.ltb_ge | apply Z.leb_gt]; lia.
Qed.

Lemma remove_nth_last {A : Type} (pre : list A) (x : A) :
  Py.remove_nth (length pre) (pre ++ [x]) = pre.
Proof. induction pre as [|y pre IH]; simpl; [reflexivity | f_equal; exact IH]. Qed.

Lemma pop_first {A : Type} (x : A) (l : list A) : Py.pop (x :: l) 0 = Ok l.
Proof.
  unfold Py.pop. simpl length. rewrite Nat2Z.inj_succ.
  replace (Z.succ (Z.of_nat (length l)) =? 0) with false
    by (symmetry; apply Z.eqb_neq; lia).
  replace (0 <? 0) with false by reflexivity.
  replace ((0 <? 0) || (Z.succ (Z.of_nat (length l)) <=? 0)) with false.
  - reflexivity.
  - symmetry. apply orb_false_iff. split; [reflexivity | apply Z.leb_gt; lia].
Qed.

Lemma pop_last {A : Type} (pre : list A) (x : A) :
  Py.pop (pre ++ [x]) (-1) = Ok pre.
Proof.
  unfold Py.pop. rewrite List.length_app. simpl length.
  replace (Z.of_nat (length pre + 1) =? 0) with false
    by (symmetry; apply Z.eqb_neq; lia).
  replace (-1 <? 0) with true by reflexivity.
  replace (-1 + Z.of_nat (length pre + 1)) with (Z.of_nat (length pre)) by lia.
  replace ((Z.of_nat (length pre) <? 0)
           || (Z.of_nat (length pre + 1) <=? Z.of_nat (length pre))) with false.
  - rewrite Nat2Z.id, remove_nth_last. reflexivity.
  - symmetry. apply orb_false_iff. split; [apply Z.ltb_ge | apply Z.leb_gt]; lia.
Qed.

(** Which link decides: the first link of the first entry, and the
    last link of the last entry. *)
Lemma boundary_ymd_first (g : Granule) (rest : list Granule) :
  boundary_ymd (g :: rest) 0
  = rbind (Py.getitem (data_links g) 0) link_ymd.
Proof. unfold boundary_ymd. rewrite getitem_first. reflexivity. Qed.

Lemma boundary_ymd_last (pre : list Granule) (g : Granule) :
  boundary_ymd (pre ++ [g]) (-1)
  = rbind (Py.getitem (data_links g) (-1)) link_ymd.
Proof. unfold boundary_ymd. rewrite getitem_last. reflexivity. Qed.

(** The trimming of a result with at least two entries, whose deciding
    links carry the tokens [t0] and [t1]. *)
Lemma trim_boundaries_two_ends (expected : string) (first last : Granule)
  (mid : list Granule) (t0 t1 : string) :
  rbind (Py.getitem (data_links first) 0) link_ymd = Ok t0 ->
  rbind (Py.getitem (data_links last) (-1)) link_ymd = Ok t1 ->
  trim_boundaries expected (first :: mid ++ [last])
  = Ok ((if String.eqb t0 expected then [first] else [])
        ++ mid
        ++ (if String.eqb t1 expected then [last] else [])).
Proof.
  intros H0 H1. unfold trim_boundaries. rewrite rfold_cons.
  unfold trim_at at 1. rewrite boundary_ymd_first, H0. cbn [rbind].
  destruct (String.eqb t0 expected) eqn:E0; cbn [negb rbind].
  - rewrite rfold_cons. unfold trim_at.
    change (first :: mid ++ [last]) with ((first :: mid) ++ [last]).
    rewrite boundary_ymd_last, H1. cbn [rbind].
    destruct (String.eqb t1 expected); cbn [negb rfold rbind].
    + reflexivity.
    + rewrite pop_last. simpl. rewrite List.app_nil_r. reflexivity.
  - rewrite pop_first. cbn [rbind]. rewrite rfold_cons. unfold trim_at.
    rewrite boundary_ymd_last, H1. cbn [rbind].
    destruct (String.eqb t1 expected); cbn [negb rfold rbind].
    + reflexivity.
    + rewrite pop_last. simpl. rewrite List.app_nil_r. reflexivity.
Qed.

(** C2 (the code does not do this): the last entry is claimed to be
    judged by the date token of its primary (first) data link.  The loop
    indexes the links with the same [idx] as the list, so the last entry
    is judged by its last link: for day 282 of 2019, a last granule whose
    primary link carries 20191009 and which has a second link is dropped. *)
Theorem last_entry_judged_by_last_link :
  let gl := [granule_of "20191009T0000"; granule_two_links] in
  let env := sample_env gl [] [] (Refused "unused") in
  (g <- Py.getitem gl (-1) ;; link <- Py.getitem (data_links g) 0 ;;
   link_ymd link)%result = Ok "20191009" /\
  day_window 2019 282
  = Ok (Datetime.mkdate 2019 10 9, Datetime.mkdate 2019 10 10) /\
  fst (get_granule_list env 2019 282 "SNDRJ1IML2CCPRET" empty_world)
  = Ok [granule_of "20191009T0000"].
Proof. repeat split; vm_compute; reflexivity. Qed.

(** C3 (the code does not do this): a one-entry query result is claimed
    never to raise.  When the single entry is from another day it is
    popped, and the pass for [idx = -1] then indexes the empty list. *)
Theorem single_stale_entry_raises (env : Env) (year doy : Z) (short_name : string)
  (w : World) (window_start window_stop : Datetime.date) (g : Granule)
  (ymd : string) :
  day_window year doy = Ok (window_start, window_stop) ->
  search_data env short_name (Datetime.strftime_Y_m_d window_start)
    (Datetime.strftime_Y_m_d window_stop) = [g] ->
  boundary_ymd [g] 0 = Ok ymd ->
  ymd <> Datetime.strftime_Ymd window_start ->
  fst (get_granule_list env year doy short_name w)
  = Raise (IndexError "list index out of range").
Proof.
  intros Hwin Hsearch Hymd Hne.
  rewrite (get_granule_list_unfold env year doy short_name w _ _ Hwin).
  cbv zeta. rewrite Hsearch. simpl.
  unfold trim_boundaries. simpl. unfold trim_at at 1. rewrite Hymd. simpl.
  apply String.eqb_neq in Hne. rewrite Hne. simpl. reflexivity.
Qed.

Lemma single_stale_entry_raises_witness :
  fst (get_granule_list
         (sample_env [granule_of "20191008T2354"] [] [] (Refused "unused"))
         2019 282 "SNDRJ1IML2CCPRET" empty_world)
  = Raise (IndexError "list index out of range").
Proof.
  apply (single_stale_entry_raises _ 2019 282 "SNDRJ1IML2CCPRET" empty_world
           (Datetime.mkdate 2019 10 9) (Datetime.mkdate 2019 10 10)
           (granule_of "20191008T2354") "20191008").
  - vm_compute. reflexivity.
  - reflexivity.
  - vm_compute. reflexivity.
  - intros H. discriminate H.
Defined.

(** ** Granule loader *)

Lemma raises_only_rbind {A B : Type} (P : exn -> Prop) (r : result A)
  (k : A -> result B) :
  raises_only P r -> (forall a, raises_only P (k a)) -> raises_only P (rbind r k).
Proof. destruct r as [a|e]; simpl; auto. Qed.

Lemma raises_only_rfold {A S : Type} (P : exn -> Prop) (l : list A)
  (body : A -> S -> result S) :
  (forall x s, raises_only P (body x s)) ->
  forall s, raises_only P (rfold l body s).
Proof.
  intros Hbody. induction l as [|x rest IH]; intros s; simpl.
  - exact I.
  - apply raises_only_rbind; auto.
Qed.

Lemma getitem_lookup_error {A : Type} (l : list A) (idx : Z) :
  raises_only lookup_error (Py.getitem l idx).
Proof.
  unfold Py.getitem. destruct (_ || _); simpl; [exact I|].
  destruct (nth_error _ _); simpl; exact I.
Qed.

Lemma dict_getitem_lookup_error {V : Type} (d : dict V) (k : string) :
  raises_only lookup_error (Dict.getitem d k).
Proof. unfold Dict.getitem. destruct (Dict.get d k); simpl; exact I. Qed.

Lemma nc_getitem_lookup_error (nc : NcFile) (v : string) :
  raises_only lookup_error (nc_getitem nc v).
Proof. unfold nc_getitem. destruct (Dict.get _ _); simpl; exact I. Qed.

Lemma dim_size_lookup_error (nc : NcFile) (v dim : string) :
  raises_only lookup_error (dim_size nc v dim).
Proof.
  unfold dim_size. destruct (Dict.get _ _); simpl; [exact I|].
  apply raises_only_rbind; [apply getitem_lookup_error|]. intros grp.
  apply raises_only_rbind; [apply nc_getitem_lookup_error|]. intros [x|gd].
  - exact I.
  - apply dict_getitem_lookup_error.
Qed.

Lemma load_dims_lookup_error (nc : NcFile) (v : string) (dimensions : list string) :
  forall acc, raises_only lookup_error (load_dims nc v dimensions acc).
Proof.
  induction dimensions as [|dim rest IH]; intros acc; simpl; [exact I|].
  apply raises_only_rbind; [apply dim_size_lookup_error|]. intros n. apply IH.
Qed.

Lemma load_from_netCDF4_lookup_error (nc : NcFile) (var_list : list string) :
  raises_only lookup_error (_load_from_netCDF4 nc var_list).
Proof.
  unfold _load_from_netCDF4. apply raises_only_rfold.
  intros v [[dat dims] attrs].
  apply raises_only_rbind.
  - unfold nc_variable. apply raises_only_rbind; [apply nc_getitem_lookup_error|].
    intros [x|gd]; exact I.
  - intros x. apply raises_only_rbind; [apply load_dims_lookup_error|].
    intros d. exact I.
Qed.

(** C9: [load_granule_from_s3] raises its transport error exactly when
    [read()] returns no bytes; it then has issued the one read and nothing
    else (no container was opened on the payload).  With a payload, the
    read is followed by the opening of the container on these bytes, and
    whatever is raised comes from the netCDF4 side.  In both cases the
    stream is read once. *)
Theorem load_granule_from_s3_transport_error (env : Env) (s3_obj : S3Obj)
  (var_list : list string) (w : World) :
  let r := fst (load_granule_from_s3 env s3_obj var_list w) in
  let w' := snd (load_granule_from_s3 env s3_obj var_list w) in
  (r = Raise s3_read_failed <-> s3_payload s3_obj = []) /\
  (s3_payload s3_obj = [] -> log w' = log w ++ [EvRead s3_obj]) /\
  (s3_payload s3_obj <> [] ->
   log w' = log w ++ EvRead s3_obj :: parse_events env (s3_payload s3_obj) /\
   r = rbind (dataset_result (dataset_memory env (s3_payload s3_obj)))
         (fun nc => _load_from_netCDF4 nc var_list)) /\
  length (List.filter is_read (log w')) = S (length (List.filter is_read (log w))).
Proof.
  unfold load_granule_from_s3, with_dataset, bind, emit, raise, lift, parse_events,
    s3_read_failed.
  pose proof (load_from_netCDF4_lookup_error) as Hload.
  destruct (s3_payload s3_obj) as [|b bs] eqn:Hp; simpl.
  - repeat split; auto; try congruence.
    rewrite List.filter_app, List.length_app. simpl. lia.
  - assert (Hcount : forall tail,
               length (List.filter is_read tail) = 0%nat ->
               length (List.filter is_read (((log w ++ [EvRead s3_obj])
                         ++ [EvDatasetMemory (b :: bs)]) ++ tail))
               = S (length (List.filter is_read (log w)))).
    { intros tail Ht. rewrite !List.filter_app, !List.length_app, Ht. simpl. lia. }
    destruct (dataset_memory env (b :: bs)) as [nc|msg]; simpl.
    + specialize (Hload nc var_list).
      destruct (_load_from_netCDF4 nc var_list) as [x|e]; simpl in *;
        repeat split; try congruence;
        try (repeat rewrite <- List.app_assoc; reflexivity);
        try (apply Hcount; reflexivity).
      intros He. inversion He; subst. destruct Hload.
    + repeat split; try congruence;
        try (repeat rewrite <- List.app_assoc; reflexivity).
      rewrite <- (List.app_nil_r (_ ++ [EvDatasetMemory _])).
      apply Hcount. reflexivity.
Qed.

(** ** Orchestrator and driver *)

(** C4 as stated does not hold of [run_subagg], which looks at the
    output path only when it writes it: with the output file of the day
    already in place it still queries the catalog, reads both streams and
    writes the file again. *)
Lemma run_subagg_ignores_existing_output :
  let w := mkworld ["out.nc"] [] 0 [] in
  let w' := snd (run_subagg streaming_env 0 2019 282 "jpss1" ["lat"] "out.nc"
                   false tmp_dir_default w) in
  os_access w "out.nc" = true /\
  In (EvSearch "SNDRJ1IML2CCPRET" "2019-10-09" "2019-10-10") (log w') /\
  In (EvRead sample_stream) (log w') /\
  In (EvDatasetWrite "out.nc") (log w') /\
  List.filter is_pipeline (log w') <> [].
Proof.
  vm_compute. repeat split; auto 20. discriminate.
Qed.

(** C4 (amended): the skip is made by the driver loop, before
    [run_subagg] is called.  When the output file of every day of
    [doy_list] exists and is readable, the loop returns normally, the
    file system is as before, and the only events are the skip messages:
    no catalog query, no download or remote open, no load, no write. *)
Theorem production_loop_skips_existing (env : Env) (fuel : nat)
  (platform short_name : string) (year : Z) (output_path : string -> string)
  (doy_list : list Z) (w : World) :
  (forall doy, In doy doy_list ->
     os_access w (output_path (output_file_name short_name year doy)) = true) ->
  production_loop env fuel platform short_name year output_path doy_list w
  = (Done (Ok tt),
     mkworld (files w) (dirs w) (downloads w)
       (log w ++ map (fun doy => EvPrint (skipping_msg year doy)) doy_list)).
Proof.
  revert w. induction doy_list as [|doy rest IH]; intros w Hall; simpl.
  - rewrite List.app_nil_r. destruct w; reflexivity.
  - unfold production_day. rewrite (Hall doy (or_introl eq_refl)).
    unfold done, emit. simpl. rewrite IH.
    + simpl. rewrite <- List.app_assoc. reflexivity.
    + intros d Hd. unfold os_access. simpl. apply (Hall d). right. exact Hd.
Qed.

Lemma production_loop_skips_existing_witness :
  let w := mkworld [ "SNDRSNIML2CCPRETN_subaggregate_2015-008.nc";
                     "SNDRSNIML2CCPRETN_subaggregate_2015-009.nc";
                     "SNDRSNIML2CCPRETN_subaggregate_2015-010.nc" ] [] 0 [] in
  production_loop streaming_env 0 "snpp-normal" "SNDRSNIML2CCPRETN" 2015
    (fun f => f) [8; 9; 10] w
  = (Done (Ok tt),
     mkworld (files w) (dirs w) (downloads w)
       (log w ++ map (fun doy => EvPrint (skipping_msg 2015 doy)) [8; 9; 10])).
Proof.
  apply (production_loop_skips_existing streaming_env 0 "snpp-normal"
           "SNDRSNIML2CCPRETN" 2015 (fun f => f) [8; 9; 10]).
  intros doy [<- | [<- | [<- | []]]]; vm_compute; reflexivity.
Defined.

(** ** Dictionaries *)

Section DictFacts.
Context {V : Type}.
Implicit Types (d : dict V) (k : string) (x : V).

Lemma get_set_eq d k x : Dict.get (Dict.set d k x) k = Some x.
Proof.
  induction d as [|[k' x'] rest IH]; simpl.
  - rewrite String.eqb_refl. reflexivity.
  - destruct (String.eqb k' k) eqn:E; simpl; rewrite E; auto.
Qed.

Lemma get_set_ne d k k' x : k <> k' -> Dict.get (Dict.set d k x) k' = Dict.get d k'.
Proof.
  intros Hne. induction d as [|[k0 x0] rest IH]; simpl.
  - apply String.eqb_neq in Hne. rewrite Hne. reflexivity.
  - destruct (String.eqb k0 k) eqn:E; simpl.
    + apply String.eqb_eq in E. subst k0.
      apply String.eqb_neq in Hne. rewrite Hne. reflexivity.
    + destruct (String.eqb k0 k'); auto.
Qed.

Lemma get_None_keys d k : Dict.get d k = None <-> ~ In k (Dict.keys d).
Proof.
  induction d as [|[k' x'] rest IH]; simpl.
  - tauto.
  - destruct (String.eqb k' k) eqn:E.
    + apply String.eqb_eq in E. split; [discriminate | tauto].
    + apply String.eqb_neq in E. rewrite IH. tauto.
Qed.

Lemma get_Some_In d k x : Dict.get d k = Some x -> In (k, x) d.
Proof.
  induction d as [|[k' x'] rest IH]; simpl; [discriminate|].
  destruct (String.eqb k' k) eqn:E.
  - apply String.eqb_eq in E. intros [= ->]. left. congruence.
  - auto.
Qed.

Lemma In_get_Some d k x :
  NoDup (Dict.keys d) -> In (k, x) d -> Dict.get d k = Some x.
Proof.
  induction d as [|[k' x'] rest IH]; simpl; [tauto|].
  intros Hnd [Heq | Hin].
  - inversion Heq; subst. rewrite String.eqb_refl. reflexivity.
  - inversion Hnd as [|? ? Hnot Hrest]; subst.
    destruct (String.eqb k' k) eqn:E.
    + apply String.eqb_eq in E. subst. exfalso. apply Hnot.
      apply list_elem_of_In. exact (in_map fst _ _ Hin).
    + apply IH; assumption.
Qed.

Lemma keys_set_mem d k x :
  In k (Dict.keys d) -> Dict.keys (Dict.set d k x) = Dict.keys d.
Proof.
  induction d as [|[k' x'] rest IH]; simpl; [tauto|].
  intros Hin. destruct (String.eqb k' k) eqn:E; simpl; [reflexivity|].
  apply String.eqb_neq in E. f_equal. apply IH. tauto.
Qed.

Lemma keys_set_new d k x :
  ~ In k (Dict.keys d) -> Dict.keys (Dict.set d k x) = Dict.keys d ++ [k].
Proof.
  induction d as [|[k' x'] rest IH]; simpl; [reflexivity|].
  intros Hnot. destruct (String.eqb k' k) eqn:E; simpl.
  - apply String.eqb_eq in E. tauto.
  - f_equal. apply IH. tauto.
Qed.

Lemma NoDup_keys_set d k x :
  NoDup (Dict.keys d) -> NoDup (Dict.keys (Dict.set d k x)).
Proof.
  intros Hnd. destruct (in_dec string_dec k (Dict.keys d)) as [Hin|Hnot].
  - rewrite keys_set_mem; assumption.
  - rewrite keys_set_new by assumption.
    apply NoDup_app. split; [exact Hnd|]. split.
    + intros y Hy Hk. apply list_elem_of_In in Hy, Hk.
      destruct Hk as [<- | []]. contradiction.
    + apply NoDup_singleton.
Qed.
End DictFacts.

(** ** Aggregator *)

Lemma copy_id (a : ndarray) : Np.copy a = a.
Proof. destruct a; reflexivity. Qed.

Lemma get_is_Some_keys {V : Type} (d : dict V) (k : string) :
  In k (Dict.keys d) -> exists x, Dict.get d k = Some x.
Proof.
  intros Hin. destruct (Dict.get d k) as [x|] eqn:E; [eauto|].
  apply get_None_keys in E. contradiction.
Qed.

Lemma get_Some_keys {V : Type} (d : dict V) (k : string) (x : V) :
  Dict.get d k = Some x -> In k (Dict.keys d).
Proof.
  intros E. destruct (in_dec string_dec k (Dict.keys d)) as [H|H]; [exact H|].
  apply get_None_keys in H. congruence.
Qed.

Lemma seed_acc_get (first acc : dict ndarray) (v : string) :
  NoDup (Dict.keys first) ->
  Dict.get (fold_left (fun cdat '(v, a) => Dict.set cdat v (Np.copy a)) first acc) v
  = match Dict.get first v with
    | Some a => Some (Np.copy a)
    | None => Dict.get acc v
    end.
Proof.
  revert acc. induction first as [|[k a] rest IH]; intros acc Hnd; simpl.
  - reflexivity.
  - apply NoDup_cons in Hnd as [Hk Hrest]. rewrite IH by exact Hrest.
    destruct (String.eqb k v) eqn:E.
    + apply String.eqb_eq in E. subst v.
      assert (Hnone : Dict.get rest k = None).
      { apply get_None_keys. intros Hin. apply Hk, list_elem_of_In, Hin. }
      rewrite Hnone. apply get_set_eq.
    + apply String.eqb_neq in E. destruct (Dict.get rest v); [reflexivity|].
      apply get_set_ne. exact E.
Qed.

Lemma seed_get (first : dict ndarray) (v : string) :
  NoDup (Dict.keys first) -> Dict.get (seed first) v = Dict.get first v.
Proof.
  intros Hnd. unfold seed. rewrite seed_acc_get by exact Hnd.
  destruct (Dict.get first v) as [a|]; [rewrite copy_id|]; reflexivity.
Qed.

Lemma seed_acc_NoDup (first acc : dict ndarray) :
  NoDup (Dict.keys acc) ->
  NoDup (Dict.keys
           (fold_left (fun cdat '(v, a) => Dict.set cdat v (Np.copy a)) first acc)).
Proof.
  revert acc. induction first as [|[k a] rest IH]; intros acc Hnd; simpl.
  - exact Hnd.
  - apply IH, NoDup_keys_set, Hnd.
Qed.

Lemma seed_NoDup (first : dict ndarray) : NoDup (Dict.keys (seed first)).
Proof. apply seed_acc_NoDup. constructor. Qed.

Lemma str_in_In (x : string) (l : list string) : str_in x l = true <-> In x l.
Proof.
  unfold str_in. rewrite existsb_exists. split.
  - intros [y [Hin Heq]]. apply String.eqb_eq in Heq. subst. exact Hin.
  - intros Hin. exists x. split; [exact Hin | apply String.eqb_refl].
Qed.

(** What one pass of the body of [for v in dat] does. *)
Lemma fold_var_spec (np : Numpy) (dims : dict dimrec) (k : string) (a : ndarray)
  (cdat cdat' : dict ndarray) :
  fold_var np dims (k, a) cdat = Ok cdat' ->
  (tracked dims k = false /\ cdat' = cdat) \/
  (tracked dims k = true /\
   exists c joined, Dict.get cdat k = Some c /\
                    Np.concatenate np c a = Ok joined /\
                    cdat' = Dict.set cdat k joined).
Proof.
  unfold fold_var, tracked, Dict.getitem.
  destruct (Dict.get dims k) as [d|]; simpl; [|discriminate].
  destruct (names d) as [|n0 ns] eqn:En.
  - intros [= <-]. left. split; reflexivity.
  - destruct (str_in atrack (n0 :: ns)) eqn:Et.
    + destruct (Dict.get cdat k) as [c|]; simpl; [|discriminate].
      destruct (Np.concatenate np c a) as [joined|e] eqn:Ec; simpl; [|discriminate].
      intros [= <-]. right. split; [reflexivity|]. exists c, joined. auto.
    + intros [= <-]. left. split; reflexivity.
Qed.

Lemma concatenate_extent (np : Numpy) (c a joined : ndarray) :
  Np.concatenate np c a = Ok joined ->
  extent0 joined = (extent0 c + extent0 a)%nat.
Proof.
  unfold Np.concatenate, extent0.
  destruct (shape c) as [|nc tc]; [discriminate|].
  destruct (shape a) as [|na ta]; [discriminate|].
  destruct (negb _); [discriminate|]. destruct (negb _); [discriminate|].
  destruct (dtype_eqb _ _).
  - intros [= <-]. reflexivity.
  - destruct (result_type np _ _); simpl; [|discriminate].
    intros [= <-]. reflexivity.
Qed.

Lemma fold_var_keys (np : Numpy) (dims : dict dimrec) (kv : string * ndarray)
  (cdat cdat' : dict ndarray) :
  fold_var np dims kv cdat = Ok cdat' -> Dict.keys cdat' = Dict.keys cdat.
Proof.
  destruct kv as [k a]. intros H.
  apply fold_var_spec in H as [[_ ->] | [_ (c & j & Hc & _ & ->)]]; [reflexivity|].
  apply keys_set_mem. eapply get_Some_keys, Hc.
Qed.

Lemma fold_granule_keys (np : Numpy) (dims : dict dimrec) (dat : dict ndarray) :
  forall cdat cdat',
    fold_granule np dims dat cdat = Ok cdat' -> Dict.keys cdat' = Dict.keys cdat.
Proof.
  unfold fold_granule. induction dat as [|kv rest IH]; intros cdat cdat'.
  - intros [= <-]. reflexivity.
  - rewrite rfold_cons. intros H. apply rbind_Ok in H as (c1 & E1 & H).
    rewrite (IH _ _ H). eapply fold_var_keys, E1.
Qed.

(** A variable that is not tracked keeps its value through a record. *)
Lemma fold_granule_static (np : Numpy) (dims : dict dimrec) (v : string)
  (dat : dict ndarray) :
  tracked dims v = false ->
  forall cdat cdat',
    fold_granule np dims dat cdat = Ok cdat' -> Dict.get cdat' v = Dict.get cdat v.
Proof.
  intros Hv. unfold fold_granule.
  induction dat as [|[k a] rest IH]; intros cdat cdat'.
  - intros [= <-]. reflexivity.
  - rewrite rfold_cons. intros H. apply rbind_Ok in H as (c1 & E1 & H).
    rewrite (IH _ _ H).
    apply fold_var_spec in E1 as [[_ ->] | [Hk (c & j & _ & _ & ->)]]; [reflexivity|].
    apply get_set_ne. intros ->. congruence.
Qed.

(** A tracked variable grows by the extent it has in the record. *)
Lemma fold_granule_extent (np : Numpy) (dims : dict dimrec) (v : string)
  (dat : dict ndarray) :
  tracked dims v = true ->
  NoDup (Dict.keys dat) ->
  forall cdat cdat',
    fold_granule np dims dat cdat = Ok cdat' ->
    leading_extent cdat' v = (leading_extent cdat v + leading_extent dat v)%nat.
Proof.
  intros Hv. unfold fold_granule.
  induction dat as [|[k a] rest IH]; intros Hnd cdat cdat'.
  - intros [= <-]. unfold leading_extent at 3. simpl. lia.
  - apply NoDup_cons in Hnd as [Hk Hrest].
    rewrite rfold_cons. intros H. apply rbind_Ok in H as (c1 & E1 & H).
    rewrite (IH Hrest _ _ H).
    unfold leading_extent at 4. simpl.
    destruct (String.eqb k v) eqn:E.
    + apply String.eqb_eq in E. subst k.
      assert (Hnone : leading_extent rest v = 0%nat).
      { unfold leading_extent.
        replace (Dict.get rest v) with (@None ndarray); [reflexivity|].
        symmetry. apply get_None_keys. intros Hin.
        apply Hk, list_elem_of_In, Hin. }
      rewrite Hnone.
      apply fold_var_spec in E1 as [[Hf _] | [_ (c & j & Hc & Hj & ->)]];
        [congruence|].
      unfold leading_extent at 1 2. rewrite get_set_eq, Hc.
      rewrite (concatenate_extent _ _ _ _ Hj). lia.
    + apply String.eqb_neq in E.
      fold (leading_extent rest v).
      apply fold_var_spec in E1 as [[_ ->] | [_ (c & j & _ & _ & ->)]];
        [reflexivity|].
      unfold leading_extent at 1 3. rewrite get_set_ne by exact E. reflexivity.
Qed.

Lemma fold_records_keys (np : Numpy) (dims : dict dimrec)
  (recs : list (dict ndarray)) :
  forall cdat cdat',
    rfold recs (fold_granule np dims) cdat = Ok cdat' ->
    Dict.keys cdat' = Dict.keys cdat.
Proof.
  induction recs as [|dat rest IH]; intros cdat cdat'.
  - intros [= <-]. reflexivity.
  - rewrite rfold_cons. intros H. apply rbind_Ok in H as (c1 & E1 & H).
    rewrite (IH _ _ H). eapply fold_granule_keys, E1.
Qed.

Lemma fold_records_static (np : Numpy) (dims : dict dimrec) (v : string)
  (recs : list (dict ndarray)) :
  tracked dims v = false ->
  forall cdat cdat',
    rfold recs (fold_granule np dims) cdat = Ok cdat' ->
    Dict.get cdat' v = Dict.get cdat v.
Proof.
  intros Hv. induction recs as [|dat rest IH]; intros cdat cdat'.
  - intros [= <-]. reflexivity.
  - rewrite rfold_cons. intros H. apply rbind_Ok in H as (c1 & E1 & H).
    rewrite (IH _ _ H). eapply fold_granule_static; eassumption.
Qed.

Lemma fold_records_extent (np : Numpy) (dims : dict dimrec) (v : string)
  (recs : list (dict ndarray)) :
  tracked dims v = true ->
  Forall (fun dat => NoDup (Dict.keys dat)) recs ->
  forall cdat cdat',
    rfold recs (fold_granule np dims) cdat = Ok cdat' ->
    leading_extent cdat' v
    = (leading_extent cdat v
       + sum_nat (map (fun dat => leading_extent dat v) recs))%nat.
Proof.
  intros Hv. induction recs as [|dat rest IH]; intros Hnd cdat cdat'.
  - intros [= <-]. simpl. lia.
  - apply Forall_cons in Hnd as [Hdat Hrest].
    rewrite rfold_cons. intros H. apply rbind_Ok in H as (c1 & E1 & H).
    rewrite (IH Hrest _ _ H).
    rewrite (fold_granule_extent np dims v dat Hv Hdat _ _ E1). simpl. lia.
Qed.

(** What one pass of the body of the descriptor loop does. *)
Lemma reconcile_var_spec (dims : dict dimrec) (k : string) (a : ndarray)
  (cdims cdims' : dict dimrec) :
  reconcile_var dims (k, a) cdims = Ok cdims' ->
  exists d szs,
    Dict.get dims k = Some d /\
    cdims' = Dict.set cdims k (mkdimrec (names d) szs) /\
    (forall others, names d = atrack :: others -> szs = extent0 a :: tl (sizes d)) /\
    ((forall others, names d <> atrack :: others) -> szs = sizes d).
Proof.
  unfold reconcile_var, Dict.getitem.
  destruct (Dict.get dims k) as [d|]; simpl; [|discriminate].
  intros H. apply rbind_Ok in H as (szs & Hs & [= <-]).
  exists d, szs. split; [reflexivity|]. split; [reflexivity|].
  destruct (names d) as [|n0 ns] eqn:En.
  - inversion Hs; subst. split; [discriminate | reflexivity].
  - destruct (String.eqb n0 atrack) eqn:E0.
    + apply rbind_Ok in Hs as (n & Hn & Hset).
      unfold Np.shape0 in Hn. unfold extent0.
      destruct (shape a) as [|n' sh]; [discriminate|]. inversion Hn; subst n'.
      unfold setitem0 in Hset. destruct (sizes d) as [|s0 ss]; [discriminate|].
      inversion Hset; subst. split; [reflexivity|].
      intros Hno. exfalso. apply String.eqb_eq in E0. subst n0.
      apply (Hno ns). reflexivity.
    + inversion Hs; subst. split; [|reflexivity].
      intros others [= -> _]. rewrite String.eqb_refl in E0. discriminate.
Qed.

Lemma reconcile_other (dims : dict dimrec) (v : string) (cdat : dict ndarray) :
  ~ In v (Dict.keys cdat) ->
  forall acc cdims,
    rfold cdat (reconcile_var dims) acc = Ok cdims ->
    Dict.get cdims v = Dict.get acc v.
Proof.
  induction cdat as [|[k a] rest IH]; intros Hnot acc cdims.
  - intros [= <-]. reflexivity.
  - rewrite rfold_cons. intros H. apply rbind_Ok in H as (c1 & E1 & H).
    simpl in Hnot. rewrite (IH (fun Hin => Hnot (or_intror Hin)) _ _ H).
    apply reconcile_var_spec in E1 as (d & szs & _ & -> & _).
    apply get_set_ne. intros ->. apply Hnot. left. reflexivity.
Qed.

Lemma reconcile_get (dims : dict dimrec) (v : string) (a : ndarray)
  (cdat : dict ndarray) :
  NoDup (Dict.keys cdat) ->
  Dict.get cdat v = Some a ->
  forall acc cdims,
    rfold cdat (reconcile_var dims) acc = Ok cdims ->
    exists d szs,
      Dict.get dims v = Some d /\
      Dict.get cdims v = Some (mkdimrec (names d) szs) /\
      (forall others, names d = atrack :: others -> szs = extent0 a :: tl (sizes d)) /\
      ((forall others, names d <> atrack :: others) -> szs = sizes d).
Proof.
  induction cdat as [|[k a0] rest IH]; intros Hnd Hget acc cdims.
  - discriminate.
  - apply NoDup_cons in Hnd as [Hk Hrest].
    rewrite rfold_cons. intros H. apply rbind_Ok in H as (c1 & E1 & H).
    simpl in Hget. destruct (String.eqb k v) eqn:E.
    + apply String.eqb_eq in E. subst k. inversion Hget; subst a0.
      apply reconcile_var_spec in E1 as (d & szs & Hd & -> & Hlead & Hstat).
      exists d, szs. split; [exact Hd|]. split; [|split; assumption].
      rewrite (reconcile_other dims v rest) with (acc := Dict.set acc v (mkdimrec (names d) szs)) (cdims := cdims).
      * apply get_set_eq.
      * intros Hin. apply Hk, list_elem_of_In, Hin.
      * exact H.
    + eapply IH; eassumption.
Qed.

Lemma tracked_leading (dims : dict dimrec) (v : string) (d : dimrec)
  (others : list string) :
  Dict.get dims v = Some d -> names d = atrack :: others -> tracked dims v = true.
Proof.
  intros Hd Hn. unfold tracked. rewrite Hd, Hn. apply str_in_In. left. reflexivity.
Qed.

Lemma concat_granules_inv (np : Numpy) (first : dict ndarray)
  (rest : list (dict ndarray)) (dims : dict dimrec)
  (cdat : dict ndarray) (cdims : dict dimrec) :
  concat_granules np (first :: rest) dims = Ok (cdat, cdims) ->
  rfold rest (fold_granule np dims) (seed first) = Ok cdat /\
  rfold cdat (reconcile_var dims) [] = Ok cdims.
Proof.
  unfold concat_granules. change (Py.getitem (first :: rest) 0) with (Ok first).
  simpl rbind at 1. change (tl (first :: rest)) with rest.
  intros H. apply rbind_Ok in H as (c & Hc & H).
  apply rbind_Ok in H as (cd & Hcd & [= <- <-]). auto.
Qed.

(** C5: when the track axis leads the descriptor of a variable held by
    the first record, the aggregate has a descriptor for it with the same
    names, and its track size is the sum, over all the records, of the
    variable's leading-axis extent. *)
Theorem reconciled_track_size (np : Numpy) (first : dict ndarray)
  (rest : list (dict ndarray)) (dims : dict dimrec) (cdat : dict ndarray)
  (cdims : dict dimrec) (v : string) (a0 : ndarray) (d : dimrec)
  (others : list string) :
  Forall (fun dat => NoDup (Dict.keys dat)) (first :: rest) ->
  concat_granules np (first :: rest) dims = Ok (cdat, cdims) ->
  Dict.get first v = Some a0 ->
  Dict.get dims v = Some d ->
  names d = atrack :: others ->
  exists cd,
    Dict.get cdims v = Some cd /\
    names cd = names d /\
    sizes cd
    = sum_nat (map (fun dat => leading_extent dat v) (first :: rest))
      :: tl (sizes d).
Proof.
  intros Hnd Hcat Hfirst Hd Hlead.
  apply Forall_cons in Hnd as [Hnd1 Hndr].
  apply concat_granules_inv in Hcat as [Hfold Hrec].
  pose proof (tracked_leading dims v d others Hd Hlead) as Ht.
  pose proof (fold_records_extent np dims v rest Ht Hndr _ _ Hfold) as Hext.
  assert (Hin : In v (Dict.keys cdat)).
  { rewrite (fold_records_keys np dims rest _ _ Hfold).
    eapply get_Some_keys. rewrite seed_get by exact Hnd1. exact Hfirst. }
  destruct (get_is_Some_keys cdat v Hin) as [a Ha].
  assert (Hndc : NoDup (Dict.keys cdat)).
  { rewrite (fold_records_keys np dims rest _ _ Hfold). apply seed_NoDup. }
  destruct (reconcile_get dims v a cdat Hndc Ha _ _ Hrec)
    as (d' & szs & Hd' & Hcd & Hsz & _).
  rewrite Hd in Hd'. inversion Hd'; subst d'.
  exists (mkdimrec (names d) szs). split; [exact Hcd|]. split; [reflexivity|].
  simpl. rewrite (Hsz others Hlead). f_equal.
  unfold leading_extent in Hext at 1. rewrite Ha in Hext. rewrite Hext.
  unfold leading_extent at 1. rewrite seed_get by exact Hnd1. reflexivity.
Qed.

Lemma sample_records_NoDup :
  Forall (fun dat : dict ndarray => NoDup (Dict.keys dat))
    [record_of 1 7; record_of 2 8].
Proof. apply (bool_decide_unpack _). vm_compute. exact I. Qed.

Lemma sample_aggregate_eq :
  concat_granules np_same [record_of 1 7; record_of 2 8] sample_dims
  = Ok (fst sample_aggregate, snd sample_aggregate).
Proof. vm_compute. reflexivity. Qed.

(** Two records with [lat] of shape (45,): the aggregate declares
    [atrack] with size 45 + 45. *)
Lemma reconciled_track_size_witness :
  exists cd,
    Dict.get (snd sample_aggregate) "lat" = Some cd /\
    names cd = ["atrack"] /\
    sizes cd = [90%nat].
Proof.
  destruct (reconciled_track_size np_same (record_of 1 7) [record_of 2 8]
              sample_dims (fst sample_aggregate) (snd sample_aggregate) "lat"
              (lat45 1) (mkdimrec ["atrack"] [45%nat]) [])
    as (cd & Hcd & Hn & Hs).
  - apply (bool_decide_unpack _). vm_compute. exact I.
  - vm_compute. reflexivity.
  - reflexivity.
  - reflexivity.
  - reflexivity.
  - exists cd. split; [exact Hcd|]. split; [exact Hn | exact Hs].
Defined.

(** C6: a variable whose descriptor does not list the track axis has, in
    the aggregate, exactly the array the first record holds for it,
    however many records follow. *)
Theorem static_variable_unchanged (np : Numpy) (first : dict ndarray)
  (rest : list (dict ndarray)) (dims : dict dimrec) (cdat : dict ndarray)
  (cdims : dict dimrec) (v : string) (d : dimrec) :
  NoDup (Dict.keys first) ->
  concat_granules np (first :: rest) dims = Ok (cdat, cdims) ->
  Dict.get dims v = Some d ->
  ~ In atrack (names d) ->
  Dict.get cdat v = Dict.get first v.
Proof.
  intros Hnd Hcat Hd Hno.
  apply concat_granules_inv in Hcat as [Hfold _].
  assert (Ht : tracked dims v = false).
  { unfold tracked. rewrite Hd. destruct (str_in atrack (names d)) eqn:E; [|reflexivity].
    apply str_in_In in E. contradiction. }
  rewrite (fold_records_static np dims v rest Ht _ _ Hfold).
  apply seed_get, Hnd.
Qed.

Lemma static_variable_unchanged_witness :
  Dict.get (fst sample_aggregate) "land_frac"
  = Dict.get (record_of 1 7) "land_frac".
Proof.
  apply (static_variable_unchanged np_same (record_of 1 7) [record_of 2 8]
           sample_dims (fst sample_aggregate) (snd sample_aggregate) "land_frac"
           (mkdimrec [] [])).
  - apply (bool_decide_unpack _). vm_compute. exact I.
  - vm_compute. reflexivity.
  - reflexivity.
  - simpl. tauto.
Defined.

(** ** Writer *)

Lemma add_log_nil (w : World) : add_log w [] = w.
Proof. unfold add_log. rewrite List.app_nil_r. destruct w; reflexivity. Qed.

Lemma add_log_app (w : World) (e1 e2 : list event) :
  add_log (add_log w e1) e2 = add_log w (e1 ++ e2).
Proof. unfold add_log. simpl. rewrite List.app_assoc. reflexivity. Qed.

Lemma emit_add_log (e : event) (w : World) : emit e w = (Ok tt, add_log w [e]).
Proof. reflexivity. Qed.

Lemma attr_loop_events (v : string) (av : dict value) (w : World) :
  for_each av
    (fun '(aname, avalue) _ =>
       if String.eqb aname FillValue then ret tt
       else emit (EvSetncattr v aname avalue)) tt w
  = (Ok tt, add_log w (attr_events v av)).
Proof.
  revert w. induction av as [|[an x] rest IH]; intros w.
  - simpl. unfold ret. rewrite add_log_nil. reflexivity.
  - simpl. unfold bind. destruct (String.eqb an FillValue).
    + unfold ret. apply IH.
    + rewrite emit_add_log, IH, add_log_app. reflexivity.
Qed.

(** [write_var] raises before its first call on the container, or makes
    all its calls. *)
Lemma write_var_events (dims : dict dimrec) (attrs : dict (dict value))
  (kv : string * ndarray) (w : World) :
  write_var dims attrs kv tt w
  = match var_events dims attrs kv with
    | Ok evs => (Ok tt, add_log w evs)
    | Raise e => (Raise e, w)
    end.
Proof.
  destruct kv as [v a]. unfold write_var, var_events, bind, lift.
  destruct (Dict.getitem attrs v) as [av|e]; cbn [rbind]; [|reflexivity].
  destruct (output_dtype a) as [dt|e]; cbn [rbind]; [|reflexivity].
  destruct (Dict.getitem dims v) as [d|e]; cbn [rbind]; [|reflexivity].
  rewrite !emit_add_log, add_log_app.
  rewrite attr_loop_events, add_log_app. reflexivity.
Qed.

Lemma write_loop_events (dims : dict dimrec) (attrs : dict (dict value))
  (cdat : dict ndarray) (w : World) :
  for_each cdat (write_var dims attrs) tt w
  = (fst (vars_events dims attrs cdat),
     add_log w (snd (vars_events dims attrs cdat))).
Proof.
  revert w. induction cdat as [|kv rest IH]; intros w.
  - simpl. unfold ret. rewrite add_log_nil. reflexivity.
  - simpl. unfold bind. rewrite write_var_events.
    destruct (var_events dims attrs kv) as [evs|e]; simpl.
    + rewrite IH, add_log_app.
      destruct (vars_events dims attrs rest) as [r evs']. reflexivity.
    + rewrite add_log_nil. reflexivity.
Qed.

Lemma dim_loop_events (merged : dict nat) (w : World) :
  for_each merged
    (fun '(dim, dim_size) _ => emit (EvCreateDimension dim dim_size)) tt w
  = (Ok tt, add_log w (dim_events merged)).
Proof.
  revert w. induction merged as [|[dim n] rest IH]; intros w.
  - simpl. unfold ret. rewrite add_log_nil. reflexivity.
  - simpl. unfold bind. rewrite emit_add_log, IH, add_log_app. reflexivity.
Qed.

(** The result of [write_cdat] and the calls it makes, in order. *)
Lemma write_cdat_events (cdat : dict ndarray) (dims : dict dimrec)
  (attrs : dict (dict value)) (fname : string) (w : World) :
  fst (write_cdat cdat dims attrs fname w) = fst (vars_events dims attrs cdat) /\
  log (snd (write_cdat cdat dims attrs fname w))
  = log w ++ EvDatasetWrite fname :: dim_events (merged_dim_list dims)
      ++ snd (vars_events dims attrs cdat) ++ [EvDatasetClose].
Proof.
  unfold write_cdat, open_write, bind. rewrite emit_add_log. simpl.
  rewrite dim_loop_events, write_loop_events. simpl.
  split; [reflexivity|].
  repeat rewrite <- List.app_assoc. reflexivity.
Qed.



Lemma output_dtype_total (a : ndarray) :
  (arr_dtype a = DObject -> flat a <> []) ->
  offending a = false ->
  exists dt, output_dtype a = Ok dt.
Proof.
  unfold offending, output_dtype, Np.flat0. intros Hne.
  destruct (arr_dtype a) eqn:Ed; simpl; eauto.
  destruct (flat a) as [|x rest]; [exfalso; apply Hne; reflexivity|].
  simpl. destruct (is_str x); simpl; [eauto | discriminate].
Qed.

Lemma var_events_inv (dims : dict dimrec) (attrs : dict (dict value))
  (v : string) (a : ndarray) (evs : list event) :
  var_events dims attrs (v, a) = Ok evs ->
  exists av dt d,
    Dict.get attrs v = Some av /\ output_dtype a = Ok dt /\
    Dict.get dims v = Some d /\
    evs = EvCreateVariable v dt (names d) (Dict.get av FillValue)
          :: EvAssign v a :: attr_events v av.
Proof.
  unfold var_events, Dict.getitem. intros H.
  apply rbind_Ok in H as (av & Hav & H).
  apply rbind_Ok in H as (dt & Hdt & H).
  apply rbind_Ok in H as (d & Hd & [= <-]).
  destruct (Dict.get attrs v) as [av'|]; [|discriminate].
  destruct (Dict.get dims v) as [d'|]; [|discriminate].
  inversion Hav; inversion Hd; subst. exists av, dt, d. auto.
Qed.


Lemma In_attr_events (v v' : string) (av : dict value) (an : string) (x : value) :
  In (EvSetncattr v' an x) (attr_events v av) <->
  v' = v /\ an <> FillValue /\ In (an, x) av.
Proof.
  unfold attr_events. rewrite in_flat_map. split.
  - intros [[an0 x0] [Hin He]].
    destruct (String.eqb an0 FillValue) eqn:E; [destruct He|].
    destruct He as [He | []]. inversion He; subst.
    apply String.eqb_neq in E. auto.
  - intros (-> & Hne & Hin). exists (an, x). split; [exact Hin|].
    apply String.eqb_neq in Hne. rewrite Hne. left. reflexivity.
Qed.

(** Every call of the loop belongs to a variable whose pass completed,
    and all the calls of that pass are in the log. *)
Lemma vars_events_In (dims : dict dimrec) (attrs : dict (dict value))
  (cdat : dict ndarray) (e : event) :
  In e (snd (vars_events dims attrs cdat)) ->
  exists kv evs0,
    In kv cdat /\ var_events dims attrs kv = Ok evs0 /\ In e evs0 /\
    incl evs0 (snd (vars_events dims attrs cdat)).
Proof.
  induction cdat as [|kv rest IH]; simpl; [tauto|].
  destruct (var_events dims attrs kv) as [evs|err] eqn:Ev; simpl; [|tauto].
  destruct (vars_events dims attrs rest) as [r evs'] eqn:Er. simpl in *.
  intros Hin. apply in_app_or in Hin as [Hin | Hin].
  - exists kv, evs. repeat split; auto. apply incl_appl, incl_refl.
  - destruct (IH Hin) as (kv' & evs0 & Hkv & Hev & He & Hincl).
    exists kv', evs0. repeat split; auto. apply incl_appr, Hincl.
Qed.

Lemma vars_events_Ok (dims : dict dimrec) (attrs : dict (dict value))
  (cdat : dict ndarray) :
  fst (vars_events dims attrs cdat) = Ok tt ->
  forall kv, In kv cdat ->
    exists evs0, var_events dims attrs kv = Ok evs0 /\
                 incl evs0 (snd (vars_events dims attrs cdat)).
Proof.
  induction cdat as [|kv rest IH]; simpl; [tauto|].
  destruct (var_events dims attrs kv) as [evs|err] eqn:Ev; simpl; [|discriminate].
  destruct (vars_events dims attrs rest) as [r evs'] eqn:Er. simpl in *.
  intros Hok kv' [<- | Hin].
  - exists evs. split; [exact Ev | apply incl_appl, incl_refl].
  - destruct (IH Hok kv' Hin) as (evs0 & Hev & Hincl).
    exists evs0. split; [exact Hev | apply incl_appr, Hincl].
Qed.



Lemma In_written (fname : string) (merged : dict nat) (vars : list event)
  (e : event) :
  In e (EvDatasetWrite fname :: dim_events merged ++ vars ++ [EvDatasetClose]) ->
  (forall dim n, e <> EvCreateDimension dim n) ->
  e <> EvDatasetWrite fname -> e <> EvDatasetClose ->
  In e vars.
Proof.
  intros [He | Hin] Hdim Hw Hc; [congruence|].
  apply in_app_or in Hin as [Hin | Hin].
  - unfold dim_events in Hin. apply in_map_iff in Hin as [[dim n] [He _]].
    exfalso. apply (Hdim dim n). congruence.
  - apply in_app_or in Hin as [Hin | [He | []]]; [exact Hin | congruence].
Qed.

Lemma vars_in_written (fname : string) (merged : dict nat) (vars : list event)
  (e : event) :
  In e vars ->
  In e (EvDatasetWrite fname :: dim_events merged ++ vars ++ [EvDatasetClose]).
Proof.
  intros Hin. right. apply in_or_app. right. apply in_or_app. left. exact Hin.
Qed.

(** C8: a created variable receives as fill value the value its
    attribute map gives to [_FillValue], none when the map has no such
    key, and every other attribute of the map is written with
    [setncattr]; [setncattr] is never called for [_FillValue], and only
    with a name and value of the variable's map.  When [write_cdat]
    returns, every variable of [cdat] has been created. *)
Theorem write_cdat_fill_value (cdat : dict ndarray) (dims : dict dimrec)
  (attrs : dict (dict value)) (fname : string) (w : World) :
  exists evs,
    log (snd (write_cdat cdat dims attrs fname w)) = log w ++ evs /\
    (forall v dt dm fv,
       In (EvCreateVariable v dt dm fv) evs ->
       exists av,
         Dict.get attrs v = Some av /\ fv = Dict.get av FillValue /\
         forall an x, In (an, x) av -> an <> FillValue ->
                      In (EvSetncattr v an x) evs) /\
    (forall v an x,
       In (EvSetncattr v an x) evs ->
       an <> FillValue /\ exists av, Dict.get attrs v = Some av /\ In (an, x) av) /\
    (fst (write_cdat cdat dims attrs fname w) = Ok tt ->
     forall v a, In (v, a) cdat ->
                 exists dt dm fv, In (EvCreateVariable v dt dm fv) evs).
Proof.
  destruct (write_cdat_events cdat dims attrs fname w) as [Hr Hlog].
  eexists. split; [exact Hlog|]. rewrite Hr.
  split; [|split].
  - intros v dt dm fv Hin. apply In_written in Hin; try discriminate.
    apply vars_events_In in Hin as ([v0 a0] & evs0 & Hkv & Hev & He & Hincl).
    apply var_events_inv in Hev as (av & dt0 & d & Hav & Hdt & _ & ->).
    destruct He as [He | [He | He]].
    + inversion He; subst. exists av. split; [exact Hav|].
      split; [reflexivity|]. intros an x Hx Hne.
      apply vars_in_written, Hincl. right. right.
      apply In_attr_events. auto.
    + discriminate.
    + unfold attr_events in He. apply in_flat_map in He as [[an x] [_ He]].
      destruct (String.eqb an FillValue); [destruct He|].
      destruct He as [He | []]. discriminate.
  - intros v an x Hin. apply In_written in Hin; try discriminate.
    apply vars_events_In in Hin as ([v0 a0] & evs0 & Hkv & Hev & He & _).
    apply var_events_inv in Hev as (av & dt0 & d & Hav & _ & _ & ->).
    destruct He as [He | [He | He]]; try discriminate.
    apply In_attr_events in He as (-> & Hne & Hx). eauto.
  - intros Hok v a Hin.
    destruct (vars_events_Ok dims attrs cdat Hok (v, a) Hin) as (evs0 & Hev & Hincl).
    apply var_events_inv in Hev as (av & dt & d & _ & _ & _ & ->).
    exists dt, (names d), (Dict.get av FillValue).
    apply vars_in_written, Hincl. left. reflexivity.
Qed.

(** The attribute map [{"_FillValue": -9999, "units": "K"}]: the fill
    value goes to the creation, [units] to [setncattr]. *)
Lemma write_cdat_fill_value_witness :
  let w' := snd (write_cdat temp_cdat temp_dims temp_attrs "out.nc" empty_world) in
  In (EvCreateVariable "surf_temp" (OutDtype (DFloat 32)) ["atrack"]
        (Some (VInt (-9999)))) (log w') /\
  In (EvSetncattr "surf_temp" "units" (VStr "K")) (log w') /\
  (forall x, ~ In (EvSetncattr "surf_temp" "_FillValue" x) (log w')) /\
  In (EvCreateVariable "num_cld" (OutDtype (DInt 8)) ["atrack"] None) (log w').
Proof.
  destruct (write_cdat_fill_value temp_cdat temp_dims temp_attrs "out.nc"
              empty_world) as (evs & Hlog & Hcreate & Hattr & _).
  change (log empty_world ++ evs) with evs in Hlog. cbv zeta. rewrite Hlog.
  assert (Hc : In (EvCreateVariable "surf_temp" (OutDtype (DFloat 32)) ["atrack"]
                     (Some (VInt (-9999)))) evs).
  { rewrite <- Hlog. vm_compute. auto 10. }
  split; [exact Hc|]. split; [|split].
  - destruct (Hcreate _ _ _ _ Hc) as (av & Hav & _ & Hall).
    inversion Hav; subst av. apply Hall; [right; left; reflexivity | discriminate].
  - intros x Hin. destruct (Hattr _ _ _ Hin) as [Hne _]. apply Hne. reflexivity.
  - rewrite <- Hlog. vm_compute. auto 20.
Defined.

(** ** The aggregator over the store *)

Section StoreFrame.
Import Store.
Variable h0 : heap.

Lemma extends_refl : extends h0 h0.
Proof.
  split; [reflexivity|]. intros l o Hl Ho.
  apply lookup_lt_Some in Ho. lia.
Qed.

Lemma extends_length (h : heap) : extends h0 h -> (length h0 <= length h)%nat.
Proof. intros [Hp _]. apply prefix_length, Hp. Qed.

Lemma hoare_ret {A : Type} (a : A) (Q : A -> Prop) : Q a -> hoare h0 (ret a) Q.
Proof. intros Ha h Hh. simpl. split; [exact Hh|]. intros b [= <-]. exact Ha. Qed.

Lemma hoare_raise {A : Type} (e : exn) (Q : A -> Prop) : hoare h0 (raise e) Q.
Proof. intros h Hh. simpl. split; [exact Hh | discriminate]. Qed.

Lemma hoare_lift {A : Type} (r : result A) (Q : A -> Prop) :
  (forall a, r = Ok a -> Q a) -> hoare h0 (lift r) Q.
Proof. intros Hr h Hh. simpl. split; [exact Hh | exact Hr]. Qed.

Lemma hoare_bind {A B : Type} (m : H A) (k : A -> H B) (Q : A -> Prop)
  (R : B -> Prop) :
  hoare h0 m Q -> (forall a, Q a -> hoare h0 (k a) R) -> hoare h0 (bind m k) R.
Proof.
  intros Hm Hk h Hh. unfold bind. destruct (Hm h Hh) as [Hext HQ].
  destruct (m h) as [[a|e] h1]; simpl in *.
  - apply (Hk a (HQ a eq_refl) h1 Hext).
  - split; [exact Hext | discriminate].
Qed.

Lemma hoare_weaken {A : Type} (m : H A) (Q Q' : A -> Prop) :
  hoare h0 m Q -> (forall a, Q a -> Q' a) -> hoare h0 m Q'.
Proof.
  intros Hm HQ h Hh. destruct (Hm h Hh) as [Hext Hq]. split; auto.
Qed.

(** A read leaves the store alone; an object read above [h0] holds no
    reference into [h0]. *)
Lemma hoare_read (l : loc) :
  hoare h0 (read l) (fun o => (length h0 <= l)%nat -> refs_fresh (length h0) o).
Proof.
  intros h Hh. unfold read. destruct (h !! l) as [o|] eqn:El; simpl.
  - split; [exact Hh|]. intros a [= <-] Hl. destruct Hh as [_ Hc].
    apply (Hc l o Hl El).
  - split; [exact Hh | discriminate].
Qed.

(** A new object is placed after [h0]. *)
Lemma hoare_alloc (o : obj) :
  refs_fresh (length h0) o ->
  hoare h0 (alloc o) (fun l => (length h0 <= l)%nat).
Proof.
  intros Ho h Hh. unfold alloc. simpl. split.
  - destruct Hh as [Hp Hc]. split; [apply prefix_app_r, Hp|].
    intros l o' Hl Hlook. apply lookup_app_Some in Hlook as [Hlook | [_ Hlook]].
    + apply (Hc l o' Hl Hlook).
    + apply list_lookup_singleton_Some in Hlook as [_ <-]. exact Ho.
  - intros a [= <-]. apply extends_length, Hh.
Qed.

(** An update in place of an object placed after [h0]. *)
Lemma hoare_write (l : loc) (o : obj) (Q : unit -> Prop) :
  (length h0 <= l)%nat -> refs_fresh (length h0) o -> Q tt ->
  hoare h0 (write l o) Q.
Proof.
  intros Hl Ho HQ h [Hp Hc]. unfold write. simpl. split.
  - split.
    + destruct Hp as [ext ->].
      rewrite insert_app_r_alt by exact Hl. eexists. reflexivity.
    + intros l' o' Hl' Hlook.
      destruct (decide (l = l')) as [<- | Hne].
      * apply list_lookup_insert_Some in Hlook as [(_ & <- & _) | [Hne _]];
          [exact Ho | congruence].
      * rewrite list_lookup_insert_ne in Hlook by exact Hne.
        apply (Hc l' o' Hl' Hlook).
  - intros [] _. exact HQ.
Qed.

Lemma hoare_for_each {A : Type} (l : list A) (body : A -> unit -> H unit) :
  (forall x, hoare h0 (body x tt) (fun _ => True)) ->
  hoare h0 (for_each l body tt) (fun _ => True).
Proof.
  intros Hbody. induction l as [|x rest IH]; simpl.
  - apply hoare_ret. exact I.
  - eapply hoare_bind; [apply Hbody|]. intros [] _. exact IH.
Qed.
End StoreFrame.

Section StoreAggregator.
Import Store.
Variable h0 : heap.
Variable np : Numpy.

Abbreviation fresh := (fun l : loc => (length h0 <= l)%nat).

Lemma Forall_dict_set (d : dict loc) (k : string) (x : loc) :
  Forall (fun kv => fresh (snd kv)) d -> fresh x ->
  Forall (fun kv => fresh (snd kv)) (Dict.set d k x).
Proof.
  intros Hd Hx. induction d as [|[k' x'] rest IH]; simpl.
  - constructor; [exact Hx | constructor].
  - apply Forall_cons in Hd as [Hx' Hrest].
    destruct (String.eqb k' k); constructor; auto.
Qed.

Ltac raise_or_ret :=
  first [ apply hoare_raise
        | unfold wrong_type; apply hoare_raise
        | apply hoare_ret; try exact I ].

Lemma hoare_read_array (l : loc) : hoare h0 (read_array l) (fun _ => True).
Proof.
  unfold read_array. eapply hoare_bind; [apply hoare_read|].
  intros o _. destruct o; raise_or_ret.
Qed.

Lemma hoare_read_dict (l : loc) :
  hoare h0 (read_dict l)
    (fun d => fresh l -> Forall (fun kv => fresh (snd kv)) d).
Proof.
  unfold read_dict. eapply hoare_bind; [apply hoare_read|].
  intros o Ho. destruct o; raise_or_ret. exact Ho.
Qed.

Lemma hoare_read_refs (l : loc) : hoare h0 (read_refs l) (fun _ => True).
Proof.
  unfold read_refs. eapply hoare_bind; [apply hoare_read|].
  intros o _. destruct o; raise_or_ret.
Qed.

Lemma hoare_read_strs (l : loc) : hoare h0 (read_strs l) (fun _ => True).
Proof.
  unfold read_strs. eapply hoare_bind; [apply hoare_read|].
  intros o _. destruct o; raise_or_ret.
Qed.

Lemma hoare_read_ints (l : loc) : hoare h0 (read_ints l) (fun _ => True).
Proof.
  unfold read_ints. eapply hoare_bind; [apply hoare_read|].
  intros o _. destruct o; raise_or_ret.
Qed.

Lemma hoare_dict_getitem (ld : loc) (k : string) :
  hoare h0 (dict_getitem ld k) (fun _ => True).
Proof.
  unfold dict_getitem. eapply hoare_bind; [apply hoare_read_dict|].
  intros d _. apply hoare_lift. auto.
Qed.

(** Storing a new object into a dict made by the call. *)
Lemma hoare_dict_setitem (ld : loc) (k : string) (x : loc) :
  fresh ld -> fresh x -> hoare h0 (dict_setitem ld k x) (fun _ => True).
Proof.
  intros Hld Hx. unfold dict_setitem.
  eapply hoare_bind; [apply hoare_read_dict|].
  intros d Hd. apply hoare_write; [exact Hld | | exact I].
  simpl. apply Forall_dict_set; auto.
Qed.

Lemma hoare_seed_var (cdat : loc) (kv : string * loc) :
  fresh cdat -> hoare h0 (seed_var cdat kv tt) (fun _ => True).
Proof.
  intros Hc. destruct kv as [v la]. unfold seed_var.
  eapply hoare_bind; [apply hoare_read_array|]. intros a _.
  eapply hoare_bind; [apply hoare_alloc; exact I|]. intros l Hl.
  apply hoare_dict_setitem; assumption.
Qed.

Lemma hoare_fold_var (dims cdat : loc) (kv : string * loc) :
  fresh cdat -> hoare h0 (fold_var np dims cdat kv tt) (fun _ => True).
Proof.
  intros Hc. destruct kv as [v la]. unfold fold_var.
  eapply hoare_bind; [apply hoare_dict_getitem|]. intros lrec _.
  eapply hoare_bind; [apply hoare_dict_getitem|]. intros lnames _.
  eapply hoare_bind; [apply hoare_read_strs|]. intros ns _.
  destruct ns as [|n0 ns]; [apply hoare_ret; exact I|].
  eapply hoare_bind; [apply hoare_dict_getitem|]. intros lrec' _.
  eapply hoare_bind; [apply hoare_dict_getitem|]. intros lnames' _.
  eapply hoare_bind; [apply hoare_read_strs|]. intros ns' _.
  destruct (str_in atrack ns'); [|apply hoare_ret; exact I].
  eapply hoare_bind; [apply hoare_dict_getitem|]. intros lc _.
  eapply hoare_bind; [apply hoare_read_array|]. intros c _.
  eapply hoare_bind; [apply hoare_read_array|]. intros a _.
  eapply hoare_bind; [apply hoare_lift; intros; exact I|]. intros joined _.
  eapply hoare_bind; [apply hoare_alloc; exact I|]. intros l Hl.
  apply hoare_dict_setitem; assumption.
Qed.

Lemma hoare_fold_granule (dims cdat ldat : loc) :
  fresh cdat -> hoare h0 (fold_granule np dims cdat ldat tt) (fun _ => True).
Proof.
  intros Hc. unfold fold_granule.
  eapply hoare_bind; [apply hoare_read_dict|]. intros dat _.
  apply hoare_for_each. intros kv. apply hoare_fold_var, Hc.
Qed.

Lemma hoare_reconcile_var (dims cdat cdims : loc) (v : string) :
  fresh cdims -> hoare h0 (reconcile_var dims cdat cdims v tt) (fun _ => True).
Proof.
  intros Hc. unfold reconcile_var.
  eapply hoare_bind; [apply hoare_dict_getitem|]. intros lrec _.
  eapply hoare_bind; [apply hoare_dict_getitem|]. intros lnames _.
  eapply hoare_bind; [apply hoare_read_strs|]. intros ns _.
  eapply hoare_bind; [apply hoare_alloc; exact I|]. intros new_names Hn.
  eapply hoare_bind; [apply hoare_dict_getitem|]. intros lrec' _.
  eapply hoare_bind; [apply hoare_dict_getitem|]. intros lsizes _.
  eapply hoare_bind; [apply hoare_read_ints|]. intros ss _.
  eapply hoare_bind; [apply hoare_alloc; exact I|]. intros new_sizes Hs.
  eapply hoare_bind; [apply hoare_read_strs|]. intros ns1 _.
  eapply hoare_bind with (Q := fun _ => True).
  - destruct ns1 as [|n0 ns1']; [apply hoare_ret; exact I|].
    destruct (String.eqb n0 atrack); [|apply hoare_ret; exact I].
    eapply hoare_bind; [apply hoare_dict_getitem|]. intros lc _.
    eapply hoare_bind; [apply hoare_read_array|]. intros c _.
    eapply hoare_bind; [apply hoare_lift; intros; exact I|]. intros n _.
    eapply hoare_bind; [apply hoare_read_ints|]. intros cur _.
    eapply hoare_bind; [apply hoare_lift; intros; exact I|]. intros upd _.
    apply hoare_write; [exact Hs | exact I | exact I].
  - intros [] _.
    eapply hoare_bind.
    + apply hoare_alloc. simpl. repeat constructor; assumption.
    + intros l Hl. apply hoare_dict_setitem; assumption.
Qed.

(** Whatever the inputs and whatever the outcome: the objects of [h0]
    are left as they were, no object made by the call refers to one of
    [h0], and the two dicts returned are made by the call. *)
Lemma hoare_concat_granules (dat_list dims : loc) :
  hoare h0 (Store.concat_granules np dat_list dims)
    (fun r => fresh (fst r) /\ fresh (snd r)).
Proof.
  unfold Store.concat_granules.
  eapply hoare_bind; [apply hoare_alloc; constructor|]. intros cdat Hcdat.
  eapply hoare_bind; [apply hoare_read_refs|]. intros recs _.
  eapply hoare_bind; [apply hoare_lift; intros; exact I|]. intros l0 _.
  eapply hoare_bind; [apply hoare_read_dict|]. intros first _.
  eapply hoare_bind.
  { apply hoare_for_each. intros kv. apply hoare_seed_var, Hcdat. }
  intros [] _.
  eapply hoare_bind; [apply hoare_read_refs|]. intros recs' _.
  eapply hoare_bind.
  { apply hoare_for_each. intros ld. apply hoare_fold_granule, Hcdat. }
  intros [] _.
  eapply hoare_bind; [apply hoare_alloc; constructor|]. intros cdims Hcdims.
  eapply hoare_bind; [apply hoare_read_dict|]. intros vars _.
  eapply hoare_bind.
  { apply hoare_for_each. intros v. apply hoare_reconcile_var, Hcdims. }
  intros [] _. apply hoare_ret. simpl. auto.
Qed.
End StoreAggregator.

(** C10: [concat_granules] changes none of the objects it is given.
    Whatever the lists, dicts and arrays in the store and however they
    share, after the call every object that was in the store is at its
    place with the value it had (the records, their arrays, the
    descriptor mapping with its name and size lists); the objects made by
    the call refer only to objects made by the call (the arrays of the
    aggregate are new arrays, the descriptors new dicts of new lists);
    and the two dicts returned are new. *)
Theorem concat_granules_frame (np : Numpy) (dat_list dims : Store.loc)
  (h : Store.heap) :
  let r := fst (Store.concat_granules np dat_list dims h) in
  let h' := snd (Store.concat_granules np dat_list dims h) in
  (forall l o, h !! l = Some o -> h' !! l = Some o) /\
  (forall l o, (length h <= l)%nat -> h' !! l = Some o ->
               Store.refs_fresh (length h) o) /\
  (forall cdat cdims, r = Ok (cdat, cdims) ->
                      (length h <= cdat)%nat /\ (length h <= cdims)%nat).
Proof.
  destruct (hoare_concat_granules h np dat_list dims h (extends_refl h))
    as [[Hp Hc] Hr].
  cbv zeta. split; [|split].
  - intros l o Hl. eapply prefix_lookup_Some; eassumption.
  - exact Hc.
  - intros cdat cdims Hok. apply (Hr (cdat, cdims) Hok).
Qed.

(** On the store with shared arrays the call returns two new dicts, the
    track size 4 is written into a new list, and the size list of the
    input descriptor still reads [2]. *)
Lemma concat_granules_frame_witness :
  let r := fst (Store.concat_granules np_same 4%nat 11%nat shared_store) in
  let h' := snd (Store.concat_granules np_same 4%nat 11%nat shared_store) in
  r = Ok (12%nat, 16%nat) /\
  h' !! 6%nat = Some (Store.OInts [2%nat]) /\
  h' !! 0%nat = Some (Store.OArray (mkarray (DFloat 32) [2%nat] [VFloat 1; VFloat 2])) /\
  h' !! 18%nat = Some (Store.OInts [4%nat]) /\
  (12 <= 12 /\ 12 <= 16)%nat.
Proof.
  destruct (concat_granules_frame np_same 4%nat 11%nat shared_store)
    as (Hkeep & _ & Hnew).
  split; [vm_compute; reflexivity|].
  split; [apply Hkeep; reflexivity|].
  split; [apply Hkeep; reflexivity|].
  split; [vm_compute; reflexivity|].
  apply (Hnew 12%nat 16%nat). vm_compute. reflexivity.
Defined.

(** An empty payload and a payload of four bytes. *)
Lemma load_granule_from_s3_transport_error_witness :
  fst (load_granule_from_s3 streaming_env (mks3 "granule" []) ["lat"] empty_world)
  = Raise s3_read_failed /\
  fst (load_granule_from_s3 streaming_env sample_stream ["lat"] empty_world)
  <> Raise s3_read_failed.
Proof.
  split.
  - apply (load_granule_from_s3_transport_error streaming_env
             (mks3 "granule" []) ["lat"] empty_world). reflexivity.
  - intros H.
    apply (load_granule_from_s3_transport_error streaming_env sample_stream
             ["lat"] empty_world) in H. discriminate H.
Defined.

(** ** The aggregator returns on the loader's records *)

Lemma dtype_eqb_refl (d : dtype) : dtype_eqb d d = true.
Proof. destruct d; simpl; auto using Nat.eqb_refl. Qed.

Lemma list_eqb_nat_refl (l : list nat) : list_eqb Nat.eqb l l = true.
Proof.
  induction l as [|x l IH]; simpl; [reflexivity|].
  rewrite Nat.eqb_refl. exact IH.
Qed.

Lemma concatenate_joinable (np : Numpy) (c a : ndarray) :
  joinable c a ->
  exists joined,
    Np.concatenate np c a = Ok joined /\
    arr_dtype joined = arr_dtype c /\ shape joined <> [] /\
    tl (shape joined) = tl (shape c).
Proof.
  intros (Hdt & Hc & Ha & Htl). unfold Np.concatenate.
  destruct (shape c) as [|nc tc]; [congruence|].
  destruct (shape a) as [|na ta]; [congruence|].
  simpl in Htl. subst ta.
  rewrite Nat.eqb_refl, list_eqb_nat_refl, Hdt, dtype_eqb_refl. simpl.
  eexists. split; [reflexivity|]. simpl. repeat split; congruence.
Qed.

Lemma follows_seed (first : dict ndarray) :
  NoDup (Dict.keys first) -> follows first (seed first).
Proof.
  intros Hnd. split.
  - unfold seed.
    assert (Hgen : forall l acc,
               NoDup (Dict.keys acc ++ Dict.keys l) ->
               Dict.keys (fold_left (fun cdat '(v, a) => Dict.set cdat v (Np.copy a))
                            l acc)
               = Dict.keys acc ++ Dict.keys l).
    { induction l as [|[k a] l IH]; intros acc Hn; simpl.
      - rewrite List.app_nil_r. reflexivity.
      - assert (Hk : ~ In k (Dict.keys acc)).
        { intros Hin. apply NoDup_app in Hn as (_ & Hdis & _).
          apply (Hdis k); [apply list_elem_of_In, Hin | left]. }
        rewrite IH.
        + rewrite keys_set_new by exact Hk. rewrite <- List.app_assoc. reflexivity.
        + rewrite keys_set_new by exact Hk. rewrite <- List.app_assoc. exact Hn. }
    apply (Hgen first []). exact Hnd.
  - intros v a0 Ha0. exists a0. rewrite seed_get by exact Hnd. auto.
Qed.

Lemma fold_var_follows (np : Numpy) (first : dict ndarray) (dims : dict dimrec)
  (v : string) (a : ndarray) (cdat : dict ndarray) :
  (exists d, Dict.get dims v = Some d /\
             (str_in atrack (names d) = true ->
              exists a0, Dict.get first v = Some a0 /\ joinable a0 a)) ->
  follows first cdat ->
  exists cdat', fold_var np dims (v, a) cdat = Ok cdat' /\ follows first cdat'.
Proof.
  intros (d & Hd & Htr) [Hkeys Hfol]. unfold fold_var, Dict.getitem.
  rewrite Hd. cbn [rbind].
  destruct (names d) as [|n0 ns] eqn:En; [exists cdat; split; [reflexivity | split; assumption]|].
  destruct (str_in atrack (n0 :: ns)) eqn:Et;
    [|exists cdat; split; [reflexivity | split; assumption]].
  destruct (Htr eq_refl) as (a0 & Ha0 & Hj).
  destruct (Hfol v a0 Ha0) as (c & Hc & Hdt & Htl & Hne).
  rewrite Hc. cbn [rbind].
  destruct Hj as (Hj1 & Hj2 & Hj3 & Hj4).
  destruct (concatenate_joinable np c a) as (j & Hcat & Hjd & Hjs & Hjt).
  { repeat split; [congruence | auto | exact Hj3 | congruence]. }
  rewrite Hcat. cbn [rbind]. eexists. split; [reflexivity|]. split.
  - rewrite keys_set_mem; [exact Hkeys | eapply get_Some_keys, Hc].
  - intros u b0 Hb0. destruct (string_dec v u) as [<- | Hne'].
    + rewrite get_set_eq. exists j. rewrite Ha0 in Hb0. inversion Hb0; subst b0.
      repeat split; congruence.
    + rewrite get_set_ne by exact Hne'. apply Hfol, Hb0.
Qed.

Lemma fold_granule_follows (np : Numpy) (first : dict ndarray) (dims : dict dimrec)
  (dat : dict ndarray) :
  (forall v a, In (v, a) dat ->
     exists d, Dict.get dims v = Some d /\
               (str_in atrack (names d) = true ->
                exists a0, Dict.get first v = Some a0 /\ joinable a0 a)) ->
  forall cdat, follows first cdat ->
  exists cdat', fold_granule np dims dat cdat = Ok cdat' /\ follows first cdat'.
Proof.
  unfold fold_granule. induction dat as [|[v a] dat IH]; intros Hwf cdat Hfol.
  - exists cdat. split; [reflexivity | exact Hfol].
  - destruct (fold_var_follows np first dims v a cdat (Hwf v a (or_introl eq_refl)) Hfol)
      as (c1 & Hc1 & Hf1).
    destruct (IH (fun u b Hin => Hwf u b (or_intror Hin)) c1 Hf1) as (c2 & Hc2 & Hf2).
    exists c2. rewrite rfold_cons, Hc1. split; assumption.
Qed.

Lemma fold_records_follows (np : Numpy) (first : dict ndarray) (dims : dict dimrec)
  (rest : list (dict ndarray)) :
  (forall dat v a, In dat rest -> In (v, a) dat ->
     exists d, Dict.get dims v = Some d /\
               (str_in atrack (names d) = true ->
                exists a0, Dict.get first v = Some a0 /\ joinable a0 a)) ->
  forall cdat, follows first cdat ->
  exists cdat', rfold rest (fold_granule np dims) cdat = Ok cdat' /\
                follows first cdat'.
Proof.
  induction rest as [|dat rest IH]; intros Hwf cdat Hfol.
  - exists cdat. split; [reflexivity | exact Hfol].
  - destruct (fold_granule_follows np first dims dat
                (fun v a Hin => Hwf dat v a (or_introl eq_refl) Hin) cdat Hfol)
      as (c1 & Hc1 & Hf1).
    destruct (IH (fun d v a Hd Hin => Hwf d v a (or_intror Hd) Hin) c1 Hf1)
      as (c2 & Hc2 & Hf2).
    exists c2. rewrite rfold_cons, Hc1. split; assumption.
Qed.

Lemma reconcile_total (dims : dict dimrec) (cdat : dict ndarray) :
  (forall v c, In (v, c) cdat ->
     exists d, Dict.get dims v = Some d /\
               ((exists others, names d = atrack :: others) ->
                shape c <> [] /\ sizes d <> [])) ->
  forall acc, exists cdims, rfold cdat (reconcile_var dims) acc = Ok cdims.
Proof.
  induction cdat as [|[v c] cdat IH]; intros Hwf acc.
  - exists acc. reflexivity.
  - destruct (Hwf v c (or_introl eq_refl)) as (d & Hd & Hlead).
    rewrite rfold_cons. unfold reconcile_var at 1, Dict.getitem. rewrite Hd.
    cbn [rbind].
    assert (Hs : exists szs,
               match names d with
               | [] => Ok (sizes d)
               | n0 :: _ =>
                   if String.eqb n0 atrack
                   then rbind (Np.shape0 c) (fun n => setitem0 (sizes d) n)
                   else Ok (sizes d)
               end = Ok szs).
    { destruct (names d) as [|n0 ns] eqn:En; [eauto|].
      destruct (String.eqb n0 atrack) eqn:E0; [|eauto].
      apply String.eqb_eq in E0. subst n0.
      destruct (Hlead (ex_intro _ ns eq_refl)) as [Hc Hsz].
      unfold Np.shape0, setitem0.
      destruct (shape c) as [|n sh]; [congruence|].
      destruct (sizes d) as [|s0 ss]; [congruence|]. simpl. eauto. }
    destruct Hs as [szs Hs]. rewrite Hs. cbn [rbind].
    apply IH. intros u b Hin. apply Hwf. right. exact Hin.
Qed.

(** X13: on records of the kind the loader produces from granules of one
    product (a descriptor for every variable, arrays with an axis to join
    on, of one element type and one trailing shape), [concat_granules]
    raises nothing. *)
Lemma concat_granules_total (np : Numpy) (first : dict ndarray)
  (rest : list (dict ndarray)) (dims : dict dimrec) :
  NoDup (Dict.keys first) ->
  aggregable first rest dims ->
  exists cdat cdims, concat_granules np (first :: rest) dims = Ok (cdat, cdims).
Proof.
  intros Hnd [Hfirst Hrest].
  destruct (fold_records_follows np first dims rest Hrest (seed first)
              (follows_seed first Hnd)) as (cdat & Hfold & [Hkeys Hfol]).
  destruct (reconcile_total dims cdat) with (acc := @nil (string * dimrec))
    as [cdims Hrec].
  { intros v c Hin.
    assert (Hv : In v (Dict.keys first)).
    { rewrite <- Hkeys. apply (in_map fst _ _ Hin). }
    destruct (get_is_Some_keys first v Hv) as [a0 Ha0].
    destruct (Hfirst v a0 (get_Some_In _ _ _ Ha0)) as (d & Hd & Hlead).
    exists d. split; [exact Hd|]. intros Hl.
    destruct (Hlead Hl) as [Hsh Hsz]. split; [|exact Hsz].
    destruct (Hfol v a0 Ha0) as (c' & Hc' & _ & _ & Hne).
    assert (Hndc : NoDup (Dict.keys cdat)) by (rewrite Hkeys; exact Hnd).
    rewrite (In_get_Some cdat v c Hndc Hin) in Hc'. inversion Hc'; subst c'.
    apply Hne, Hsh. }
  exists cdat, cdims. unfold concat_granules.
  rewrite getitem_first. cbn [rbind tl]. rewrite Hfold. cbn [rbind].
  rewrite Hrec. reflexivity.
Qed.

(** ** The two models of the aggregator agree *)

Section DictRelated.
Context {A B : Type} (R : A -> B -> Prop).

(** Two dicts with the same keys in the same order and related values. *)
Abbreviation related :=
  (Forall2 (fun (x : string * A) (y : string * B) =>
              fst x = fst y /\ R (snd x) (snd y))).

Lemma related_get (d1 : dict A) (d2 : dict B) (k : string) :
  related d1 d2 ->
  match Dict.get d1 k, Dict.get d2 k with
  | Some x, Some y => R x y
  | None, None => True
  | _, _ => False
  end.
Proof.
  induction 1 as [|[k1 x] [k2 y] d1 d2 [Hk Hxy] _ IH]; simpl; [exact I|].
  simpl in Hk. subst k2. destruct (String.eqb k1 k); [exact Hxy | exact IH].
Qed.

Lemma related_set (d1 : dict A) (d2 : dict B) (k : string) (x : A) (y : B) :
  related d1 d2 -> R x y -> related (Dict.set d1 k x) (Dict.set d2 k y).
Proof.
  intros Hd Hxy. induction Hd as [|[k1 x1] [k2 y1] d1 d2 [Hk H1] Hrest IH]; simpl.
  - constructor; [split; [reflexivity | exact Hxy] | constructor].
  - simpl in Hk. subst k2. destruct (String.eqb k1 k).
    + constructor; [split; [reflexivity | exact Hxy] | exact Hrest].
    + constructor; [split; [reflexivity | exact H1] | exact IH].
Qed.

Lemma related_keys (d1 : dict A) (d2 : dict B) :
  related d1 d2 -> Dict.keys d1 = Dict.keys d2.
Proof.
  induction 1 as [|[k1 x] [k2 y] d1 d2 [Hk _] _ IH]; simpl; [reflexivity|].
  simpl in Hk. congruence.
Qed.
End DictRelated.

Section StoreRuns.
Import Store.
Implicit Types (h : list obj) (l : nat).

Lemma run_read h l (o : obj) : h !! l = Some o -> read l h = (Ok o, h).
Proof. intros Hl. unfold read. rewrite Hl. reflexivity. Qed.

Lemma run_read_array h l (a : ndarray) :
  h !! l = Some (OArray a) -> read_array l h = (Ok a, h).
Proof. intros Hl. unfold read_array, bind. rewrite (run_read _ _ _ Hl). reflexivity. Qed.

Lemma run_read_dict h l (d : dict loc) :
  h !! l = Some (ODict d) -> read_dict l h = (Ok d, h).
Proof. intros Hl. unfold read_dict, bind. rewrite (run_read _ _ _ Hl). reflexivity. Qed.

Lemma run_read_refs h l (r : list loc) :
  h !! l = Some (ORefs r) -> read_refs l h = (Ok r, h).
Proof. intros Hl. unfold read_refs, bind. rewrite (run_read _ _ _ Hl). reflexivity. Qed.

Lemma run_read_strs h l (r : list string) :
  h !! l = Some (OStrs r) -> read_strs l h = (Ok r, h).
Proof. intros Hl. unfold read_strs, bind. rewrite (run_read _ _ _ Hl). reflexivity. Qed.

Lemma run_read_ints h l (r : list nat) :
  h !! l = Some (OInts r) -> read_ints l h = (Ok r, h).
Proof. intros Hl. unfold read_ints, bind. rewrite (run_read _ _ _ Hl). reflexivity. Qed.

Lemma run_dict_getitem h l (d : dict loc) (k : string) :
  h !! l = Some (ODict d) -> dict_getitem l k h = (Dict.getitem d k, h).
Proof.
  intros Hl. unfold dict_getitem, bind, lift. rewrite (run_read_dict _ _ _ Hl).
  destruct (Dict.getitem d k); reflexivity.
Qed.

Lemma run_dict_setitem h l (d : dict loc) (k : string) (x : loc) :
  h !! l = Some (ODict d) ->
  dict_setitem l k x h = (Ok tt, <[l := ODict (Dict.set d k x)]> h).
Proof.
  intros Hl. unfold dict_setitem, bind. rewrite (run_read_dict _ _ _ Hl).
  reflexivity.
Qed.

Lemma stable_refl h : stable h h.
Proof. intros l o H. exact H. Qed.

Lemma stable_trans h1 h2 h3 : stable h1 h2 -> stable h2 h3 -> stable h1 h3.
Proof. intros H12 H23 l o H. apply H23, H12, H. Qed.

Lemma stable_alloc h (o : obj) : stable h (h ++ [o]).
Proof. intros l o' H. apply lookup_app_l_Some, H. Qed.

Lemma stable_prefix h h' : h `prefix_of` h' -> stable h h'.
Proof. intros Hp l o H. eapply prefix_lookup_Some; eassumption. Qed.

Lemma rep_arrays_stable h h' (d : dict loc) (dat : dict ndarray) :
  stable h h' -> rep_arrays h d dat -> rep_arrays h' d dat.
Proof.
  intros Hs Hd. unfold rep_arrays in *.
  eapply Forall2_impl; [exact Hd|]. intros [k l] [k' a] [Hk Hl]. split; auto.
Qed.

Lemma rep_dat_stable h h' l (dat : dict ndarray) :
  stable h h' -> rep_dat h l dat -> rep_dat h' l dat.
Proof.
  intros Hs (d & Hl & Hd). exists d. split; [apply Hs, Hl|].
  eapply rep_arrays_stable; eassumption.
Qed.

Lemma rep_dimrec_stable h h' l (r : dimrec) :
  stable h h' -> rep_dimrec h l r -> rep_dimrec h' l r.
Proof.
  intros Hs (ln & ls & Hl & Hn & Hz). exists ln, ls. repeat split; apply Hs; assumption.
Qed.

Lemma rep_dimrecs_stable h h' (d : dict loc) (dims : dict dimrec) :
  stable h h' -> rep_dimrecs h d dims -> rep_dimrecs h' d dims.
Proof.
  intros Hs Hd. unfold rep_dimrecs in *.
  eapply Forall2_impl; [exact Hd|]. intros [k l] [k' r] [Hk Hl]. split; [exact Hk|].
  eapply rep_dimrec_stable; eassumption.
Qed.

Lemma rep_dims_stable h h' l (dims : dict dimrec) :
  stable h h' -> rep_dims h l dims -> rep_dims h' l dims.
Proof.
  intros Hs (d & Hl & Hd). exists d. split; [apply Hs, Hl|].
  eapply rep_dimrecs_stable; eassumption.
Qed.

(** Replacing a dict leaves the arrays alone. *)
Lemma rep_arrays_insert_dict h lc (d0 d' : dict loc) (d : dict loc)
  (dat : dict ndarray) :
  h !! lc = Some (ODict d0) ->
  rep_arrays h d dat -> rep_arrays (<[lc := ODict d']> h) d dat.
Proof.
  intros Hlc Hd. unfold rep_arrays in *.
  eapply Forall2_impl; [exact Hd|]. intros [k l] [k' a] [Hk Hl]. split; [exact Hk|].
  simpl in *.
  rewrite list_lookup_insert_ne; [exact Hl|]. intros ->. congruence.
Qed.
End StoreRuns.

Section StoreRefines.
(* the functions on values, before the names of [Store] hide them *)
Abbreviation v_fold_var := fold_var.
Abbreviation v_fold_granule := fold_granule.
Abbreviation v_reconcile_var := reconcile_var.
Abbreviation v_concat_granules := concat_granules.
Import Store.
Variable h0 : list obj.
Variable np : Numpy.
Implicit Types (h : list obj) (l lc : nat).

Lemma extends_stable h : extends h0 h -> stable h0 h.
Proof. intros [Hp _]. apply stable_prefix, Hp. Qed.

Lemma lookup_new h (o : obj) : (h ++ [o]) !! length h = Some o.
Proof. apply list_lookup_middle. reflexivity. Qed.

(** [fresh = alloc(array); cdat[v] = fresh] keeps the aggregate in step. *)
Lemma store_new_array h lc (v : string) (j : ndarray) (cd : dict ndarray) :
  rep_dat h lc cd ->
  exists h',
    bind (alloc (OArray j)) (fun fresh => dict_setitem lc v fresh) h = (Ok tt, h') /\
    rep_dat h' lc (Dict.set cd v j).
Proof.
  intros (d & Hlc & Hd). unfold bind, alloc.
  assert (Hlc' : (h ++ [OArray j]) !! lc = Some (ODict d))
    by (apply lookup_app_l_Some, Hlc).
  rewrite (run_dict_setitem _ _ _ _ _ Hlc').
  eexists. split; [reflexivity|].
  exists (Dict.set d v (length h)). split.
  - apply list_lookup_insert_eq. apply lookup_lt_Some in Hlc'. exact Hlc'.
  - match goal with
    | |- rep_arrays ?h' _ _ =>
        apply (related_set (fun l a => h' !! l = Some (OArray a)))
    end.
    + eapply rep_arrays_insert_dict; [exact Hlc'|].
      eapply rep_arrays_stable; [apply stable_alloc | exact Hd].
    + simpl. rewrite list_lookup_insert_ne.
      * apply lookup_new.
      * apply lookup_lt_Some in Hlc. lia.
Qed.

Lemma seed_var_refines h lc (v : string) la (a : ndarray) (cd : dict ndarray) :
  extends h0 h -> (length h0 <= lc)%nat ->
  h0 !! la = Some (OArray a) -> rep_dat h lc cd ->
  exists h',
    seed_var lc (v, la) tt h = (Ok tt, h') /\ extends h0 h' /\
    rep_dat h' lc (Dict.set cd v (Np.copy a)).
Proof.
  intros Hext Hfresh Hla Hcd.
  destruct (hoare_seed_var h0 lc (v, la) Hfresh h Hext) as [Hext' _].
  unfold seed_var in *. unfold bind at 1 in Hext'. unfold bind at 1.
  rewrite (run_read_array h la a (extends_stable h Hext _ _ Hla)) in *.
  destruct (store_new_array h lc v (Np.copy a) cd Hcd) as (h' & Hrun & Hrep).
  rewrite Hrun in *. exists h'. auto.
Qed.

Lemma seed_loop_refines lc (fd : dict loc) (first : dict ndarray) :
  (length h0 <= lc)%nat ->
  rep_arrays h0 fd first ->
  forall h cd,
    extends h0 h -> rep_dat h lc cd ->
    exists h',
      for_each fd (seed_var lc) tt h = (Ok tt, h') /\ extends h0 h' /\
      rep_dat h' lc
        (fold_left (fun cdat '(v, a) => Dict.set cdat v (Np.copy a)) first cd).
Proof.
  intros Hfresh Hfd.
  induction Hfd as [|[v la] [v' a] fd first [Hv Hla] _ IH]; intros h cd Hext Hcd.
  - exists h. simpl. auto.
  - simpl in Hv, Hla. subst v'.
    destruct (seed_var_refines h lc v la a cd Hext Hfresh Hla Hcd)
      as (h1 & Hrun & Hext1 & Hcd1).
    destruct (IH h1 _ Hext1 Hcd1) as (h2 & Hrun2 & Hext2 & Hcd2).
    exists h2. cbn [for_each]. unfold bind at 1. rewrite Hrun.
    split; [exact Hrun2 | split; [exact Hext2 | exact Hcd2]].
Qed.
Lemma sim_loop {V X Y : Type} (rep : heap -> loc -> V -> Prop)
  (Rxy : X -> Y -> Prop) l (body : X -> unit -> H unit)
  (pbody : Y -> V -> result V) :
  (forall x y h s, Rxy x y -> extends h0 h -> rep h l s ->
                   extends h0 (snd (body x tt h)) /\
                   same_outcome rep l (body x tt h) (pbody y s)) ->
  forall xs ys, Forall2 Rxy xs ys ->
  forall h s, extends h0 h -> rep h l s ->
              extends h0 (snd (for_each xs body tt h)) /\
              same_outcome rep l (for_each xs body tt h) (rfold ys pbody s).
Proof.
  intros Hbody xs ys Hxy.
  induction Hxy as [|x y xs ys Hx _ IH]; intros h s Hext Hs.
  - split; [exact Hext|]. simpl. auto.
  - cbn [for_each]. rewrite rfold_cons. unfold bind.
    destruct (Hbody x y h s Hx Hext Hs) as [Hext1 Hstep].
    destruct (body x tt h) as [r h1]. unfold same_outcome in Hstep.
    simpl in Hext1, Hstep.
    destruct (pbody y s) as [s1|e]; cbn [rbind].
    + destruct Hstep as [-> Hs1]. apply IH; assumption.
    + subst r. split; [exact Hext1 | reflexivity].
Qed.

Lemma names_entry (ln ls : loc) :
  Dict.getitem [("names", ln); ("sizes", ls)] "names" = Ok ln.
Proof. reflexivity. Qed.

Lemma sizes_entry (ln ls : loc) :
  Dict.getitem [("names", ln); ("sizes", ls)] "sizes" = Ok ls.
Proof. reflexivity. Qed.

(** [dims[v]['names']] on the store and on values. *)
Lemma run_dims_names h ldims (dm : dict dimrec) (v : string) {T : Type}
  (k : list string -> H T) :
  stable h0 h -> rep_dims h0 ldims dm ->
  bind (dict_getitem ldims v)
    (fun lrec => bind (dict_getitem lrec "names")
                   (fun lnames => bind (read_strs lnames) k)) h
  = match Dict.get dm v with
    | Some d => k (names d) h
    | None => (Raise (KeyError v), h)
    end.
Proof.
  intros Hst (dd & Hld & Hdd).
  unfold bind at 1. rewrite (run_dict_getitem h ldims dd v (Hst _ _ Hld)).
  pose proof (related_get (rep_dimrec h0) dd dm v Hdd) as Hget.
  unfold Dict.getitem.
  destruct (Dict.get dd v) as [lrec|], (Dict.get dm v) as [d|];
    try contradiction; [|reflexivity].
  destruct Hget as (ln & ls & Hrec & Hn & Hs).
  unfold bind at 1. rewrite (run_dict_getitem h lrec _ "names" (Hst _ _ Hrec)).
  rewrite names_entry. unfold bind at 1.
  rewrite (run_read_strs h ln _ (Hst _ _ Hn)). reflexivity.
Qed.

Lemma run_dims_sizes h ldims (dm : dict dimrec) (v : string) {T : Type}
  (k : list nat -> H T) :
  stable h0 h -> rep_dims h0 ldims dm ->
  bind (dict_getitem ldims v)
    (fun lrec => bind (dict_getitem lrec "sizes")
                   (fun lsizes => bind (read_ints lsizes) k)) h
  = match Dict.get dm v with
    | Some d => k (sizes d) h
    | None => (Raise (KeyError v), h)
    end.
Proof.
  intros Hst (dd & Hld & Hdd).
  unfold bind at 1. rewrite (run_dict_getitem h ldims dd v (Hst _ _ Hld)).
  pose proof (related_get (rep_dimrec h0) dd dm v Hdd) as Hget.
  unfold Dict.getitem.
  destruct (Dict.get dd v) as [lrec|], (Dict.get dm v) as [d|];
    try contradiction; [|reflexivity].
  destruct Hget as (ln & ls & Hrec & Hn & Hs).
  unfold bind at 1. rewrite (run_dict_getitem h lrec _ "sizes" (Hst _ _ Hrec)).
  rewrite sizes_entry. unfold bind at 1.
  rewrite (run_read_ints h ls _ (Hst _ _ Hs)). reflexivity.
Qed.

Lemma fold_var_refines h lc ldims (dm : dict dimrec) (v : string) la
  (a : ndarray) (cd : dict ndarray) :
  (length h0 <= lc)%nat -> rep_dims h0 ldims dm ->
  h0 !! la = Some (OArray a) ->
  extends h0 h -> rep_dat h lc cd ->
  sim_dat h0 lc (Store.fold_var np ldims lc (v, la) tt h)
    (v_fold_var np dm (v, a) cd).
Proof.
  intros Hfresh Hdims Hla Hext Hcd. split.
  { apply (hoare_fold_var h0 np ldims lc (v, la) Hfresh h Hext). }
  pose proof (extends_stable h Hext) as Hst.
  unfold Store.fold_var, v_fold_var.
  rewrite (run_dims_names h ldims dm v _ Hst Hdims).
  unfold Dict.getitem at 1.
  destruct (Dict.get dm v) as [d|] eqn:Ed; cbn [rbind]; [|reflexivity].
  destruct (names d) as [|n0 ns] eqn:En; [split; [reflexivity | exact Hcd]|].
  rewrite (run_dims_names h ldims dm v _ Hst Hdims), Ed, En.
  destruct (str_in atrack (n0 :: ns)); [|split; [reflexivity | exact Hcd]].
  pose proof Hcd as (dc & Hlc & Hdc).
  unfold bind at 1. rewrite (run_dict_getitem h lc dc v Hlc).
  pose proof (related_get (fun l c => h !! l = Some (OArray c)) dc cd v Hdc)
    as Hget.
  unfold Dict.getitem.
  destruct (Dict.get dc v) as [lcv|], (Dict.get cd v) as [c|];
    try contradiction; cbn [rbind]; [|reflexivity].
  unfold bind at 1. rewrite (run_read_array h lcv c Hget).
  unfold bind at 1. rewrite (run_read_array h la a (Hst _ _ Hla)).
  unfold bind at 1, lift.
  destruct (Np.concatenate np c a) as [j|e]; cbn [rbind]; cbv beta iota;
    [|reflexivity].
  destruct (store_new_array h lc v j cd Hcd) as (h' & Hrun & Hrep).
  rewrite Hrun. split; [reflexivity | exact Hrep].
Qed.

Lemma fold_granule_refines h lc ldims (dm : dict dimrec) ldat
  (dat : dict ndarray) (cd : dict ndarray) :
  (length h0 <= lc)%nat -> rep_dims h0 ldims dm ->
  rep_dat h0 ldat dat ->
  extends h0 h -> rep_dat h lc cd ->
  sim_dat h0 lc (Store.fold_granule np ldims lc ldat tt h)
    (v_fold_granule np dm dat cd).
Proof.
  intros Hfresh Hdims (dl & Hldat & Hdl) Hext Hcd.
  unfold Store.fold_granule, v_fold_granule. unfold bind at 1.
  rewrite (run_read_dict h ldat dl (extends_stable h Hext _ _ Hldat)).
  apply (sim_loop rep_dat
           (fun (kl : string * loc) (ka : string * ndarray) =>
              fst kl = fst ka /\ h0 !! snd kl = Some (OArray (snd ka)))
           lc (Store.fold_var np ldims lc) (v_fold_var np dm)); try assumption.
  intros [v la] [v' a] h1 cd1 [Hv Hla] Hext1 Hcd1. simpl in Hv, Hla. subst v'.
  apply fold_var_refines; assumption.
Qed.
Lemma fold_records_refines h lc ldims (dm : dict dimrec) (ls : list loc)
  (dl : list (dict ndarray)) (cd : dict ndarray) :
  (length h0 <= lc)%nat -> rep_dims h0 ldims dm ->
  Forall2 (rep_dat h0) ls dl ->
  extends h0 h -> rep_dat h lc cd ->
  sim_dat h0 lc (for_each ls (Store.fold_granule np ldims lc) tt h)
    (rfold dl (v_fold_granule np dm) cd).
Proof.
  intros Hfresh Hdims Hls Hext Hcd.
  apply (sim_loop rep_dat (rep_dat h0) lc (Store.fold_granule np ldims lc)
           (v_fold_granule np dm)); try assumption.
  intros ldat dat h1 cd1 Hdat Hext1 Hcd1.
  apply fold_granule_refines; assumption.
Qed.
Lemma insert_last h (o o' : obj) : <[length h := o']> (h ++ [o]) = h ++ [o'].
Proof.
  rewrite insert_app_r_alt by lia. rewrite Nat.sub_diag. reflexivity.
Qed.

Lemma rep_dimrec_insert_dict h lcd (d0 d' : dict loc) x (r : dimrec) :
  h !! lcd = Some (ODict d0) -> lcd <> x ->
  rep_dimrec h x r -> rep_dimrec (<[lcd := ODict d']> h) x r.
Proof.
  intros Hlcd Hne (ln & ls & Hx & Hn & Hs). exists ln, ls.
  repeat split; (rewrite list_lookup_insert_ne; [assumption|]); congruence.
Qed.

Lemma rep_own_dims_stable h h' lcd (cdims : dict dimrec) :
  stable h h' -> rep_own_dims h lcd cdims -> rep_own_dims h' lcd cdims.
Proof.
  intros Hs (d & Hl & Hd). exists d. split; [apply Hs, Hl|].
  eapply Forall2_impl; [exact Hd|]. intros [k l] [k' r] (Hk & Hlt & Hr).
  repeat split; [exact Hk | exact Hlt |]. eapply rep_dimrec_stable; eassumption.
Qed.

Lemma rep_own_dims_rep_dims h lcd (cdims : dict dimrec) :
  rep_own_dims h lcd cdims -> rep_dims h lcd cdims.
Proof.
  intros (d & Hl & Hd). exists d. split; [exact Hl|].
  eapply Forall2_impl; [exact Hd|]. intros [k l] [k' r] (Hk & _ & Hr). auto.
Qed.

(** [fresh = alloc({'names': ln, 'sizes': ls}); cdims[v] = fresh] *)
Lemma store_new_dimrec h lcd (v : string) ln ls (ns : list string)
  (szs : list nat) (cdims : dict dimrec) :
  h !! ln = Some (OStrs ns) -> h !! ls = Some (OInts szs) ->
  rep_own_dims h lcd cdims ->
  exists h',
    bind (alloc (ODict [("names", ln); ("sizes", ls)]))
      (fun fresh => dict_setitem lcd v fresh) h = (Ok tt, h') /\
    rep_own_dims h' lcd (Dict.set cdims v (mkdimrec ns szs)).
Proof.
  intros Hn Hs (d & Hlcd & Hd). unfold bind, alloc.
  set (rec := ODict [("names", ln); ("sizes", ls)]).
  assert (Hlcd' : (h ++ [rec]) !! lcd = Some (ODict d))
    by (apply lookup_app_l_Some, Hlcd).
  rewrite (run_dict_setitem _ _ _ _ _ Hlcd').
  eexists. split; [reflexivity|].
  assert (Hlt : (lcd < length h)%nat) by (apply lookup_lt_Some in Hlcd; exact Hlcd).
  exists (Dict.set d v (length h)). split.
  - apply list_lookup_insert_eq. rewrite length_app. simpl. lia.
  - match goal with
    | |- Forall2 _ (Dict.set _ _ ?x) (Dict.set _ _ ?y) =>
        match goal with
        | |- context [<[lcd := ?o]> ?hh] =>
            apply (related_set
                     (fun l r => (lcd < l)%nat /\ rep_dimrec (<[lcd := o]> hh) l r))
        end
    end.
    + eapply Forall2_impl; [exact Hd|]. intros [k l] [k' r] (Hk & Hl & Hr).
      simpl in Hk, Hl, Hr |- *.
      split; [exact Hk|]. split; [exact Hl|].
      eapply rep_dimrec_insert_dict; [exact Hlcd' | lia |].
      eapply rep_dimrec_stable; [apply stable_alloc | exact Hr].
    + split; [exact Hlt|]. exists ln, ls. simpl.
      assert (Hk : forall l o, h !! l = Some o -> (forall dd, o <> ODict dd) ->
                   <[lcd := ODict (Dict.set d v (length h))]> (h ++ [rec]) !! l
                   = Some o).
      { intros l o Hl Ho. rewrite list_lookup_insert_ne.
        - apply lookup_app_l_Some, Hl.
        - intros ->. rewrite Hlcd in Hl. inversion Hl. eapply Ho. eauto. }
      repeat split.
      * rewrite list_lookup_insert_ne by lia. apply lookup_new.
      * apply Hk; [exact Hn | discriminate].
      * apply Hk; [exact Hs | discriminate].
Qed.
Lemma reconcile_var_refines h lcd ldims (dm : dict dimrec) lc
  (cdat : dict ndarray) (v : string) (c : ndarray) (cdims : dict dimrec) :
  (length h0 <= lcd)%nat -> rep_dims h0 ldims dm -> rep_dat h0 lc cdat ->
  Dict.get cdat v = Some c ->
  extends h0 h -> rep_own_dims h lcd cdims ->
  extends h0 (snd (Store.reconcile_var ldims lc lcd v tt h)) /\
  same_outcome rep_own_dims lcd (Store.reconcile_var ldims lc lcd v tt h)
    (v_reconcile_var dm (v, c) cdims).
Proof.
  intros Hfresh Hdims Hcdat Hc Hext Hcd. split.
  { apply (hoare_reconcile_var h0 ldims lc lcd v Hfresh h Hext). }
  pose proof (extends_stable h Hext) as Hst.
  unfold Store.reconcile_var, v_reconcile_var.
  rewrite (run_dims_names h ldims dm v _ Hst Hdims).
  unfold Dict.getitem at 1.
  destruct (Dict.get dm v) as [d|] eqn:Ed; cbn [rbind]; [|reflexivity].
  unfold bind at 1. unfold alloc at 1. cbv beta iota.
  set (h1 := h ++ [OStrs (names d)]).
  assert (Hst1 : stable h0 h1).
  { eapply stable_trans; [exact Hst | apply stable_alloc]. }
  rewrite (run_dims_sizes h1 ldims dm v _ Hst1 Hdims), Ed.
  unfold bind at 1. unfold alloc at 1. cbv beta iota.
  set (h2 := h1 ++ [OInts (sizes d)]).
  assert (Hn1 : h1 !! length h = Some (OStrs (names d))) by apply lookup_new.
  assert (Hn2 : h2 !! length h = Some (OStrs (names d)))
    by (apply lookup_app_l_Some, Hn1).
  assert (Hs2 : h2 !! length h1 = Some (OInts (sizes d))) by apply lookup_new.
  assert (Hst2 : stable h0 h2).
  { eapply stable_trans; [exact Hst1 | apply stable_alloc]. }
  unfold bind at 1. rewrite (run_read_strs h2 (length h) _ Hn2).
  unfold bind at 1.
  assert (Hmid :
    match
      match names d with
      | [] => Ok (sizes d)
      | n0 :: _ =>
          if String.eqb n0 atrack
          then rbind (Np.shape0 c) (fun n => setitem0 (sizes d) n)
          else Ok (sizes d)
      end
    with
    | Ok szs =>
        match names d with
        | [] => ret tt
        | n0 :: _ =>
            if String.eqb n0 atrack
            then
              bind (dict_getitem lc v) (fun lc0 =>
              bind (read_array lc0) (fun c0 =>
              bind (lift (Np.shape0 c0)) (fun n =>
              bind (read_ints (length h1)) (fun cur =>
              bind (lift (setitem0 cur n)) (fun upd =>
              write (length h1) (OInts upd))))))
            else ret tt
        end h2 = (Ok tt, h1 ++ [OInts szs])
    | Raise e =>
        exists hx,
        match names d with
        | [] => ret tt
        | n0 :: _ =>
            if String.eqb n0 atrack
            then
              bind (dict_getitem lc v) (fun lc0 =>
              bind (read_array lc0) (fun c0 =>
              bind (lift (Np.shape0 c0)) (fun n =>
              bind (read_ints (length h1)) (fun cur =>
              bind (lift (setitem0 cur n)) (fun upd =>
              write (length h1) (OInts upd))))))
            else ret tt
        end h2 = (Raise e, hx)
    end).
  { destruct (names d) as [|n0 ns]; [reflexivity|].
    destruct (String.eqb n0 atrack); [|reflexivity].
    destruct Hcdat as (dc & Hlc & Hdc).
    pose proof (related_get (fun l a => h0 !! l = Some (OArray a)) dc cdat v Hdc)
      as Hget.
    rewrite Hc in Hget.
    destruct (Dict.get dc v) as [lcv|] eqn:Elcv; [|contradiction].
    assert (Hrun :
      bind (dict_getitem lc v) (fun lc0 =>
      bind (read_array lc0) (fun c0 =>
      bind (lift (Np.shape0 c0)) (fun n =>
      bind (read_ints (length h1)) (fun cur =>
      bind (lift (setitem0 cur n)) (fun upd =>
      write (length h1) (OInts upd)))))) h2
      = match rbind (Np.shape0 c) (fun n => setitem0 (sizes d) n) with
        | Ok upd => (Ok tt, <[length h1 := OInts upd]> h2)
        | Raise e => (Raise e, h2)
        end).
    { unfold bind at 1. rewrite (run_dict_getitem h2 lc dc v (Hst2 _ _ Hlc)).
      unfold Dict.getitem. rewrite Elcv.
      unfold bind at 1. rewrite (run_read_array h2 lcv c (Hst2 _ _ Hget)).
      unfold bind at 1, lift at 1.
      destruct (Np.shape0 c) as [n|e]; cbn [rbind]; [|reflexivity].
      unfold bind at 1. rewrite (run_read_ints h2 (length h1) _ Hs2).
      unfold bind at 1, lift at 1.
      destruct (setitem0 (sizes d) n) as [upd|e]; reflexivity. }
    rewrite Hrun.
    destruct (rbind (Np.shape0 c) (fun n => setitem0 (sizes d) n)) as [upd|e].
    - unfold h2. rewrite insert_last. reflexivity.
    - eexists. reflexivity. }
  destruct (match names d with
            | [] => Ok (sizes d)
            | n0 :: _ =>
                if String.eqb n0 atrack
                then rbind (Np.shape0 c) (fun n => setitem0 (sizes d) n)
                else Ok (sizes d)
            end) as [szs|e]; cbn [rbind].
  - rewrite Hmid.
    destruct (store_new_dimrec (h1 ++ [OInts szs]) lcd v (length h) (length h1)
                (names d) szs cdims) as (h' & Hrun & Hrep).
    + apply lookup_app_l_Some, Hn1.
    + apply lookup_new.
    + eapply rep_own_dims_stable; [|exact Hcd].
      eapply stable_trans; apply stable_alloc.
    + rewrite Hrun. split; [reflexivity | exact Hrep].
  - destruct Hmid as [hx Hmid]. rewrite Hmid. reflexivity.
Qed.
End StoreRefines.

Section StoreAgreement.
Abbreviation w_concat_granules := concat_granules.
Abbreviation w_fold_granule := fold_granule.
Abbreviation w_reconcile_var := reconcile_var.
Import Store.
Variable np : Numpy.

Lemma keys_paired (cdat : dict ndarray) :
  NoDup (Dict.keys cdat) ->
  Forall2 (fun v (kc : string * ndarray) =>
             v = fst kc /\ Dict.get cdat (fst kc) = Some (snd kc))
    (Dict.keys cdat) cdat.
Proof.
  intros Hnd.
  assert (Hgen : forall l : dict ndarray,
             (forall kc, In kc l -> Dict.get cdat (fst kc) = Some (snd kc)) ->
             Forall2 (fun v (kc : string * ndarray) =>
                        v = fst kc /\ Dict.get cdat (fst kc) = Some (snd kc))
               (Dict.keys l) l).
  { induction l as [|kc l IH]; intros Hl; simpl; constructor.
    - split; [reflexivity | apply Hl; left; reflexivity].
    - apply IH. intros kc' Hin. apply Hl. right. exact Hin. }
  apply Hgen. intros [k c] Hin. apply In_get_Some; assumption.
Qed.

(** The descriptor loop, run after the aggregate is complete: [h3] is
    the store at that point, and nothing of it is written any more. *)
Lemma reconcile_loop_refines (h3 : heap) (ldims lc : loc) (dm : dict dimrec)
  (cdat : dict ndarray) (dc : dict loc) :
  rep_dims h3 ldims dm ->
  h3 !! lc = Some (ODict dc) -> rep_arrays h3 dc cdat ->
  NoDup (Dict.keys cdat) ->
  let h4 := h3 ++ [ODict []] in
  let lcd := length h3 in
  extends h3 (snd (for_each (Dict.keys dc) (Store.reconcile_var ldims lc lcd) tt h4)) /\
  same_outcome rep_own_dims lcd
    (for_each (Dict.keys dc) (Store.reconcile_var ldims lc lcd) tt h4)
    (rfold cdat (w_reconcile_var dm) []).
Proof.
  intros Hdims Hlc Hdc Hnd h4 lcd.
  assert (Hext4 : extends h3 h4).
  { assert (Hf : refs_fresh (length h3) (ODict [])) by constructor.
    apply (hoare_alloc h3 (ODict []) Hf h3 (extends_refl h3)). }
  rewrite (related_keys (fun l a => h3 !! l = Some (OArray a)) dc cdat Hdc).
  apply (sim_loop h3 rep_own_dims
           (fun v (kc : string * ndarray) =>
              v = fst kc /\ Dict.get cdat (fst kc) = Some (snd kc))
           lcd (Store.reconcile_var ldims lc lcd) (w_reconcile_var dm)).
  - intros v [v' c] hx cdims [-> Hc] Hextx Hcdx. simpl in Hc |- *.
    apply (reconcile_var_refines h3 hx lcd ldims dm lc cdat v' c cdims);
      try assumption; [apply le_n | exists dc; auto].
  - apply keys_paired, Hnd.
  - exact Hext4.
  - exists []. split; [apply lookup_new | constructor].
Qed.

(** X14: on a store that holds the records and the descriptors, however
    the records share their arrays, the function on references and the
    function on values end alike: with the same exception, or with dicts
    that hold the same aggregate and the same descriptors. *)
Theorem store_concat_granules_refines (h : heap) (ldl ldims : loc)
  (dl : list (dict ndarray)) (dm : dict dimrec) :
  rep_dat_list h ldl dl -> rep_dims h ldims dm ->
  same_result (Store.concat_granules np ldl ldims h) (w_concat_granules np dl dm).
Proof.
  intros (ls & Hldl & Hls) Hdims.
  unfold Store.concat_granules, w_concat_granules.
  unfold bind at 1. unfold alloc at 1. cbv beta iota.
  set (h1 := h ++ [ODict []]).
  assert (Hext1 : extends h h1).
  { assert (Hf : refs_fresh (length h) (ODict [])) by constructor.
    apply (hoare_alloc h (ODict []) Hf h (extends_refl h)). }
  pose proof (extends_stable h h1 Hext1) as Hst1.
  unfold bind at 1. rewrite (run_read_refs h1 ldl ls (Hst1 _ _ Hldl)).
  unfold bind at 1, lift at 1.
  destruct Hls as [|l0 first ls' dl' (fd & Hl0 & Hfd) Hrest]; [reflexivity|].
  rewrite !getitem_first. cbn [rbind tl].
  unfold bind at 1. rewrite (run_read_dict h1 l0 fd (Hst1 _ _ Hl0)).
  unfold bind at 1.
  destruct (seed_loop_refines h (length h) fd first (le_n _) Hfd h1 [] Hext1)
    as (h2 & Hrun2 & Hext2 & Hcd2).
  { exists []. split; [apply lookup_new | constructor]. }
  rewrite Hrun2. fold (seed first) in Hcd2.
  pose proof (extends_stable h h2 Hext2) as Hst2.
  unfold bind at 1. rewrite (run_read_refs h2 ldl (l0 :: ls') (Hst2 _ _ Hldl)).
  unfold bind at 1. cbn [tl].
  destruct (fold_records_refines h np h2 (length h) ldims dm ls' dl' (seed first)
              (le_n _) Hdims Hrest Hext2 Hcd2) as [Hext3 Hsim].
  destruct (for_each ls' (Store.fold_granule np ldims (length h)) tt h2)
    as [r h3].
  unfold same_outcome in Hsim. simpl in Hext3, Hsim.
  destruct (rfold dl' (w_fold_granule np dm) (seed first)) as [cdat|e] eqn:Hfold;
    cbn [rbind]; [|subst r; reflexivity].
  destruct Hsim as [-> (dc & Hlc & Hdc)].
  pose proof (extends_stable h h3 Hext3) as Hst3.
  assert (Hnd : NoDup (Dict.keys cdat)).
  { rewrite (fold_records_keys np dm dl' _ _ Hfold). apply seed_NoDup. }
  unfold bind at 1. unfold alloc at 1. cbv beta iota.
  unfold bind at 1.
  rewrite (run_read_dict (h3 ++ [ODict []]) (length h) dc
             (lookup_app_l_Some _ _ _ _ Hlc)).
  unfold bind at 1.
  destruct (reconcile_loop_refines h3 ldims (length h) dm cdat dc
              (rep_dims_stable h h3 ldims dm Hst3 Hdims) Hlc Hdc Hnd)
    as [Hext5 Hsim5].
  destruct (for_each (Dict.keys dc)
              (Store.reconcile_var ldims (length h) (length h3)) tt
              (h3 ++ [ODict []])) as [r5 h5].
  unfold same_outcome in Hsim5. simpl in Hext5, Hsim5.
  destruct (rfold cdat (w_reconcile_var dm) []) as [cdims|e]; cbn [rbind];
    [|subst r5; reflexivity].
  destruct Hsim5 as [-> Hcdims].
  exists (length h), (length h3). split; [reflexivity|]. split.
  - eapply rep_dat_stable; [apply (extends_stable h3 h5 Hext5)|].
    exists dc. auto.
  - apply rep_own_dims_rep_dims, Hcdims.
Qed.
End StoreAgreement.

(** ** Catalog resolver, continued *)

Lemma pop_first_inv {A : Type} (l l' : list A) :
  Py.pop l 0 = Ok l' -> exists x, l = x :: l'.
Proof.
  destruct l as [|x l]; [discriminate|].
  rewrite pop_first. intros [= <-]. eauto.
Qed.

Lemma pop_last_inv {A : Type} (l l' : list A) :
  Py.pop l (-1) = Ok l' -> exists x, l = l' ++ [x].
Proof.
  destruct l as [|y l0]; [discriminate|].
  destruct (List.exists_last (l := y :: l0)) as (pre & x & E); [discriminate|].
  rewrite E, pop_last. intros [= <-]. eauto.
Qed.

Lemma trim_boundaries_infix (expected : string) (gl gl' : list Granule) :
  trim_boundaries expected gl = Ok gl' ->
  exists a b, gl = a ++ gl' ++ b /\ (length a <= 1)%nat /\ (length b <= 1)%nat.
Proof.
  unfold trim_boundaries. rewrite rfold_cons. intros H.
  apply rbind_Ok in H as (g1 & H0 & H). rewrite rfold_cons in H.
  apply rbind_Ok in H as (g2 & H1 & [= <-]).
  assert (Ha : exists a, gl = a ++ g1 /\ (length a <= 1)%nat).
  { unfold trim_at in H0. apply rbind_Ok in H0 as (ymd & _ & H0).
    destruct (negb _).
    - apply pop_first_inv in H0 as [x ->]. exists [x]. split; [reflexivity | simpl; lia].
    - inversion H0; subst. exists []. split; [reflexivity | simpl; lia]. }
  assert (Hb : exists b, g1 = g2 ++ b /\ (length b <= 1)%nat).
  { unfold trim_at in H1. apply rbind_Ok in H1 as (ymd & _ & H1).
    destruct (negb _).
    - apply pop_last_inv in H1 as [x ->]. exists [x]. split; [reflexivity | simpl; lia].
    - inversion H1; subst. exists []. split; [symmetry; apply List.app_nil_r | simpl; lia]. }
  destruct Ha as (a & -> & Hla). destruct Hb as (b & -> & Hlb).
  exists a, b. auto.
Qed.

(** X2: the list returned is the catalog's answer without, at most, its
    first and its last entry: nothing in between is dropped or reordered. *)
Theorem get_granule_list_infix (env : Env) (year doy : Z) (short_name : string)
  (w : World) (gl' : list Granule) :
  fst (get_granule_list env year doy short_name w) = Ok gl' ->
  exists window_start window_stop a b,
    day_window year doy = Ok (window_start, window_stop) /\
    search_data env short_name (Datetime.strftime_Y_m_d window_start)
      (Datetime.strftime_Y_m_d window_stop) = a ++ gl' ++ b /\
    (length a <= 1)%nat /\ (length b <= 1)%nat.
Proof.
  destruct (day_window year doy) as [[ws we]|e] eqn:Hwin.
  - rewrite (get_granule_list_unfold env year doy short_name w ws we Hwin).
    cbv zeta. cbn [fst]. intros H. exists ws, we.
    destruct (0 <? length _)%nat.
    + apply trim_boundaries_infix in H as (a & b & Hgl & Ha & Hb).
      exists a, b. auto.
    + inversion H; subst. exists [], []. rewrite List.app_nil_r. simpl.
      repeat split; auto; lia.
  - unfold get_granule_list, bind, lift. rewrite Hwin. discriminate.
Qed.

Lemma get_granule_list_infix_witness :
  exists window_start window_stop a b,
    day_window 2019 282 = Ok (window_start, window_stop) /\
    search_data (sample_env [granule_of "20191008T2354"; granule_of "20191009T0000";
                             granule_of "20191009T2354"; granule_of "20191010T0000"]
                   [] [] (Refused "unused"))
      "SNDRJ1IML2CCPRET" (Datetime.strftime_Y_m_d window_start)
      (Datetime.strftime_Y_m_d window_stop)
    = a ++ [granule_of "20191009T0000"; granule_of "20191009T2354"] ++ b /\
    (length a <= 1)%nat /\ (length b <= 1)%nat.
Proof.
  apply (get_granule_list_infix
           (sample_env [granule_of "20191008T2354"; granule_of "20191009T0000";
                        granule_of "20191009T2354"; granule_of "20191010T0000"]
              [] [] (Refused "unused"))
           2019 282 "SNDRJ1IML2CCPRET" empty_world).
  vm_compute. reflexivity.
Defined.


Lemma getitem_index_error {A : Type} (l : list A) (idx : Z) :
  raises_only index_error (Py.getitem l idx).
Proof.
  unfold Py.getitem. destruct (_ || _); simpl; [exact I|].
  destruct (nth_error _ _); simpl; exact I.
Qed.

Lemma pop_index_error {A : Type} (l : list A) (idx : Z) :
  raises_only index_error (Py.pop l idx).
Proof.
  unfold Py.pop. destruct (_ =? _); simpl; [exact I|].
  destruct (_ || _); simpl; exact I.
Qed.

Lemma trim_boundaries_index_error (expected : string) (gl : list Granule) :
  raises_only index_error (trim_boundaries expected gl).
Proof.
  unfold trim_boundaries. apply raises_only_rfold. intros idx l.
  unfold trim_at. apply raises_only_rbind.
  - unfold boundary_ymd. apply raises_only_rbind; [apply getitem_index_error|].
    intros g. apply raises_only_rbind; [apply getitem_index_error|].
    intros link. unfold link_ymd.
    apply raises_only_rbind; [apply getitem_index_error|]. intros f.
    apply raises_only_rbind; [apply getitem_index_error|]. intros seg. exact I.
  - intros ymd. destruct (negb _); [apply pop_index_error | exact I].
Qed.

Lemma day_window_error (year doy : Z) :
  raises_only window_error (day_window year doy).
Proof.
  unfold day_window. apply raises_only_rbind.
  - unfold Datetime.datetime. repeat (destruct (_ || _); [exact I|]). exact I.
  - intros ys. apply raises_only_rbind.
    + unfold Datetime.add_days. destruct (_ <? _); [exact I|].
      destruct (_ || _); exact I.
    + intros ws. apply raises_only_rbind; [|intros; exact I].
      unfold Datetime.add_days. destruct (_ <? _); [exact I|].
      destruct (_ || _); exact I.
Qed.

(** X4: an exception of [get_granule_list] is either raised by the date
    arithmetic, before the catalog is queried (the state is untouched),
    or it is an [IndexError] of the trimming loop, after the one query. *)
Theorem get_granule_list_raises (env : Env) (year doy : Z) (short_name : string)
  (w : World) (e : exn) :
  fst (get_granule_list env year doy short_name w) = Raise e ->
  (window_error e /\ day_window year doy = Raise e /\
   snd (get_granule_list env year doy short_name w) = w) \/
  (index_error e /\
   exists start stop,
     log (snd (get_granule_list env year doy short_name w))
     = log w ++ [EvSearch short_name start stop]).
Proof.
  destruct (day_window year doy) as [[ws we]|e0] eqn:Hwin.
  - rewrite (get_granule_list_unfold env year doy short_name w ws we Hwin).
    cbv zeta. cbn [fst snd log]. intros H. right. split; [|eauto].
    destruct (0 <? length _)%nat; [|discriminate].
    pose proof (trim_boundaries_index_error (Datetime.strftime_Ymd ws)
                  (search_data env short_name (Datetime.strftime_Y_m_d ws)
                     (Datetime.strftime_Y_m_d we))) as Hr.
    rewrite H in Hr. exact Hr.
  - pose proof (day_window_error year doy) as Hr. rewrite Hwin in Hr.
    unfold get_granule_list, bind, lift. rewrite Hwin. cbn [fst snd].
    intros [= <-]. left. auto.
Qed.

Lemma get_granule_list_raises_witness :
  let env := sample_env [granule_of "20191008T2354"] [] [] (Refused "unused") in
  let e := IndexError "list index out of range" in
  (window_error e /\ day_window 2019 282 = Raise e /\
   snd (get_granule_list env 2019 282 "SNDRJ1IML2CCPRET" empty_world) = empty_world) \/
  (index_error e /\
   exists start stop,
     log (snd (get_granule_list env 2019 282 "SNDRJ1IML2CCPRET" empty_world))
     = log empty_world ++ [EvSearch "SNDRJ1IML2CCPRET" start stop]).
Proof.
  apply (get_granule_list_raises
           (sample_env [granule_of "20191008T2354"] [] [] (Refused "unused"))
           2019 282 "SNDRJ1IML2CCPRET" empty_world
           (IndexError "list index out of range")).
  vm_compute. reflexivity.
Defined.

(** X3: for an answer of two or more entries whose deciding links parse,
    the first entry is kept exactly when the token of its first link is
    the requested day, the last entry exactly when the token of its last
    link is, and every entry in between is kept unexamined. *)
Theorem get_granule_list_two_ends (env : Env) (year doy : Z) (short_name : string)
  (w : World) (window_start window_stop : Datetime.date)
  (first last : Granule) (mid : list Granule) (t0 t1 : string) :
  day_window year doy = Ok (window_start, window_stop) ->
  search_data env short_name (Datetime.strftime_Y_m_d window_start)
    (Datetime.strftime_Y_m_d window_stop) = first :: mid ++ [last] ->
  rbind (Py.getitem (data_links first) 0) link_ymd = Ok t0 ->
  rbind (Py.getitem (data_links last) (-1)) link_ymd = Ok t1 ->
  fst (get_granule_list env year doy short_name w)
  = Ok ((if String.eqb t0 (Datetime.strftime_Ymd window_start) then [first] else [])
        ++ mid
        ++ (if String.eqb t1 (Datetime.strftime_Ymd window_start) then [last] else [])).
Proof.
  intros Hwin Hsearch H0 H1.
  rewrite (get_granule_list_unfold env year doy short_name w _ _ Hwin).
  cbv zeta. rewrite Hsearch. cbn [fst length Nat.ltb Nat.leb].
  apply trim_boundaries_two_ends; assumption.
Qed.

Lemma get_granule_list_two_ends_witness :
  fst (get_granule_list
         (sample_env [granule_of "20191008T2354"; granule_of "20191008T2359";
                      granule_of "20191009T0000"; granule_of "20191010T0000"]
            [] [] (Refused "unused"))
         2019 282 "SNDRJ1IML2CCPRET" empty_world)
  = Ok ((if String.eqb "20191008" (Datetime.strftime_Ymd (Datetime.mkdate 2019 10 9))
         then [granule_of "20191008T2354"] else [])
        ++ [granule_of "20191008T2359"; granule_of "20191009T0000"]
        ++ (if String.eqb "20191010" (Datetime.strftime_Ymd (Datetime.mkdate 2019 10 9))
            then [granule_of "20191010T0000"] else [])).
Proof.
  apply (get_granule_list_two_ends
           (sample_env [granule_of "20191008T2354"; granule_of "20191008T2359";
                        granule_of "20191009T0000"; granule_of "20191010T0000"]
              [] [] (Refused "unused"))
           2019 282 "SNDRJ1IML2CCPRET" empty_world
           (Datetime.mkdate 2019 10 9) (Datetime.mkdate 2019 10 10)
           (granule_of "20191008T2354") (granule_of "20191010T0000")
           [granule_of "20191008T2359"; granule_of "20191009T0000"]
           "20191008" "20191010").
  - vm_compute. reflexivity.
  - reflexivity.
  - vm_compute. reflexivity.
  - vm_compute. reflexivity.
Defined.

(** ** Aggregator, continued *)

Lemma seed_acc_app (first acc : dict ndarray) :
  NoDup (Dict.keys acc ++ Dict.keys first) ->
  fold_left (fun cdat '(v, a) => Dict.set cdat v (Np.copy a)) first acc
  = acc ++ first.
Proof.
  revert acc. induction first as [|[k a] rest IH]; intros acc Hnd; simpl.
  - rewrite List.app_nil_r. reflexivity.
  - assert (Hk : ~ In k (Dict.keys acc)).
    { intros Hin. apply NoDup_app in Hnd as (_ & Hdis & _).
      apply (Hdis k); [apply list_elem_of_In, Hin | left]. }
    assert (Hset : Dict.set acc k (Np.copy a) = acc ++ [(k, a)]).
    { clear -Hk. rewrite copy_id. induction acc as [|[k' x'] acc IH]; simpl.
      - reflexivity.
      - simpl in Hk. destruct (String.eqb k' k) eqn:E.
        + apply String.eqb_eq in E. tauto.
        + f_equal. apply IH. tauto. }
    rewrite Hset, IH.
    + rewrite <- List.app_assoc. reflexivity.
    + unfold Dict.keys. rewrite map_app. simpl.
      rewrite <- List.app_assoc. exact Hnd.
Qed.

Lemma seed_id (first : dict ndarray) :
  NoDup (Dict.keys first) -> seed first = first.
Proof. intros Hnd. unfold seed. rewrite seed_acc_app; [reflexivity | exact Hnd]. Qed.

Lemma reconcile_keys (dims : dict dimrec) (cdat : dict ndarray) :
  NoDup (Dict.keys cdat) ->
  forall acc cdims,
    (forall k, In k (Dict.keys cdat) -> ~ In k (Dict.keys acc)) ->
    rfold cdat (reconcile_var dims) acc = Ok cdims ->
    Dict.keys cdims = Dict.keys acc ++ Dict.keys cdat.
Proof.
  induction cdat as [|[k a] rest IH]; intros Hnd acc cdims Hdis.
  - intros [= <-]. simpl. rewrite List.app_nil_r. reflexivity.
  - apply NoDup_cons in Hnd as [Hk Hrest].
    rewrite rfold_cons. intros H. apply rbind_Ok in H as (c1 & E1 & H).
    apply reconcile_var_spec in E1 as (d & szs & _ & -> & _).
    assert (Hnew : ~ In k (Dict.keys acc)) by (apply Hdis; left; reflexivity).
    rewrite (IH Hrest _ _) with (2 := H).
    + rewrite keys_set_new by exact Hnew. simpl.
      rewrite <- List.app_assoc. reflexivity.
    + intros k' Hk'. rewrite keys_set_new by exact Hnew.
      intros Hin. apply in_app_or in Hin as [Hin | [<- | []]].
      * apply (Hdis k'); [right; exact Hk' | exact Hin].
      * apply Hk, list_elem_of_In, Hk'.
Qed.

Lemma concat_granules_cdat_keys (np : Numpy) (first : dict ndarray)
  (rest : list (dict ndarray)) (dims : dict dimrec)
  (cdat : dict ndarray) (cdims : dict dimrec) :
  NoDup (Dict.keys first) ->
  concat_granules np (first :: rest) dims = Ok (cdat, cdims) ->
  Dict.keys cdat = Dict.keys first /\ Dict.keys cdims = Dict.keys first.
Proof.
  intros Hnd Hcat. apply concat_granules_inv in Hcat as [Hfold Hrec].
  assert (Hk : Dict.keys cdat = Dict.keys first).
  { rewrite (fold_records_keys np dims rest _ _ Hfold), seed_id by exact Hnd.
    reflexivity. }
  split; [exact Hk|].
  rewrite (reconcile_keys dims cdat) with (acc := []) (cdims := cdims).
  - simpl. exact Hk.
  - rewrite Hk. exact Hnd.
  - intros k _ [].
  - exact Hrec.
Qed.

(** X8: the aggregate and its descriptors hold exactly the variables of
    the first record, in the first record's order. *)
Theorem concat_granules_keys (np : Numpy) (first : dict ndarray)
  (rest : list (dict ndarray)) (dims : dict dimrec)
  (cdat : dict ndarray) (cdims : dict dimrec) :
  NoDup (Dict.keys first) ->
  concat_granules np (first :: rest) dims = Ok (cdat, cdims) ->
  Dict.keys cdat = Dict.keys first /\ Dict.keys cdims = Dict.keys first.
Proof. apply concat_granules_cdat_keys. Qed.

Lemma concat_granules_keys_witness :
  Dict.keys (fst sample_aggregate) = Dict.keys (record_of 1 7) /\
  Dict.keys (snd sample_aggregate) = Dict.keys (record_of 1 7).
Proof.
  apply (concat_granules_keys np_same (record_of 1 7) [record_of 2 8] sample_dims
           (fst sample_aggregate) (snd sample_aggregate)).
  - apply (bool_decide_unpack _). vm_compute. exact I.
  - vm_compute. reflexivity.
Defined.

Lemma reconcile_var_sizes (dims : dict dimrec) (k : string) (a : ndarray)
  (cdims cdims' : dict dimrec) :
  reconcile_var dims (k, a) cdims = Ok cdims' ->
  exists d szs,
    Dict.get dims k = Some d /\
    cdims' = Dict.set cdims k (mkdimrec (names d) szs) /\
    length szs = length (sizes d) /\
    tl szs = tl (sizes d) /\
    (hd_error (names d) <> Some atrack -> szs = sizes d).
Proof.
  unfold reconcile_var, Dict.getitem.
  destruct (Dict.get dims k) as [d|]; simpl; [|discriminate].
  intros H. apply rbind_Ok in H as (szs & Hs & [= <-]).
  exists d, szs. split; [reflexivity|]. split; [reflexivity|].
  destruct (names d) as [|n0 ns] eqn:En.
  - inversion Hs; subst. auto.
  - destruct (String.eqb n0 atrack) eqn:E0.
    + apply rbind_Ok in Hs as (n & Hn & Hset).
      unfold setitem0 in Hset. destruct (sizes d) as [|s0 ss]; [discriminate|].
      inversion Hset; subst. repeat split; auto.
      intros Hno. exfalso. apply Hno. apply String.eqb_eq in E0. subst n0.
      reflexivity.
    + inversion Hs; subst. auto.
Qed.

Lemma reconcile_get_sizes (dims : dict dimrec) (v : string) (cdat : dict ndarray) :
  NoDup (Dict.keys cdat) ->
  In v (Dict.keys cdat) ->
  forall acc cdims,
    rfold cdat (reconcile_var dims) acc = Ok cdims ->
    exists d szs,
      Dict.get dims v = Some d /\
      Dict.get cdims v = Some (mkdimrec (names d) szs) /\
      length szs = length (sizes d) /\
      tl szs = tl (sizes d) /\
      (hd_error (names d) <> Some atrack -> szs = sizes d).
Proof.
  induction cdat as [|[k a0] rest IH]; intros Hnd Hin acc cdims.
  - destruct Hin.
  - apply NoDup_cons in Hnd as [Hk Hrest].
    rewrite rfold_cons. intros H. apply rbind_Ok in H as (c1 & E1 & H).
    destruct (string_dec k v) as [-> | Hne].
    + apply reconcile_var_sizes in E1 as (d & szs & Hd & -> & Hl & Ht & Hs).
      exists d, szs. split; [exact Hd|]. split; [|auto].
      rewrite (reconcile_other dims v rest) with (acc := Dict.set acc v (mkdimrec (names d) szs)) (cdims := cdims).
      * apply get_set_eq.
      * intros Hin'. apply Hk, list_elem_of_In, Hin'.
      * exact H.
    + destruct Hin as [Heq | Hin]; [simpl in Heq; contradiction|].
      eapply IH; eassumption.
Qed.

(** X9: a descriptor of the aggregate is the input descriptor of the
    variable with, at most, its first size replaced: the names, the
    number of sizes and every further size are kept, and a descriptor
    whose first name is not the track axis is returned as it is, also
    when the track axis is listed further on and the variable's arrays
    were joined. *)
Theorem concat_granules_descriptors (np : Numpy) (first : dict ndarray)
  (rest : list (dict ndarray)) (dims : dict dimrec)
  (cdat : dict ndarray) (cdims : dict dimrec) (v : string) (cd : dimrec) :
  NoDup (Dict.keys first) ->
  concat_granules np (first :: rest) dims = Ok (cdat, cdims) ->
  Dict.get cdims v = Some cd ->
  exists d,
    Dict.get dims v = Some d /\
    names cd = names d /\
    length (sizes cd) = length (sizes d) /\
    tl (sizes cd) = tl (sizes d) /\
    (hd_error (names d) <> Some atrack -> cd = d).
Proof.
  intros Hnd Hcat Hcd.
  destruct (concat_granules_cdat_keys np first rest dims cdat cdims Hnd Hcat)
    as [Hk Hkd].
  apply concat_granules_inv in Hcat as [Hfold Hrec].
  assert (Hin : In v (Dict.keys cdat)).
  { rewrite Hk, <- Hkd. eapply get_Some_keys, Hcd. }
  assert (Hndc : NoDup (Dict.keys cdat)) by (rewrite Hk; exact Hnd).
  destruct (reconcile_get_sizes dims v cdat Hndc Hin _ _ Hrec)
    as (d & szs & Hd & Hcd' & Hl & Ht & Hs).
  rewrite Hcd in Hcd'. inversion Hcd'; subst cd. clear Hcd'.
  exists d. simpl. repeat split; auto.
  intros Hno. rewrite (Hs Hno). destruct d; reflexivity.
Qed.

Lemma concat_granules_descriptors_witness :
  exists d,
    Dict.get sample_dims "lat" = Some d /\
    names (mkdimrec ["atrack"] [90%nat]) = names d /\
    length (sizes (mkdimrec ["atrack"] [90%nat])) = length (sizes d) /\
    tl (sizes (mkdimrec ["atrack"] [90%nat])) = tl (sizes d) /\
    (hd_error (names d) <> Some atrack -> mkdimrec ["atrack"] [90%nat] = d).
Proof.
  apply (concat_granules_descriptors np_same (record_of 1 7) [record_of 2 8]
           sample_dims (fst sample_aggregate) (snd sample_aggregate) "lat"
           (mkdimrec ["atrack"] [90%nat])).
  - apply (bool_decide_unpack _). vm_compute. exact I.
  - vm_compute. reflexivity.
  - vm_compute. reflexivity.
Defined.

(** X11: the aggregate of a single record is that record. *)
Theorem concat_granules_single (np : Numpy) (dat : dict ndarray)
  (dims : dict dimrec) (cdat : dict ndarray) (cdims : dict dimrec) :
  NoDup (Dict.keys dat) ->
  concat_granules np [dat] dims = Ok (cdat, cdims) ->
  cdat = dat.
Proof.
  intros Hnd Hcat. apply concat_granules_inv in Hcat as [Hfold _].
  simpl in Hfold. inversion Hfold. apply seed_id, Hnd.
Qed.

Lemma concat_granules_single_witness :
  fst (match concat_granules np_same [record_of 1 7] sample_dims with
       | Ok r => r
       | Raise _ => ([], [])
       end) = record_of 1 7.
Proof.
  apply (concat_granules_single np_same (record_of 1 7) sample_dims _
           (snd (match concat_granules np_same [record_of 1 7] sample_dims with
                 | Ok r => r
                 | Raise _ => ([], [])
                 end))).
  - apply (bool_decide_unpack _). vm_compute. exact I.
  - vm_compute. reflexivity.
Defined.

Lemma concatenate_flat (np : Numpy) (c a joined : ndarray) :
  Np.concatenate np c a = Ok joined ->
  arr_dtype c = arr_dtype a ->
  arr_dtype joined = arr_dtype c /\ flat joined = flat c ++ flat a.
Proof.
  unfold Np.concatenate. intros H Hdt.
  destruct (shape c) as [|nc tc]; [discriminate|].
  destruct (shape a) as [|na ta]; [discriminate|].
  destruct (negb _); [discriminate|]. destruct (negb _); [discriminate|].
  rewrite Hdt, dtype_eqb_refl in H. inversion H; subst. simpl. auto.
Qed.

Lemma fold_granule_flat (np : Numpy) (dims : dict dimrec) (v : string)
  (dt : dtype) (dat : dict ndarray) :
  tracked dims v = true ->
  NoDup (Dict.keys dat) ->
  (forall a, Dict.get dat v = Some a -> arr_dtype a = dt) ->
  forall cdat cdat' c,
    fold_granule np dims dat cdat = Ok cdat' ->
    Dict.get cdat v = Some c -> arr_dtype c = dt ->
    exists c', Dict.get cdat' v = Some c' /\ arr_dtype c' = dt /\
               flat c' = flat c ++ flat_of dat v.
Proof.
  intros Hv. unfold fold_granule.
  induction dat as [|[k a] rest IH]; intros Hnd Hdt cdat cdat' c.
  - intros [= <-] Hc Hcd. exists c. unfold flat_of. simpl.
    rewrite List.app_nil_r. auto.
  - apply NoDup_cons in Hnd as [Hk Hrest].
    rewrite rfold_cons. intros H Hc Hcd. apply rbind_Ok in H as (c1 & E1 & H).
    unfold flat_of. simpl. destruct (String.eqb k v) eqn:E.
    + apply String.eqb_eq in E. subst k.
      assert (Hnone : Dict.get rest v = None).
      { apply get_None_keys. intros Hin. apply Hk, list_elem_of_In, Hin. }
      apply fold_var_spec in E1 as [[Hf _] | [_ (c0 & j & Hc0 & Hj & ->)]];
        [congruence|].
      rewrite Hc in Hc0. inversion Hc0; subst c0.
      assert (Ha : arr_dtype a = dt).
      { apply Hdt. simpl. rewrite String.eqb_refl. reflexivity. }
      destruct (concatenate_flat np c a j Hj) as [Hjd Hjf]; [congruence|].
      destruct (IH Hrest (fun a' Ha' => ltac:(congruence)) _ _ j H)
        as (c' & Hc' & Hd' & Hf').
      * apply get_set_eq.
      * congruence.
      * exists c'. split; [exact Hc'|]. split; [exact Hd'|].
        rewrite Hf', Hjf. unfold flat_of. rewrite Hnone.
        rewrite List.app_nil_r. reflexivity.
    + apply String.eqb_neq in E.
      assert (Hc1 : Dict.get c1 v = Some c).
      { apply fold_var_spec in E1 as [[_ ->] | [_ (c0 & j & _ & _ & ->)]];
          [exact Hc|]. rewrite get_set_ne by exact E. exact Hc. }
      destruct (IH Hrest) with (cdat := c1) (cdat' := cdat') (c := c)
        as (c' & Hc' & Hd' & Hf'); auto.
      { intros a' Ha'. apply Hdt. simpl.
        apply String.eqb_neq in E. rewrite E. exact Ha'. }
      exists c'. auto.
Qed.

Lemma fold_records_flat (np : Numpy) (dims : dict dimrec) (v : string)
  (dt : dtype) (recs : list (dict ndarray)) :
  tracked dims v = true ->
  Forall (fun dat => NoDup (Dict.keys dat)) recs ->
  (forall dat a, In dat recs -> Dict.get dat v = Some a -> arr_dtype a = dt) ->
  forall cdat cdat' c,
    rfold recs (fold_granule np dims) cdat = Ok cdat' ->
    Dict.get cdat v = Some c -> arr_dtype c = dt ->
    exists c', Dict.get cdat' v = Some c' /\ arr_dtype c' = dt /\
               flat c' = flat c ++ concat (map (fun dat => flat_of dat v) recs).
Proof.
  intros Hv. induction recs as [|dat rest IH]; intros Hnd Hdt cdat cdat' c.
  - intros [= <-] Hc Hcd. exists c. simpl. rewrite List.app_nil_r. auto.
  - apply Forall_cons in Hnd as [Hdat Hrest].
    rewrite rfold_cons. intros H Hc Hcd. apply rbind_Ok in H as (c1 & E1 & H).
    destruct (fold_granule_flat np dims v dt dat Hv Hdat
                (fun a Ha => Hdt dat a (or_introl eq_refl) Ha) _ _ c E1 Hc Hcd)
      as (c2 & Hc2 & Hd2 & Hf2).
    destruct (IH Hrest (fun d a Hd Ha => Hdt d a (or_intror Hd) Ha) _ _ c2 H Hc2 Hd2)
      as (c' & Hc' & Hd' & Hf').
    exists c'. split; [exact Hc'|]. split; [exact Hd'|].
    rewrite Hf', Hf2. simpl. rewrite <- List.app_assoc. reflexivity.
Qed.

(** X10: for a variable whose descriptor lists the track axis and whose
    arrays all have the element type of the first record's, the array of
    the aggregate holds the elements of the records' arrays one record
    after the other, in the order of [dat_list], with that element
    type. *)
Theorem concat_granules_data_order (np : Numpy) (first : dict ndarray)
  (rest : list (dict ndarray)) (dims : dict dimrec) (cdat : dict ndarray)
  (cdims : dict dimrec) (v : string) (a0 : ndarray) :
  Forall (fun dat => NoDup (Dict.keys dat)) (first :: rest) ->
  concat_granules np (first :: rest) dims = Ok (cdat, cdims) ->
  tracked dims v = true ->
  Dict.get first v = Some a0 ->
  (forall dat a, In dat rest -> Dict.get dat v = Some a ->
                 arr_dtype a = arr_dtype a0) ->
  exists c,
    Dict.get cdat v = Some c /\
    arr_dtype c = arr_dtype a0 /\
    flat c = concat (map (fun dat => flat_of dat v) (first :: rest)).
Proof.
  intros Hnd Hcat Hv Ha0 Hdt.
  apply Forall_cons in Hnd as [Hnd1 Hndr].
  apply concat_granules_inv in Hcat as [Hfold _].
  destruct (fold_records_flat np dims v (arr_dtype a0) rest Hv Hndr Hdt _ _ a0 Hfold)
    as (c & Hc & Hd & Hf).
  - rewrite seed_get by exact Hnd1. exact Ha0.
  - reflexivity.
  - exists c. split; [exact Hc|]. split; [exact Hd|].
    rewrite Hf. simpl. unfold flat_of at 2. rewrite Ha0. reflexivity.
Qed.

Lemma concat_granules_data_order_witness :
  exists c,
    Dict.get (fst sample_aggregate) "lat" = Some c /\
    arr_dtype c = arr_dtype (lat45 1) /\
    flat c = concat (map (fun dat => flat_of dat "lat") [record_of 1 7; record_of 2 8]).
Proof.
  apply (concat_granules_data_order np_same (record_of 1 7) [record_of 2 8]
           sample_dims (fst sample_aggregate) (snd sample_aggregate) "lat" (lat45 1)).
  - apply (bool_decide_unpack _). vm_compute. exact I.
  - vm_compute. reflexivity.
  - reflexivity.
  - reflexivity.
  - intros dat a [<- | []] [= <-]. reflexivity.
Defined.

Lemma fold_var_needs (np : Numpy) (dims : dict dimrec) (k : string) (a : ndarray)
  (cdat cdat' : dict ndarray) :
  fold_var np dims (k, a) cdat = Ok cdat' ->
  exists d, Dict.get dims k = Some d /\
            (str_in atrack (names d) = true -> In k (Dict.keys cdat)).
Proof.
  unfold fold_var, Dict.getitem.
  destruct (Dict.get dims k) as [d|]; simpl; [|discriminate].
  intros H. exists d. split; [reflexivity|]. intros Ht.
  destruct (names d) as [|n0 ns]; [discriminate|]. rewrite Ht in H.
  destruct (Dict.get cdat k) as [c|] eqn:Ec; [|discriminate].
  eapply get_Some_keys, Ec.
Qed.

Lemma fold_granule_needs (np : Numpy) (dims : dict dimrec) (dat : dict ndarray) :
  forall cdat cdat',
    fold_granule np dims dat cdat = Ok cdat' ->
    forall v a, In (v, a) dat ->
      exists d, Dict.get dims v = Some d /\
                (str_in atrack (names d) = true -> In v (Dict.keys cdat)).
Proof.
  unfold fold_granule. induction dat as [|[k a0] rest IH]; intros cdat cdat' H v a Hin.
  - destruct Hin.
  - rewrite rfold_cons in H. apply rbind_Ok in H as (c1 & E1 & H).
    destruct Hin as [[= -> ->] | Hin].
    + eapply fold_var_needs, E1.
    + destruct (IH _ _ H v a Hin) as (d & Hd & Ht). exists d. split; [exact Hd|].
      intros Htr. rewrite <- (fold_var_keys np dims _ _ _ E1). apply Ht, Htr.
Qed.

Lemma fold_records_needs (np : Numpy) (dims : dict dimrec)
  (recs : list (dict ndarray)) :
  forall cdat cdat',
    rfold recs (fold_granule np dims) cdat = Ok cdat' ->
    forall dat v a, In dat recs -> In (v, a) dat ->
      exists d, Dict.get dims v = Some d /\
                (str_in atrack (names d) = true -> In v (Dict.keys cdat)).
Proof.
  induction recs as [|dat0 rest IH]; intros cdat cdat' H dat v a Hdat Hin.
  - destruct Hdat.
  - rewrite rfold_cons in H. apply rbind_Ok in H as (c1 & E1 & H).
    destruct Hdat as [<- | Hdat].
    + eapply fold_granule_needs; eassumption.
    + destruct (IH _ _ H dat v a Hdat Hin) as (d & Hd & Ht).
      exists d. split; [exact Hd|]. intros Htr.
      rewrite <- (fold_granule_keys np dims _ _ _ E1). apply Ht, Htr.
Qed.

(** X12: what a call that returns has found in its arguments: a
    descriptor for every variable of every record, and every variable of
    a later record whose descriptor lists the track axis among the
    variables of the first record.  (Without them the call raises
    [KeyError].) *)
Theorem concat_granules_needs (np : Numpy) (first : dict ndarray)
  (rest : list (dict ndarray)) (dims : dict dimrec)
  (cdat : dict ndarray) (cdims : dict dimrec) :
  NoDup (Dict.keys first) ->
  concat_granules np (first :: rest) dims = Ok (cdat, cdims) ->
  (forall v, In v (Dict.keys first) -> Dict.mem dims v = true) /\
  (forall dat v a, In dat rest -> In (v, a) dat ->
     exists d, Dict.get dims v = Some d /\
               (str_in atrack (names d) = true -> In v (Dict.keys first))).
Proof.
  intros Hnd Hcat.
  destruct (concat_granules_cdat_keys np first rest dims cdat cdims Hnd Hcat)
    as [Hk _].
  apply concat_granules_inv in Hcat as [Hfold Hrec]. split.
  - intros v Hv.
    assert (Hndc : NoDup (Dict.keys cdat)) by (rewrite Hk; exact Hnd).
    rewrite <- Hk in Hv.
    destruct (reconcile_get_sizes dims v cdat Hndc Hv _ _ Hrec) as (d & _ & Hd & _).
    unfold Dict.mem. rewrite Hd. reflexivity.
  - intros dat v a Hdat Hin.
    destruct (fold_records_needs np dims rest _ _ Hfold dat v a Hdat Hin)
      as (d & Hd & Ht).
    exists d. split; [exact Hd|]. intros Htr.
    rewrite <- (seed_id first Hnd). apply Ht, Htr.
Qed.

Lemma concat_granules_needs_witness :
  (forall v, In v (Dict.keys (record_of 1 7)) -> Dict.mem sample_dims v = true) /\
  (forall dat v a, In dat [record_of 2 8] -> In (v, a) dat ->
     exists d, Dict.get sample_dims v = Some d /\
               (str_in atrack (names d) = true -> In v (Dict.keys (record_of 1 7)))).
Proof.
  apply (concat_granules_needs np_same (record_of 1 7) [record_of 2 8] sample_dims
           (fst sample_aggregate) (snd sample_aggregate)).
  - apply (bool_decide_unpack _). vm_compute. exact I.
  - vm_compute. reflexivity.
Defined.

(** ** Granule loader, continued *)

Lemma load_from_netCDF4_fold (nc : NcFile) (var_list : list string) :
  _load_from_netCDF4 nc var_list = rfold var_list (load_var nc) ([], [], []).
Proof. reflexivity. Qed.

Lemma load_dims_spec (nc : NcFile) (v : string) (dimensions : list string) :
  forall acc d,
    load_dims nc v dimensions acc = Ok d ->
    exists szs,
      names d = names acc ++ dimensions /\ sizes d = sizes acc ++ szs /\
      Forall2 (fun dim n => dim_size nc v dim = Ok n) dimensions szs.
Proof.
  induction dimensions as [|dim rest IH]; intros acc d; simpl.
  - intros [= <-]. exists []. rewrite !List.app_nil_r. auto.
  - intros H. apply rbind_Ok in H as (n & Hn & H).
    apply IH in H as (szs & Hnames & Hsizes & Hall). simpl in Hnames, Hsizes.
    exists (n :: szs). rewrite Hnames, Hsizes, <- !List.app_assoc. simpl. auto.
Qed.

Lemma load_var_spec (nc : NcFile) (v : string) (dat : dict ndarray)
  (dims : dict dimrec) (attrs : dict (dict value)) (r : loaded) :
  load_var nc v (dat, dims, attrs) = Ok r ->
  exists x d,
    nc_variable nc v = Ok x /\
    names d = nv_dimensions x /\
    Forall2 (fun dim n => dim_size nc v dim = Ok n) (names d) (sizes d) /\
    r = (Dict.set dat v (nv_data x), Dict.set dims v d,
         Dict.set attrs v (nv_attrs x)).
Proof.
  unfold load_var. intros H. apply rbind_Ok in H as (x & Hx & H).
  apply rbind_Ok in H as (d & Hd & [= <-]).
  apply load_dims_spec in Hd as (szs & Hn & Hs & Hall). simpl in Hn, Hs.
  exists x, d. rewrite Hn, Hs. auto.
Qed.

Lemma keys_set_In {V : Type} (d : dict V) (k k' : string) (x : V) :
  In k' (Dict.keys (Dict.set d k x)) <-> k' = k \/ In k' (Dict.keys d).
Proof.
  destruct (in_dec string_dec k (Dict.keys d)) as [Hin | Hnot].
  - rewrite keys_set_mem by exact Hin. split; [auto|]. intros [-> | H]; auto.
  - rewrite keys_set_new by exact Hnot. rewrite in_app_iff. simpl.
    split; [intros [H | [<- | []]]; auto | intros [-> | H]; auto].
Qed.

Lemma keys_set_alike {V W : Type} (d : dict V) (d' : dict W) (k : string)
  (x : V) (y : W) :
  Dict.keys d = Dict.keys d' ->
  Dict.keys (Dict.set d k x) = Dict.keys (Dict.set d' k y).
Proof.
  intros Hk. destruct (in_dec string_dec k (Dict.keys d)) as [Hin | Hnot].
  - rewrite !keys_set_mem; [exact Hk | rewrite <- Hk; exact Hin | exact Hin].
  - rewrite !keys_set_new; [rewrite Hk; reflexivity | rewrite <- Hk; exact Hnot
                           | exact Hnot].
Qed.

(** The loop keeps the three maps keyed alike, without a key twice. *)
Lemma load_loop_keys (nc : NcFile) (var_list : list string) :
  forall dat dims attrs dat' dims' attrs',
    rfold var_list (load_var nc) (dat, dims, attrs) = Ok (dat', dims', attrs') ->
    Dict.keys dat = Dict.keys dims -> Dict.keys dims = Dict.keys attrs ->
    NoDup (Dict.keys dat) ->
    Dict.keys dat' = Dict.keys dims' /\ Dict.keys dims' = Dict.keys attrs' /\
    NoDup (Dict.keys dat') /\
    forall v, In v (Dict.keys dat') <-> In v (Dict.keys dat) \/ In v var_list.
Proof.
  induction var_list as [|v rest IH]; intros dat dims attrs dat' dims' attrs'.
  - intros [= <- <- <-] H1 H2 Hnd. repeat split; auto. intros [H | []]. exact H.
  - rewrite rfold_cons. intros H H1 H2 Hnd.
    apply rbind_Ok in H as (r1 & E1 & H).
    apply load_var_spec in E1 as (x & d & _ & _ & _ & ->).
    apply IH in H as (K1 & K2 & K3 & K4).
    + split; [exact K1|]. split; [exact K2|]. split; [exact K3|].
      intros u. rewrite K4, keys_set_In. simpl.
      split; [intros [[-> | Hu] | Hu]; auto | intros [Hu | [<- | Hu]]; auto].
    + apply keys_set_alike, H1.
    + apply keys_set_alike, H2.
    + apply NoDup_keys_set, Hnd.
Qed.

Lemma getitem_head {A : Type} (l : list A) (x : A) :
  Py.getitem l 0 = Ok x -> exists rest, l = x :: rest.
Proof.
  destruct l as [|y rest]; [discriminate|].
  unfold Py.getitem. cbv zeta. change (0 <? 0) with false. cbn [orb].
  destruct (Z.of_nat (length (y :: rest)) <=? 0) eqn:E; [discriminate|].
  simpl. intros [= ->]. eauto.
Qed.

(** A size the loader resolves is the root's, or the group's when the
    root has none. *)
Lemma dim_size_declared (nc : NcFile) (v dim : string) (n : nat) :
  dim_size nc v dim = Ok n -> declared_size nc v dim n.
Proof.
  unfold dim_size, declared_size.
  destruct (Dict.get (nc_dimensions nc) dim) as [m|] eqn:Er.
  - intros [= ->]. left. reflexivity.
  - intros H. right. split; [reflexivity|].
    apply rbind_Ok in H as (grp & Hg & H).
    apply rbind_Ok in H as (node & Hn & H).
    apply getitem_head in Hg as [rest Hg].
    unfold nc_getitem in Hn.
    destruct (Dict.get (nc_nodes nc) grp) as [node'|] eqn:En; [|discriminate].
    inversion Hn; subst node'. destruct node as [x|gd]; [discriminate|].
    unfold Dict.getitem in H.
    destruct (Dict.get gd dim) as [m|] eqn:Eg; [|discriminate].
    inversion H; subst m. exists grp, rest, gd. auto.
Qed.

Lemma nc_variable_node (nc : NcFile) (v : string) (x : NcVariable) :
  nc_variable nc v = Ok x -> Dict.get (nc_nodes nc) v = Some (NVar x).
Proof.
  unfold nc_variable, nc_getitem.
  destruct (Dict.get (nc_nodes nc) v) as [[y|gd]|]; simpl; congruence.
Qed.

(** What the loop has stored for a variable stays, and a variable of
    the list is stored. *)
Lemma load_loop_loads (nc : NcFile) (var_list : list string) :
  forall acc r,
    rfold var_list (load_var nc) acc = Ok r ->
    forall v, loads nc acc v \/ In v var_list -> loads nc r v.
Proof.
  induction var_list as [|u rest IH]; intros acc r.
  - intros [= <-] v [H | []]. exact H.
  - rewrite rfold_cons. intros H v Hv.
    apply rbind_Ok in H as (r1 & E1 & H). apply (IH _ _ H).
    destruct acc as [[dat dims] attrs].
    apply load_var_spec in E1 as (x & d & Hx & Hn & Hall & ->).
    destruct (string_dec u v) as [-> | Hne].
    + left. exists x, d. rewrite !get_set_eq.
      split; [apply nc_variable_node, Hx|]. repeat (split; [reflexivity|]).
      split; [exact Hn|].
      eapply Forall2_impl; [exact Hall|]. intros dim n. apply dim_size_declared.
    + destruct Hv as [Hv | [Heq | Hv]]; [|contradiction | right; exact Hv].
      left. destruct Hv as (x' & d' & Hv). exists x', d'.
      rewrite !get_set_ne by exact Hne. exact Hv.
Qed.

(** X5: the three maps the loader returns are keyed alike: they have the
    same keys in the same order, no key twice, and the keys are the
    names of [var_list]. *)
Theorem load_from_netCDF4_keys (nc : NcFile) (var_list : list string)
  (dat : dict ndarray) (dims : dict dimrec) (attrs : dict (dict value)) :
  _load_from_netCDF4 nc var_list = Ok (dat, dims, attrs) ->
  Dict.keys dat = Dict.keys dims /\ Dict.keys dims = Dict.keys attrs /\
  NoDup (Dict.keys dat) /\
  forall v, In v (Dict.keys dat) <-> In v var_list.
Proof.
  rewrite load_from_netCDF4_fold. intros H.
  apply load_loop_keys in H as (K1 & K2 & K3 & K4);
    [|reflexivity | reflexivity | constructor].
  split; [exact K1|]. split; [exact K2|]. split; [exact K3|].
  intros v. rewrite K4. simpl. tauto.
Qed.

Lemma load_from_netCDF4_keys_witness :
  let r := match _load_from_netCDF4 sample_nc ["lat"; "land_frac"; "lat"] with
           | Ok r => r
           | Raise _ => ([], [], [])
           end in
  Dict.keys (fst (fst r)) = Dict.keys (snd (fst r)) /\
  Dict.keys (snd (fst r)) = Dict.keys (snd r) /\
  NoDup (Dict.keys (fst (fst r))) /\
  forall v, In v (Dict.keys (fst (fst r))) <-> In v ["lat"; "land_frac"; "lat"].
Proof.
  apply (load_from_netCDF4_keys sample_nc ["lat"; "land_frac"; "lat"]).
  vm_compute. reflexivity.
Defined.

(** X6: for every name of [var_list], the loader returns the variable's
    array, its attributes, and a descriptor with the variable's
    dimension names in order and one size per name: the size of the
    root dimension of that name, and the size the variable's top-level
    group gives only when the root has no dimension of that name. *)
Theorem load_from_netCDF4_entries (nc : NcFile) (var_list : list string)
  (r : loaded) (v : string) :
  _load_from_netCDF4 nc var_list = Ok r ->
  In v var_list ->
  loads nc r v.
Proof.
  rewrite load_from_netCDF4_fold. intros H Hv.
  apply (load_loop_loads nc var_list _ _ H). right. exact Hv.
Qed.

(** The root's size of [atrack] wins over the group's; [fov] is found in
    the group. *)
Lemma load_from_netCDF4_entries_witness :
  let r := match _load_from_netCDF4 grouped_nc ["aux/chi2_temp"] with
           | Ok r => r
           | Raise _ => ([], [], [])
           end in
  loads grouped_nc r "aux/chi2_temp" /\
  Dict.get (snd (fst r)) "aux/chi2_temp"
  = Some (mkdimrec ["atrack"; "fov"] [3%nat; 2%nat]).
Proof.
  split.
  - apply (load_from_netCDF4_entries grouped_nc ["aux/chi2_temp"]).
    + vm_compute. reflexivity.
    + left. reflexivity.
  - vm_compute. reflexivity.
Defined.

(** ** Writer, continued *)

Lemma merged_dim_list_declared (dims : dict dimrec) :
  merged_dim_list dims
  = fold_left (fun merged '(dim, dim_size) => Dict.set merged dim dim_size)
      (declared dims) [].
Proof.
  unfold merged_dim_list, declared. generalize (@nil (string * nat)) as acc.
  induction dims as [|[v d] rest IH]; intros acc; simpl.
  - reflexivity.
  - rewrite fold_left_app. apply IH.
Qed.

Lemma get_rev_cons {V : Type} (l : dict V) (k k' : string) (x : V) :
  Dict.get (l ++ [(k, x)]) k'
  = match Dict.get l k' with
    | Some y => Some y
    | None => if String.eqb k k' then Some x else None
    end.
Proof.
  induction l as [|[k0 x0] l IH]; simpl.
  - reflexivity.
  - destruct (String.eqb k0 k'); [reflexivity | exact IH].
Qed.

Lemma fold_set_get (pairs : dict nat) :
  forall acc k,
    Dict.get (fold_left (fun merged '(dim, dim_size) => Dict.set merged dim dim_size)
                pairs acc) k
    = match Dict.get (rev pairs) k with
      | Some n => Some n
      | None => Dict.get acc k
      end.
Proof.
  induction pairs as [|[dim n] rest IH]; intros acc k; simpl.
  - reflexivity.
  - rewrite IH, get_rev_cons. destruct (Dict.get (rev rest) k); [reflexivity|].
    destruct (String.eqb dim k) eqn:E.
    + apply String.eqb_eq in E. subst. apply get_set_eq.
    + apply String.eqb_neq in E. apply get_set_ne, E.
Qed.

Lemma fold_set_NoDup (pairs : dict nat) :
  forall acc,
    NoDup (Dict.keys acc) ->
    NoDup (Dict.keys (fold_left (fun merged '(dim, dim_size) =>
                                   Dict.set merged dim dim_size) pairs acc)).
Proof.
  induction pairs as [|[dim n] rest IH]; intros acc Hnd; simpl.
  - exact Hnd.
  - apply IH, NoDup_keys_set, Hnd.
Qed.

Lemma created_dimensions_app (l1 l2 : list event) :
  created_dimensions (l1 ++ l2) = created_dimensions l1 ++ created_dimensions l2.
Proof. unfold created_dimensions. apply flat_map_app. Qed.

Lemma created_dimensions_dim_events (merged : dict nat) :
  created_dimensions (dim_events merged) = merged.
Proof.
  induction merged as [|[dim n] rest IH]; simpl; [reflexivity|].
  f_equal. exact IH.
Qed.

Lemma created_dimensions_vars (dims : dict dimrec) (attrs : dict (dict value))
  (cdat : dict ndarray) :
  created_dimensions (snd (vars_events dims attrs cdat)) = [].
Proof.
  induction cdat as [|[v a] rest IH]; simpl; [reflexivity|].
  destruct (var_events dims attrs (v, a)) as [evs|e] eqn:Ev; simpl; [|reflexivity].
  destruct (vars_events dims attrs rest) as [r evs'] eqn:Er. simpl in *.
  rewrite created_dimensions_app, IH, List.app_nil_r.
  apply var_events_inv in Ev as (av & dt & d & _ & _ & _ & ->). simpl.
  unfold attr_events. induction av as [|[an x] av IHav]; simpl; [reflexivity|].
  destruct (String.eqb an FillValue); simpl; exact IHav.
Qed.

(** X15: [write_cdat] creates every dimension name once, whatever the
    number of variables that use it, and with the size the last
    descriptor that names it gives (the descriptors taken in the order
    of [dims], the names of one descriptor from left to right). *)
Theorem write_cdat_dimensions (cdat : dict ndarray) (dims : dict dimrec)
  (attrs : dict (dict value)) (fname : string) (w : World) :
  exists evs,
    log (snd (write_cdat cdat dims attrs fname w)) = log w ++ evs /\
    NoDup (Dict.keys (created_dimensions evs)) /\
    forall dim,
      Dict.get (created_dimensions evs) dim = Dict.get (rev (declared dims)) dim.
Proof.
  destruct (write_cdat_events cdat dims attrs fname w) as [_ Hlog].
  eexists. split; [exact Hlog|].
  assert (Hc : created_dimensions
                 (EvDatasetWrite fname :: dim_events (merged_dim_list dims)
                  ++ snd (vars_events dims attrs cdat) ++ [EvDatasetClose])
               = merged_dim_list dims).
  { change (EvDatasetWrite fname :: ?l) with ([EvDatasetWrite fname] ++ l).
    rewrite !created_dimensions_app, created_dimensions_dim_events,
      created_dimensions_vars. simpl. apply List.app_nil_r. }
  rewrite Hc, merged_dim_list_declared. split.
  - apply fold_set_NoDup. constructor.
  - intros dim. rewrite fold_set_get.
    destruct (Dict.get (rev (declared dims)) dim); reflexivity.
Qed.

Lemma files_add_log (w : World) (evs : list event) : files (add_log w evs) = files w.
Proof. reflexivity. Qed.

Lemma write_cdat_files (cdat : dict ndarray) (dims : dict dimrec)
  (attrs : dict (dict value)) (fname : string) (w : World) :
  files (snd (write_cdat cdat dims attrs fname w))
  = if os_access w fname then files w else files w ++ [fname].
Proof.
  unfold write_cdat, open_write, bind. rewrite emit_add_log. simpl.
  rewrite dim_loop_events, write_loop_events. simpl.
  reflexivity.
Qed.

Lemma str_in_app (x : string) (l1 l2 : list string) :
  str_in x (l1 ++ l2) = str_in x l1 || str_in x l2.
Proof. unfold str_in. apply existsb_app. Qed.

(** X18: whatever [write_cdat] returns or raises, the output path exists
    afterwards, no other path has appeared or gone, and the container
    was closed by the last call made. *)
Theorem write_cdat_leaves_file (cdat : dict ndarray) (dims : dict dimrec)
  (attrs : dict (dict value)) (fname : string) (w : World) :
  let w' := snd (write_cdat cdat dims attrs fname w) in
  os_access w' fname = true /\
  (forall p, p <> fname -> os_access w' p = os_access w p) /\
  exists evs, log w' = log w ++ EvDatasetWrite fname :: evs ++ [EvDatasetClose].
Proof.
  cbv zeta. unfold os_access at 1 2. rewrite write_cdat_files.
  destruct (write_cdat_events cdat dims attrs fname w) as [_ Hlog].
  split; [|split].
  - destruct (os_access w fname) eqn:E; [exact E|].
    rewrite str_in_app. apply orb_true_iff. right. simpl.
    rewrite String.eqb_refl. reflexivity.
  - intros p Hp. destruct (os_access w fname); [reflexivity|].
    rewrite str_in_app. simpl. apply String.eqb_neq in Hp. rewrite Hp.
    unfold os_access. rewrite !orb_false_r. reflexivity.
  - eexists. rewrite Hlog. rewrite List.app_assoc. reflexivity.
Qed.

Lemma vars_events_total (dims : dict dimrec) (attrs : dict (dict value))
  (cdat : dict ndarray) :
  covered cdat dims attrs ->
  objects_inhabited cdat ->
  (forall v a, In (v, a) cdat -> offending a = false) ->
  fst (vars_events dims attrs cdat) = Ok tt.
Proof.
  induction cdat as [|[k a0] rest IH]; intros Hcov Hinh Hoff; [reflexivity|].
  assert (Hcov' : covered rest dims attrs).
  { intros u Hu. apply Hcov. right. exact Hu. }
  assert (Hinh' : objects_inhabited rest).
  { intros u b Hu. apply (Hinh u b). right. exact Hu. }
  destruct (Hcov k (or_introl eq_refl)) as [Hd Ha].
  unfold Dict.mem in Hd, Ha.
  destruct (Dict.get dims k) as [d|] eqn:Ed; [|discriminate].
  destruct (Dict.get attrs k) as [av|] eqn:Ea; [|discriminate].
  simpl. unfold var_events, Dict.getitem. rewrite Ea, Ed. simpl.
  destruct (output_dtype_total a0 (Hinh k a0 (or_introl eq_refl))
              (Hoff k a0 (or_introl eq_refl))) as [dt Hdt].
  rewrite Hdt. simpl.
  specialize (IH Hcov' Hinh' (fun v a Hin => Hoff v a (or_intror Hin))).
  destruct (vars_events dims attrs rest) as [r evs']. simpl in *. exact IH.
Qed.

(** X17: [write_cdat] returns normally when the three mappings are keyed
    alike, no object array is empty, and every object array starts with
    a [str]. *)
Theorem write_cdat_returns (cdat : dict ndarray) (dims : dict dimrec)
  (attrs : dict (dict value)) (fname : string) (w : World) :
  covered cdat dims attrs ->
  objects_inhabited cdat ->
  (forall v a, In (v, a) cdat -> offending a = false) ->
  fst (write_cdat cdat dims attrs fname w) = Ok tt.
Proof.
  intros Hcov Hinh Hoff.
  destruct (write_cdat_events cdat dims attrs fname w) as [Hr _].
  rewrite Hr. apply vars_events_total; assumption.
Qed.

Lemma write_cdat_returns_witness :
  fst (write_cdat temp_cdat temp_dims temp_attrs "out.nc" empty_world) = Ok tt.
Proof.
  apply (write_cdat_returns temp_cdat temp_dims temp_attrs "out.nc" empty_world).
  - intros v [<- | [<- | []]]; split; reflexivity.
  - intros v a [[= <- <-] | [[= <- <-] | []]]; discriminate.
  - intros v a [[= <- <-] | [[= <- <-] | []]]; reflexivity.
Defined.

Lemma assigned_app (l1 l2 : list event) :
  assigned (l1 ++ l2) = assigned l1 ++ assigned l2.
Proof. unfold assigned. apply flat_map_app. Qed.

Lemma created_variables_app (l1 l2 : list event) :
  created_variables (l1 ++ l2) = created_variables l1 ++ created_variables l2.
Proof. unfold created_variables. apply flat_map_app. Qed.

Lemma attr_events_quiet (v : string) (av : dict value) :
  assigned (attr_events v av) = [] /\ created_variables (attr_events v av) = [].
Proof.
  unfold attr_events. induction av as [|[an x] av IH]; simpl; [auto|].
  destruct (String.eqb an FillValue); simpl; exact IH.
Qed.

Lemma dim_events_quiet (merged : dict nat) :
  assigned (dim_events merged) = [] /\ created_variables (dim_events merged) = [].
Proof.
  induction merged as [|[dim n] rest IH]; simpl; [auto | exact IH].
Qed.

Lemma vars_events_assigned (dims : dict dimrec) (attrs : dict (dict value))
  (cdat : dict ndarray) :
  fst (vars_events dims attrs cdat) = Ok tt ->
  assigned (snd (vars_events dims attrs cdat)) = cdat /\
  created_variables (snd (vars_events dims attrs cdat)) = Dict.keys cdat.
Proof.
  induction cdat as [|[v a] rest IH]; simpl; [auto|].
  destruct (var_events dims attrs (v, a)) as [evs|e] eqn:Ev; simpl; [|discriminate].
  destruct (vars_events dims attrs rest) as [r evs'] eqn:Er. simpl in *.
  intros Hok. destruct (IH Hok) as [Ha Hc].
  rewrite assigned_app, created_variables_app, Ha, Hc.
  apply var_events_inv in Ev as (av & dt & d & _ & _ & _ & ->). simpl.
  destruct (attr_events_quiet v av) as [-> ->]. auto.
Qed.

(** X16: when [write_cdat] returns, it has created the variables of
    [cdat] once each and in the order of [cdat], and has assigned to
    each, once, the array [cdat] holds for it. *)
Theorem write_cdat_writes_each_once (cdat : dict ndarray) (dims : dict dimrec)
  (attrs : dict (dict value)) (fname : string) (w : World) :
  fst (write_cdat cdat dims attrs fname w) = Ok tt ->
  exists evs,
    log (snd (write_cdat cdat dims attrs fname w)) = log w ++ evs /\
    created_variables evs = Dict.keys cdat /\
    assigned evs = cdat.
Proof.
  destruct (write_cdat_events cdat dims attrs fname w) as [Hr Hlog].
  rewrite Hr. intros Hok. eexists. split; [exact Hlog|].
  destruct (vars_events_assigned dims attrs cdat Hok) as [Ha Hc].
  destruct (dim_events_quiet (merged_dim_list dims)) as [Hda Hdc].
  change (EvDatasetWrite fname :: ?l) with ([EvDatasetWrite fname] ++ l).
  rewrite !created_variables_app, !assigned_app, Ha, Hc, Hda, Hdc. simpl.
  rewrite !List.app_nil_r. auto.
Qed.

Lemma write_cdat_writes_each_once_witness :
  exists evs,
    log (snd (write_cdat temp_cdat temp_dims temp_attrs "out.nc" empty_world))
    = log empty_world ++ evs /\
    created_variables evs = Dict.keys temp_cdat /\
    assigned evs = temp_cdat.
Proof.
  apply (write_cdat_writes_each_once temp_cdat temp_dims temp_attrs "out.nc"
           empty_world).
  vm_compute. reflexivity.
Defined.

(** *** The format error *)















(** ** Aggregator: sample runs *)

Lemma concat_granules_total_witness :
  exists cdat cdims,
    concat_granules np_same [record_of 1 7; record_of 2 8] sample_dims
    = Ok (cdat, cdims).
Proof.
  apply (concat_granules_total np_same (record_of 1 7) [record_of 2 8] sample_dims).
  - apply (bool_decide_unpack _). vm_compute. exact I.
  - split.
    + intros v a [[= <- <-] | [[= <- <-] | []]]; eexists; (split; [reflexivity|]).
      * intros _. split; discriminate.
      * intros [others H]. discriminate H.
    + intros dat v a [<- | []] [[= <- <-] | [[= <- <-] | []]];
        eexists; (split; [reflexivity|]).
      * intros _. eexists. split; [reflexivity|].
        repeat split; try reflexivity; discriminate.
      * intros H. discriminate H.
Defined.

Lemma store_concat_granules_refines_witness :
  Store.same_result (Store.concat_granules np_same 4 11 shared_store)
    (concat_granules np_same [shared_record; shared_record] shared_dims).
Proof.
  apply (store_concat_granules_refines np_same shared_store 4%nat 11%nat
           [shared_record; shared_record] shared_dims).
  - exists [2%nat; 3%nat]. split; [reflexivity|].
    repeat constructor;
      (eexists; split; [reflexivity|]; repeat constructor).
  - eexists. split; [reflexivity|].
    repeat constructor; simpl;
      (eexists; eexists; repeat split; reflexivity).
Defined.

(** ** Loader, aggregator and writer together *)

Lemma keys_mem {V : Type} (d : dict V) (k : string) :
  In k (Dict.keys d) -> Dict.mem d k = true.
Proof.
  intros Hin. unfold Dict.mem.
  destruct (get_is_Some_keys d k Hin) as [x ->]. reflexivity.
Qed.

Lemma vars_events_covered (dims : dict dimrec) (attrs : dict (dict value))
  (cdat : dict ndarray) :
  covered cdat dims attrs ->
  raises_only format_error (fst (vars_events dims attrs cdat)).
Proof.
  induction cdat as [|[k a0] rest IH]; intros Hcov; [exact I|].
  assert (Hcov' : covered rest dims attrs).
  { intros u Hu. apply Hcov. right. exact Hu. }
  destruct (Hcov k (or_introl eq_refl)) as [Hd Ha].
  unfold Dict.mem in Hd, Ha.
  destruct (Dict.get dims k) as [d|] eqn:Ed; [|discriminate].
  destruct (Dict.get attrs k) as [av|] eqn:Ea; [|discriminate].
  simpl. unfold var_events, Dict.getitem. rewrite Ea, Ed. simpl.
  destruct (output_dtype a0) as [dt|e] eqn:Eo; simpl.
  - specialize (IH Hcov').
    destruct (vars_events dims attrs rest) as [r evs']. exact IH.
  - unfold output_dtype, Np.flat0 in Eo.
    destruct (dtype_eqb _ _); [|discriminate].
    destruct (flat a0); simpl in Eo; [inversion Eo; exact I|].
    destruct (is_str _); inversion Eo. exact I.
Qed.

(** X19: in the pipeline of [run_subagg] the first record comes from the
    first granule, the descriptors and attributes from the last, all
    loaded for the same [var_list].  The aggregate and its descriptors
    are then keyed as the attributes are, and [write_cdat] finds the
    descriptor and the attributes of every variable: what it can still
    raise is the error of an array it cannot type. *)
Theorem loaded_aggregate_covered (np : Numpy) (nc_first nc_last : NcFile)
  (var_list : list string) (dat1 dat2 : dict ndarray) (dims1 dims2 : dict dimrec)
  (attrs1 attrs2 : dict (dict value)) (rest : list (dict ndarray))
  (cdat : dict ndarray) (cdims : dict dimrec) (fname : string) (w : World) :
  _load_from_netCDF4 nc_first var_list = Ok (dat1, dims1, attrs1) ->
  _load_from_netCDF4 nc_last var_list = Ok (dat2, dims2, attrs2) ->
  concat_granules np (dat1 :: rest) dims2 = Ok (cdat, cdims) ->
  covered cdat cdims attrs2 /\
  raises_only format_error (fst (write_cdat cdat cdims attrs2 fname w)).
Proof.
  intros H1 H2 Hcat.
  rewrite load_from_netCDF4_fold in H1, H2.
  apply load_loop_keys in H1 as (_ & _ & Hnd1 & Hin1);
    [|reflexivity | reflexivity | constructor].
  apply load_loop_keys in H2 as (K1 & K2 & _ & Hin2);
    [|reflexivity | reflexivity | constructor].
  destruct (concat_granules_cdat_keys np dat1 rest dims2 cdat cdims Hnd1 Hcat)
    as [Hk Hkd].
  assert (Hcov : covered cdat cdims attrs2).
  { intros v Hv. split; apply keys_mem.
    - rewrite Hkd, <- Hk. exact Hv.
    - rewrite <- K2, <- K1. apply Hin2. right.
      rewrite Hk in Hv. apply Hin1 in Hv as [[] | Hv]. exact Hv. }
  split; [exact Hcov|].
  destruct (write_cdat_events cdat cdims attrs2 fname w) as [Hr _].
  rewrite Hr. apply vars_events_covered, Hcov.
Qed.

Lemma loaded_aggregate_covered_witness :
  covered (fst sample_loaded_aggregate) (snd sample_loaded_aggregate)
    (snd sample_loaded) /\
  raises_only format_error
    (fst (write_cdat (fst sample_loaded_aggregate) (snd sample_loaded_aggregate)
            (snd sample_loaded) "out.nc" empty_world)).
Proof.
  apply (loaded_aggregate_covered np_same sample_nc sample_nc ["lat"; "land_frac"]
           (fst (fst sample_loaded)) (fst (fst sample_loaded))
           (snd (fst sample_loaded)) (snd (fst sample_loaded))
           (snd sample_loaded) (snd sample_loaded) [fst (fst sample_loaded)]
           (fst sample_loaded_aggregate) (snd sample_loaded_aggregate)
           "out.nc" empty_world);
    vm_compute; reflexivity.
Defined.

(** ** Transfer retry wrapper, continued *)

(** Once an attempt has delivered every file the loop is over. *)
Lemma download_loop_full (env : Env) (fuel : nat) (gl : list Granule)
  (tmp_dir : string) (st : dl_state) (w : World) :
  (length gl <= num_downloaded_files st)%nat ->
  download_loop env fuel gl tmp_dir (length gl) st w = (Done (Ok st), w).
Proof.
  intros Hfull.
  assert (Hc : ((num_tries st <? max_num_tries)%nat
                && (num_downloaded_files st <? length gl)%nat) = false).
  { apply andb_false_iff. right. apply Nat.ltb_ge. exact Hfull. }
  destruct fuel; simpl; rewrite Hc; reflexivity.
Qed.



Lemma mkdir_run (d : string) (w : World) :
  mkdir_exist_ok d w
  = (Ok tt,
     mkworld (files w) (if str_in d (dirs w) then dirs w else dirs w ++ [d])
       (downloads w) (log w ++ [EvMkdir d])).
Proof. reflexivity. Qed.

(** [os.mkdir] on a directory that exists: the call and nothing else. *)
Lemma mkdir_existing (d : string) (w : World) :
  In d (dirs w) -> mkdir_exist_ok d w = (Ok tt, add_log w [EvMkdir d]).
Proof.
  intros H. apply str_in_In in H. rewrite mkdir_run, H. reflexivity.
Qed.




(** X21: asked for no granule in a [tmp_dir] that exists already,
    [_earthaccess_download] calls [os.mkdir], passes over its
    [FileExistsError], calls the batch download not once, and raises
    [UnboundLocalError] for [files], which only the loop body assigns;
    no file and no directory has appeared. *)
Theorem earthaccess_download_no_granules (env : Env) (fuel : nat)
  (tmp_dir : string) (w : World) :
  In tmp_dir (dirs w) ->
  _earthaccess_download env fuel [] tmp_dir w
  = (Done (Raise (UnboundLocalError "files")), add_log w [EvMkdir tmp_dir]).
Proof.
  intros Hdir. unfold _earthaccess_download.
  rewrite (mkdir_existing tmp_dir w Hdir).
  rewrite download_loop_full by (simpl; lia). reflexivity.
Qed.

Lemma earthaccess_download_no_granules_witness :
  _earthaccess_download (flaky_env 0) 3 [] "tmp" tmp_made
  = (Done (Raise (UnboundLocalError "files")),
     mkworld [] ["tmp"] 0 [EvMkdir "tmp"]).
Proof.
  apply (earthaccess_download_no_granules (flaky_env 0) 3 "tmp" tmp_made).
  left. reflexivity.
Defined.

(** ** Orchestrator, continued *)

(** X22: for a platform that is not in the table, [run_subagg] raises
    [KeyError] with the platform's name and has done nothing else: no
    query, no transfer, no file touched. *)
Theorem run_subagg_unknown_platform (env : Env) (fuel : nat) (year doy : Z)
  (platform : string) (var_list : list string) (output_file : string)
  (local_download : bool) (tmp_dir : string) (w : World) :
  ~ In platform (Dict.keys climcaps_short_names) ->
  run_subagg env fuel year doy platform var_list output_file local_download
    tmp_dir w
  = (Done (Raise (KeyError platform)), w).
Proof.
  intros Hnot. apply get_None_keys in Hnot.
  unfold run_subagg, get_climcaps_short_name, Dict.getitem, bind, lift.
  rewrite Hnot. reflexivity.
Qed.

Lemma run_subagg_unknown_platform_witness :
  run_subagg streaming_env 0 2019 282 "noaa20" ["lat"] "out.nc" false
    tmp_dir_default empty_world
  = (Done (Raise (KeyError "noaa20")), empty_world).
Proof.
  apply (run_subagg_unknown_platform streaming_env 0 2019 282 "noaa20" ["lat"]
           "out.nc" false tmp_dir_default empty_world).
  simpl. intros [H | [H | [H | []]]]; discriminate H.
Defined.

Lemma get_granule_list_state (env : Env) (year doy : Z) (short_name : string)
  (w : World) (gl : list Granule) :
  fst (get_granule_list env year doy short_name w) = Ok gl ->
  exists start stop,
    snd (get_granule_list env year doy short_name w)
    = add_log w [EvSearch short_name start stop].
Proof.
  destruct (day_window year doy) as [[ws we]|e] eqn:Hwin.
  - rewrite (get_granule_list_unfold env year doy short_name w ws we Hwin).
    intros _. eexists. eexists. reflexivity.
  - unfold get_granule_list, bind, lift. rewrite Hwin. discriminate.
Qed.

(** X23: when the resolver returns no granule (the catalog had none, or
    the trimming dropped them all), [run_subagg] prints its message and
    returns: whatever [local_download] says, nothing is downloaded, no
    directory is made, nothing is opened or written. *)
Theorem run_subagg_no_granules (env : Env) (fuel : nat) (year doy : Z)
  (platform short_name : string) (var_list : list string) (output_file : string)
  (local_download : bool) (tmp_dir : string) (w : World) :
  get_climcaps_short_name platform = Ok short_name ->
  fst (get_granule_list env year doy short_name w) = Ok [] ->
  exists start stop,
    run_subagg env fuel year doy platform var_list output_file local_download
      tmp_dir w
    = (Done (Ok tt),
       add_log w [EvSearch short_name start stop;
                  EvPrint (no_granules_msg year doy)]).
Proof.
  intros Hsn Hgl.
  destruct (get_granule_list_state env year doy short_name w [] Hgl)
    as (start & stop & Hw).
  exists start, stop. unfold run_subagg, bind, lift. rewrite Hsn.
  destruct (get_granule_list env year doy short_name w) as [r w1].
  simpl in Hgl, Hw. subst r w1. simpl. unfold done. rewrite emit_add_log.
  rewrite add_log_app. reflexivity.
Qed.

Lemma run_subagg_no_granules_witness :
  let env := sample_env [granule_of "20191008T2354"; granule_of "20191010T0000"]
               [] [] (Refused "unused") in
  exists start stop,
    run_subagg env 0 2019 282 "jpss1" ["lat"] "out.nc" true tmp_dir_default
      empty_world
    = (Done (Ok tt),
       add_log empty_world [EvSearch "SNDRJ1IML2CCPRET" start stop;
                            EvPrint (no_granules_msg 2019 282)]).
Proof.
  apply (run_subagg_no_granules
           (sample_env [granule_of "20191008T2354"; granule_of "20191010T0000"]
              [] [] (Refused "unused"))
           0 2019 282 "jpss1" "SNDRJ1IML2CCPRET" ["lat"] "out.nc" true
           tmp_dir_default empty_world).
  - reflexivity.
  - vm_compute. reflexivity.
Defined.

(** The run of [load_granule_from_file], by cases. *)
Lemma load_granule_from_file_run (env : Env) (fname : string)
  (var_list : list string) (w : World) :
  load_granule_from_file env fname var_list w
  = if os_access w fname then
      match dataset_file env fname with
      | Opened nc =>
          (_load_from_netCDF4 nc var_list,
           add_log w [EvDatasetRead fname; EvDatasetClose])
      | Refused msg => (Raise (NetCDFError msg), add_log w [EvDatasetRead fname])
      end
    else (Raise (FileNotFoundError fname), add_log w [EvDatasetRead fname]).
Proof.
  unfold load_granule_from_file, with_dataset, open_read, bind, lift, emit,
    add_log, os_access.
  simpl. destruct (str_in fname (files w)); [|reflexivity].
  destruct (dataset_file env fname) as [nc|msg]; simpl; [|reflexivity].
  destruct (_load_from_netCDF4 nc var_list); simpl;
    rewrite <- List.app_assoc; reflexivity.
Qed.

(** X7: [load_granule_from_file] changes nothing but the log.  A
    container that was opened is closed again, also when loading a
    variable from it raises; when the file cannot be opened the call
    raises and there is nothing to close. *)
Theorem load_granule_from_file_closes (env : Env) (fname : string)
  (var_list : list string) (w : World) :
  let r := fst (load_granule_from_file env fname var_list w) in
  let w' := snd (load_granule_from_file env fname var_list w) in
  files w' = files w /\ dirs w' = dirs w /\
  (forall nc, os_access w fname = true -> dataset_file env fname = Opened nc ->
     r = _load_from_netCDF4 nc var_list /\
     log w' = log w ++ [EvDatasetRead fname; EvDatasetClose]) /\
  ((os_access w fname = false \/ exists msg, dataset_file env fname = Refused msg) ->
   (exists e, r = Raise e) /\ log w' = log w ++ [EvDatasetRead fname]).
Proof.
  cbv zeta. rewrite load_granule_from_file_run.
  destruct (os_access w fname).
  - destruct (dataset_file env fname) as [nc|msg]; simpl.
    + split; [reflexivity|]. split; [reflexivity|]. split.
      * intros nc' _ [= <-]. split; reflexivity.
      * intros [H | [msg H]]; discriminate H.
    + split; [reflexivity|]. split; [reflexivity|]. split.
      * intros nc' _ H. discriminate H.
      * intros _. split; [eauto | reflexivity].
  - simpl. split; [reflexivity|]. split; [reflexivity|]. split.
    + intros nc' H. discriminate H.
    + intros _. split; [eauto | reflexivity].
Qed.

(** One pass of the loop over the downloaded files. *)
Lemma load_files_step (env : Env) (var_list : list string) (fpath : string)
  (dat_list : list (dict ndarray)) (acc' : load_acc) (w w' : World) :
  (r <- load_granule_from_file env fpath var_list ;;
   let '(dat, dims, attrs) := r in
   os_remove fpath ;;;
   ret (dat_list ++ [dat], Some (dims, attrs)))%M w = (Ok acc', w') ->
  os_access w fpath = true /\
  files w' = List.filter (fun f => negb (String.eqb fpath f)) (files w) /\
  exists dat, fst acc' = dat_list ++ [dat].
Proof.
  unfold bind at 1. rewrite load_granule_from_file_run.
  destruct (os_access w fpath) eqn:Ha; [|discriminate].
  destruct (dataset_file env fpath) as [nc|msg]; [|discriminate].
  destruct (_load_from_netCDF4 nc var_list) as [[[dat dims] attrs]|e];
    [|discriminate].
  unfold os_remove, bind, ret. rewrite emit_add_log.
  change (os_access (add_log (add_log w [EvDatasetRead fpath; EvDatasetClose])
                       [EvRemove fpath]) fpath) with (os_access w fpath).
  rewrite Ha. intros [= <- <-]. simpl. eauto.
Qed.

Lemma load_files_loop (env : Env) (var_list : list string) (paths : list string) :
  forall dat_list last acc' w w',
    for_each paths
      (fun fpath '(dat_list, _) =>
         (r <- load_granule_from_file env fpath var_list ;;
          let '(dat, dims, attrs) := r in
          os_remove fpath ;;;
          ret (dat_list ++ [dat], Some (dims, attrs)))%M)
      (dat_list, last) w = (Ok acc', w') ->
    length (fst acc') = (length dat_list + length paths)%nat /\
    NoDup paths /\
    (forall p, In p paths -> os_access w p = true) /\
    files w' = List.filter (fun f => negb (str_in f paths)) (files w).
Proof.
  induction paths as [|p rest IH]; intros dat_list last acc' w w'.
  - intros [= <- <-]. simpl. split; [lia|]. split; [constructor|].
    split; [tauto|]. induction (files w) as [|f fs IHf]; simpl; congruence.
  - cbn [for_each]. unfold bind at 1.
    match goal with
    | |- context [(?m w)] =>
        destruct (m w) as [[[dl1 last1]|e] w1] eqn:Hstep
    end; [|discriminate].
    apply load_files_step in Hstep as (Ha & Hf & dat & Hdl). simpl in Hdl. subst dl1.
    intros H. apply IH in H as (Hlen & Hnd & Hacc & Hfiles).
    assert (Hgone : forall q, os_access w1 q = true -> q <> p /\ os_access w q = true).
    { intros q Hq. unfold os_access in Hq |- *. rewrite Hf in Hq.
      apply str_in_In, filter_In in Hq as [Hq Hne].
      apply negb_true_iff, String.eqb_neq in Hne.
      split; [congruence | apply str_in_In, Hq]. }
    split; [|split; [|split]].
    + rewrite Hlen, List.length_app. simpl. lia.
    + apply NoDup_cons. split; [|exact Hnd].
      intros Hin. apply list_elem_of_In in Hin.
      destruct (Hgone p (Hacc p Hin)) as [Hne _]. congruence.
    + intros q [<- | Hq]; [exact Ha | apply Hgone, Hacc, Hq].
    + rewrite Hfiles, Hf. clear. induction (files w) as [|f fs IHf]; simpl.
      * reflexivity.
      * rewrite String.eqb_sym.
        destruct (String.eqb f p) eqn:E; simpl; [exact IHf|].
        destruct (str_in f rest); simpl; [exact IHf | f_equal; exact IHf].
Qed.

(** X24: when the loop over the downloaded files ends normally, every
    path of the list was readable, was loaded into one record of
    [dat_list], and has been removed; the paths were all different, and
    no other file has gone or appeared. *)
Theorem load_files_removes (env : Env) (var_list : list string)
  (paths : list string) (acc : load_acc) (w w' : World) :
  load_files env var_list paths w = (Ok acc, w') ->
  length (fst acc) = length paths /\
  NoDup paths /\
  (forall p, In p paths -> os_access w p = true /\ os_access w' p = false) /\
  (forall p, ~ In p paths -> os_access w' p = os_access w p).
Proof.
  unfold load_files. intros H.
  apply load_files_loop in H as (Hlen & Hnd & Hacc & Hfiles).
  split; [exact Hlen|]. split; [exact Hnd|].
  assert (Hafter : forall p, os_access w' p
                             = os_access w p && negb (str_in p paths)).
  { intros p. unfold os_access. rewrite Hfiles. clear.
    induction (files w) as [|f fs IHf]; simpl; [reflexivity|].
    destruct (str_in f paths) eqn:Ef; simpl.
    - rewrite IHf. destruct (String.eqb p f) eqn:E; simpl; [|reflexivity].
      apply String.eqb_eq in E. subst f. rewrite Ef. simpl.
      apply andb_false_r.
    - rewrite IHf. destruct (String.eqb p f) eqn:E; simpl; [|reflexivity].
      apply String.eqb_eq in E. subst f. rewrite Ef. reflexivity. }
  split.
  - intros p Hp. split; [apply Hacc, Hp|].
    rewrite Hafter. apply str_in_In in Hp. rewrite Hp. apply andb_false_r.
  - intros p Hp. rewrite Hafter.
    destruct (str_in p paths) eqn:E; [apply str_in_In in E; contradiction|].
    apply andb_true_r.
Qed.

Lemma load_files_removes_witness :
  let run := load_files local_env ["lat"] ["tmp/a.nc"; "tmp/b.nc"] downloaded_world in
  let acc := match fst run with Ok a => a | Raise _ => ([], None) end in
  length (fst acc) = length ["tmp/a.nc"; "tmp/b.nc"] /\
  NoDup ["tmp/a.nc"; "tmp/b.nc"] /\
  (forall p, In p ["tmp/a.nc"; "tmp/b.nc"] ->
     os_access downloaded_world p = true /\ os_access (snd run) p = false) /\
  (forall p, ~ In p ["tmp/a.nc"; "tmp/b.nc"] ->
     os_access (snd run) p = os_access downloaded_world p).
Proof.
  apply (load_files_removes local_env ["lat"] ["tmp/a.nc"; "tmp/b.nc"]
           (match fst (load_files local_env ["lat"] ["tmp/a.nc"; "tmp/b.nc"]
                         downloaded_world) with
            | Ok a => a
            | Raise _ => ([], None)
            end)
           downloaded_world
           (snd (load_files local_env ["lat"] ["tmp/a.nc"; "tmp/b.nc"]
                   downloaded_world))).
  vm_compute. reflexivity.
Defined.

(** The run of [load_granule_from_s3], by cases. *)
Lemma load_granule_from_s3_run (env : Env) (s3_obj : S3Obj)
  (var_list : list string) (w : World) :
  load_granule_from_s3 env s3_obj var_list w
  = match s3_payload s3_obj with
    | [] => (Raise s3_read_failed, add_log w [EvRead s3_obj])
    | _ :: _ =>
        (rbind (dataset_result (dataset_memory env (s3_payload s3_obj)))
           (fun nc => _load_from_netCDF4 nc var_list),
         add_log w (EvRead s3_obj :: parse_events env (s3_payload s3_obj)))
    end.
Proof.
  unfold load_granule_from_s3, with_dataset, bind, lift, raise, emit, add_log,
    parse_events.
  destruct (s3_payload s3_obj) as [|b bs]; simpl; [reflexivity|].
  destruct (dataset_memory env (b :: bs)) as [nc|msg]; simpl.
  - destruct (_load_from_netCDF4 nc var_list); simpl;
      rewrite <- !List.app_assoc; reflexivity.
  - rewrite <- !List.app_assoc. reflexivity.
Qed.

Lemma parse_events_quiet (env : Env) (payload : list Byte.byte) :
  List.filter is_read (parse_events env payload) = [] /\
  List.filter is_close (parse_events env payload) = [].
Proof.
  unfold parse_events. destruct (dataset_memory env payload); simpl; auto.
Qed.

Lemma load_streams_loop (env : Env) (var_list : list string) (s3_objs : list S3Obj) :
  forall dat_list last w r w',
    for_each s3_objs
      (fun s3_obj '(dat_list, _) =>
         (r <- load_granule_from_s3 env s3_obj var_list ;;
          let '(dat, dims, attrs) := r in
          emit (EvClose s3_obj) ;;;
          ret (dat_list ++ [dat], Some (dims, attrs)))%M)
      (dat_list, last) w = (r, w') ->
    exists evs,
      w' = add_log w evs /\
      match r with
      | Ok acc =>
          length (fst acc) = (length dat_list + length s3_objs)%nat /\
          List.filter is_read evs = map EvRead s3_objs /\
          List.filter is_close evs = map EvClose s3_objs
      | Raise _ =>
          exists closed failed,
            s3_objs = closed ++ failed /\ failed <> [] /\
            List.filter is_read evs = map EvRead (closed ++ firstn 1 failed) /\
            List.filter is_close evs = map EvClose closed
      end.
Proof.
  induction s3_objs as [|o rest IH]; intros dat_list last w r w'.
  - intros [= <- <-]. exists []. simpl. rewrite add_log_nil.
    split; [reflexivity|]. split; [lia | auto].
  - cbn [for_each]. unfold bind at 1. unfold bind at 1.
    rewrite load_granule_from_s3_run.
    destruct (parse_events_quiet env (s3_payload o)) as [Hpr Hpc].
    assert (Hfail : forall evs,
               List.filter is_read evs = [EvRead o] ->
               List.filter is_close evs = [] ->
               exists closed failed : list S3Obj,
                 o :: rest = closed ++ failed /\ failed <> [] /\
                 List.filter is_read evs = map EvRead (closed ++ firstn 1 failed) /\
                 List.filter is_close evs = map EvClose closed).
    { intros evs Hr Hc. exists [], (o :: rest). simpl.
      repeat split; auto; discriminate. }
    destruct (s3_payload o) as [|b bs] eqn:Hp.
    + intros [= <- <-]. eexists. split; [reflexivity|]. apply Hfail; reflexivity.
    + destruct (rbind _ _) as [[[dat dims] attrs]|e].
      * cbv beta iota. unfold bind at 1.
        rewrite emit_add_log, add_log_app. unfold ret. intros Hrun.
        apply IH in Hrun as (evs & -> & Hres).
        eexists. split; [rewrite add_log_app; reflexivity|].
        assert (Hr : forall tail,
                   List.filter is_read
                     (((EvRead o :: parse_events env (b :: bs)) ++ [EvClose o])
                      ++ tail)
                   = EvRead o :: List.filter is_read tail).
        { intros tail. rewrite !List.filter_app.
          cbn [List.filter is_read app]. rewrite Hpr. reflexivity. }
        assert (Hc : forall tail,
                   List.filter is_close
                     (((EvRead o :: parse_events env (b :: bs)) ++ [EvClose o])
                      ++ tail)
                   = EvClose o :: List.filter is_close tail).
        { intros tail. rewrite !List.filter_app.
          cbn [List.filter is_close app]. rewrite Hpc. reflexivity. }
        rewrite Hr, Hc. destruct r as [acc|e].
        -- destruct Hres as (Hlen & Hreads & Hcloses).
           rewrite Hlen, Hreads, Hcloses, List.length_app. simpl.
           split; [lia | auto].
        -- destruct Hres as (closed & failed & -> & Hne & Hreads & Hcloses).
           exists (o :: closed), failed. rewrite Hreads, Hcloses. simpl. auto.
      * intros [= <- <-]. eexists. split; [reflexivity|]. apply Hfail.
        -- cbn [List.filter is_read]. rewrite Hpr. reflexivity.
        -- cbn [List.filter is_close]. exact Hpc.
Qed.

(** X25: the loop over the remote streams changes nothing but the log.
    When it ends normally every stream has been read once and closed
    once, in the order of the list, and [dat_list] has one record per
    stream.  When the load of a stream raises, that stream has been read
    and is left unclosed, the streams before it are closed, and the
    streams after it are never read. *)
Theorem load_streams_closes (env : Env) (var_list : list string)
  (s3_objs : list S3Obj) (w : World) :
  let run := load_streams env var_list s3_objs w in
  exists evs,
    snd run = add_log w evs /\
    match fst run with
    | Ok acc =>
        length (fst acc) = length s3_objs /\
        List.filter is_read evs = map EvRead s3_objs /\
        List.filter is_close evs = map EvClose s3_objs
    | Raise _ =>
        exists closed failed,
          s3_objs = closed ++ failed /\ failed <> [] /\
          List.filter is_read evs = map EvRead (closed ++ firstn 1 failed) /\
          List.filter is_close evs = map EvClose closed
    end.
Proof.
  cbv zeta. unfold load_streams.
  destruct (for_each s3_objs _ _ w) as [r w'] eqn:Hrun.
  apply load_streams_loop in Hrun as (evs & -> & Hres).
  exists evs. split; [reflexivity | exact Hres].
Qed.

Lemma write_cdat_exists (cdat : dict ndarray) (dims : dict dimrec)
  (attrs : dict (dict value)) (fname : string) (w : World) :
  os_access (snd (write_cdat cdat dims attrs fname w)) fname = true.
Proof.
  unfold os_access at 1. rewrite write_cdat_files.
  destruct (os_access w fname) eqn:E; [exact E|].
  rewrite str_in_app. apply orb_true_iff. right. simpl.
  rewrite String.eqb_refl. reflexivity.
Qed.

Lemma aggregate_and_write_exists (env : Env) (acc : load_acc)
  (output_file : string) (w w' : World) (r : result unit) :
  aggregate_and_write env acc output_file w = (r, w') ->
  r = Ok tt -> os_access w' output_file = true.
Proof.
  destruct acc as [dat_list [[dims attrs]|]]; simpl; [|intros [= <- _]; discriminate].
  unfold bind, lift.
  destruct (concat_granules (numpy env) dat_list dims) as [[cdat cdims]|e];
    [|intros [= <- _]; discriminate].
  intros Hw _. rewrite <- (write_cdat_exists cdat cdims attrs output_file w).
  rewrite Hw. reflexivity.
Qed.

Lemma load_then_write_exists (env : Env) (load : M load_acc)
  (output_file : string) (w : World) :
  fst (done (acc <- load ;; aggregate_and_write env acc output_file)%M w)
  = Done (Ok tt) ->
  os_access (snd (done (acc <- load ;; aggregate_and_write env acc output_file)%M w))
    output_file = true.
Proof.
  unfold done, bind. destruct (load w) as [[acc|e] w1]; [|discriminate].
  destruct (aggregate_and_write env acc output_file w1) as [r w2] eqn:Hagg.
  simpl. intros [= ->]. eapply aggregate_and_write_exists; [exact Hagg | reflexivity].
Qed.

(** X26: when [run_subagg] returns normally, either the resolver had no
    granule for the day (then only the query and the message were
    issued, and no file was touched), or the output file exists and is
    readable: the next pass of a driver loop skips the day. *)
Theorem run_subagg_output_exists (env : Env) (fuel : nat) (year doy : Z)
  (platform : string) (var_list : list string) (output_file : string)
  (local_download : bool) (tmp_dir : string) (w : World) :
  let run := run_subagg env fuel year doy platform var_list output_file
               local_download tmp_dir w in
  fst run = Done (Ok tt) ->
  os_access (snd run) output_file = true \/
  exists short_name start stop,
    snd run = add_log w [EvSearch short_name start stop;
                         EvPrint (no_granules_msg year doy)].
Proof.
  cbv zeta.
  destruct (run_subagg env fuel year doy platform var_list output_file
              local_download tmp_dir w) as [r w'] eqn:Hrun.
  cbn [fst snd]. intros ->. unfold run_subagg in Hrun.
  unfold bind at 1, lift at 1 in Hrun.
  destruct (get_climcaps_short_name platform) as [sn|e]; [|discriminate].
  destruct (get_granule_list env year doy sn w) as [[gl|e] w1] eqn:Hgl;
    [|discriminate].
  destruct (length gl =? 0)%nat eqn:Hlen.
  - right.
    destruct (get_granule_list_state env year doy sn w gl) as (start & stop & Hw).
    { rewrite Hgl. reflexivity. }
    rewrite Hgl in Hw. simpl in Hw. subst w1.
    exists sn, start, stop. unfold done in Hrun.
    rewrite emit_add_log, add_log_app in Hrun. inversion Hrun. reflexivity.
  - left. destruct local_download.
    + destruct (_earthaccess_download env fuel gl tmp_dir w1)
        as [[[paths|e]|] w2]; try discriminate.
      pose proof (load_then_write_exists env (load_files env var_list paths)
                    output_file w2) as H.
      rewrite Hrun in H. apply H. reflexivity.
    + pose proof (load_then_write_exists env
                    (emit (EvOpen gl) ;;;
                     load_streams env var_list (s3_open env gl))%M
                    output_file w1) as H.
      assert (Hsame :
                done (acc <- (emit (EvOpen gl) ;;;
                              load_streams env var_list (s3_open env gl)) ;;
                      aggregate_and_write env acc output_file)%M w1
                = (Done (Ok tt), w')).
      { rewrite <- Hrun. unfold done, bind. simpl.
        destruct (load_streams env var_list (s3_open env gl) _) as [[acc|e] w2];
          reflexivity. }
      rewrite Hsame in H. apply H. reflexivity.
Qed.

Lemma run_subagg_output_exists_witness :
  let run := run_subagg streaming_env 0 2019 282 "jpss1" ["lat"] "out.nc" false
               tmp_dir_default empty_world in
  os_access (snd run) "out.nc" = true \/
  exists short_name start stop,
    snd run = add_log empty_world [EvSearch short_name start stop;
                                   EvPrint (no_granules_msg 2019 282)].
Proof.
  apply (run_subagg_output_exists streaming_env 0 2019 282 "jpss1" ["lat"]
           "out.nc" false tmp_dir_default empty_world).
  vm_compute. reflexivity.
Defined.

Lemma same_files_but_add_log (out : string) (w : World) (evs : list event) :
  same_files_but out w (add_log w evs).
Proof. repeat split. Qed.

Lemma same_files_but_refl (out : string) (w : World) : same_files_but out w w.
Proof. repeat split. Qed.

Lemma same_files_but_trans (out : string) (w1 w2 w3 : World) :
  same_files_but out w1 w2 -> same_files_but out w2 w3 -> same_files_but out w1 w3.
Proof.
  intros (H1 & D1 & N1) (H2 & D2 & N2). repeat split; try congruence.
  intros p Hp. rewrite H2, H1 by exact Hp. reflexivity.
Qed.

Lemma get_granule_list_files (env : Env) (year doy : Z) (short_name : string)
  (w : World) :
  exists evs, snd (get_granule_list env year doy short_name w) = add_log w evs.
Proof.
  destruct (day_window year doy) as [[ws we]|e] eqn:Hwin.
  - rewrite (get_granule_list_unfold env year doy short_name w ws we Hwin).
    eexists. reflexivity.
  - unfold get_granule_list, bind, lift. rewrite Hwin. exists [].
    rewrite add_log_nil. reflexivity.
Qed.

Lemma write_cdat_same_files (cdat : dict ndarray) (dims : dict dimrec)
  (attrs : dict (dict value)) (fname : string) (w : World) :
  same_files_but fname w (snd (write_cdat cdat dims attrs fname w)).
Proof.
  split; [|unfold write_cdat, open_write, bind; rewrite emit_add_log; simpl;
           rewrite dim_loop_events, write_loop_events; split; reflexivity].
  intros p Hp. unfold os_access at 1. rewrite write_cdat_files.
  destruct (os_access w fname); [reflexivity|].
  rewrite str_in_app. simpl. apply String.eqb_neq in Hp. rewrite Hp.
  unfold os_access. rewrite !orb_false_r. reflexivity.
Qed.

Lemma aggregate_and_write_same_files (env : Env) (acc : load_acc)
  (output_file : string) (w : World) :
  same_files_but output_file w (snd (aggregate_and_write env acc output_file w)).
Proof.
  destruct acc as [dat_list [[dims attrs]|]]; simpl;
    [|apply same_files_but_refl].
  unfold bind, lift.
  destruct (concat_granules (numpy env) dat_list dims) as [[cdat cdims]|e].
  - apply write_cdat_same_files.
  - apply same_files_but_refl.
Qed.

(** X27: reading from remote streams, [run_subagg] leaves the local file
    system as it was but for its output file, whatever it returns or
    raises: no other path appears or goes, no directory is made, nothing
    is downloaded. *)
Theorem run_subagg_streams_frame (env : Env) (fuel : nat) (year doy : Z)
  (platform : string) (var_list : list string) (output_file : string)
  (tmp_dir : string) (w : World) :
  same_files_but output_file w
    (snd (run_subagg env fuel year doy platform var_list output_file false
            tmp_dir w)).
Proof.
  unfold run_subagg. unfold bind at 1, lift at 1.
  destruct (get_climcaps_short_name platform) as [sn|e];
    [|apply same_files_but_refl].
  destruct (get_granule_list_files env year doy sn w) as [evs Hw].
  destruct (get_granule_list env year doy sn w) as [[gl|e] w1]; simpl in Hw;
    subst w1; [|apply same_files_but_add_log].
  destruct (length gl =? 0)%nat.
  - unfold done. rewrite emit_add_log, add_log_app. apply same_files_but_add_log.
  - unfold done, bind at 1. rewrite emit_add_log, add_log_app.
    unfold bind at 1.
    destruct (load_streams env var_list (s3_open env gl)
                (add_log w (evs ++ [EvOpen gl]))) as [r1 w2] eqn:Hs.
    unfold load_streams in Hs.
    apply load_streams_loop in Hs as (evs' & -> & _).
    destruct r1 as [acc|e].
    + pose proof (aggregate_and_write_same_files env acc output_file
                    (add_log (add_log w (evs ++ [EvOpen gl])) evs')) as Ha.
      destruct (aggregate_and_write env acc output_file _) as [r w3].
      simpl in Ha |- *. rewrite add_log_app in Ha.
      eapply same_files_but_trans; [apply same_files_but_add_log | exact Ha].
    + simpl. rewrite add_log_app. apply same_files_but_add_log.
Qed.

(** ** Driver loops, continued *)

(** X1: [get_climcaps_short_name] knows exactly the platforms of its
    table, raises [KeyError] with the name of any other, and gives
    different platforms different short names. *)
Theorem get_climcaps_short_name_table (platform : string) :
  (In platform ["snpp-normal"; "snpp-full"; "jpss1"] <->
   exists s, get_climcaps_short_name platform = Ok s) /\
  (~ In platform ["snpp-normal"; "snpp-full"; "jpss1"] <->
   get_climcaps_short_name platform = Raise (KeyError platform)) /\
  (forall other s,
     get_climcaps_short_name platform = Ok s ->
     get_climcaps_short_name other = Ok s -> platform = other).
Proof.
  change ["snpp-normal"; "snpp-full"; "jpss1"] with (Dict.keys climcaps_short_names).
  unfold get_climcaps_short_name, Dict.getitem.
  split; [|split].
  - split.
    + intros Hin. destruct (get_is_Some_keys _ _ Hin) as [s ->]. eauto.
    + intros [s Hs]. destruct (Dict.get climcaps_short_names platform) eqn:E;
        [|discriminate]. eapply get_Some_keys, E.
  - rewrite <- get_None_keys.
    destruct (Dict.get climcaps_short_names platform); split; congruence.
  - intros other s Hp Ho.
    destruct (Dict.get climcaps_short_names platform) as [s1|] eqn:E1; [|discriminate].
    destruct (Dict.get climcaps_short_names other) as [s2|] eqn:E2; [|discriminate].
    inversion Hp; inversion Ho; subst s1 s2.
    apply get_Some_In in E1, E2. simpl in E1, E2.
    destruct E1 as [E1 | [E1 | [E1 | []]]], E2 as [E2 | [E2 | [E2 | []]]];
      congruence.
Qed.

Lemma production_loop_app (env : Env) (fuel : nat) (platform short_name : string)
  (year : Z) (output_path : string -> string) (before after : list Z) :
  forall w w1,
    production_loop env fuel platform short_name year output_path before w
    = (Done (Ok tt), w1) ->
    production_loop env fuel platform short_name year output_path
      (before ++ after) w
    = production_loop env fuel platform short_name year output_path after w1.
Proof.
  induction before as [|d rest IH]; intros w w1; simpl.
  - intros [= <-]. reflexivity.
  - destruct (production_day env fuel platform short_name year output_path d w)
      as [[[[]|e]|] w0]; try discriminate.
    apply IH.
Qed.

(** X28: the driver loop has no handler: when the unit of one day does
    not end normally (it raises, or its download never completes), the
    loop ends there with that outcome, and no later day is visited. *)
Theorem production_loop_stops_at_failure (env : Env) (fuel : nat)
  (platform short_name : string) (year : Z) (output_path : string -> string)
  (before after : list Z) (doy : Z) (w w1 w2 : World) (r : outcome unit) :
  production_loop env fuel platform short_name year output_path before w
  = (Done (Ok tt), w1) ->
  production_day env fuel platform short_name year output_path doy w1 = (r, w2) ->
  r <> Done (Ok tt) ->
  production_loop env fuel platform short_name year output_path
    (before ++ doy :: after) w
  = (r, w2).
Proof.
  intros Hbefore Hday Hr.
  rewrite (production_loop_app _ _ _ _ _ _ before (doy :: after) w w1 Hbefore).
  simpl. rewrite Hday. destruct r as [[[]|e]|]; [contradiction | reflexivity..].
Qed.

(** Day 8 is skipped, day 9 raises in the resolver, day 10 is never
    looked at. *)
Lemma production_loop_stops_at_failure_witness :
  let w1 := snd (production_loop stale_env 0 "snpp-normal" "SNDRSNIML2CCPRETN"
                   2015 (fun f => f) [8] day8_done) in
  production_loop stale_env 0 "snpp-normal" "SNDRSNIML2CCPRETN" 2015 (fun f => f)
    ([8] ++ 9 :: [10]) day8_done
  = (Done (Raise (IndexError "list index out of range")),
     snd (production_day stale_env 0 "snpp-normal" "SNDRSNIML2CCPRETN" 2015
            (fun f => f) 9 w1)).
Proof.
  apply (production_loop_stops_at_failure stale_env 0 "snpp-normal"
           "SNDRSNIML2CCPRETN" 2015 (fun f => f) [8] [10] 9 day8_done
           (snd (production_loop stale_env 0 "snpp-normal" "SNDRSNIML2CCPRETN"
                   2015 (fun f => f) [8] day8_done))).
  - vm_compute. reflexivity.
  - vm_compute. reflexivity.
  - discriminate.
Defined.

Lemma days_before_year_succ (y : Z) :
  1 <= y ->
  Datetime.days_before_year (y + 1) - Datetime.days_before_year y
  = if Datetime.is_leap y then 366 else 365.
Proof.
  intros Hy. unfold Datetime.days_before_year, Datetime.is_leap. cbv zeta.
  replace (y + 1 - 1) with y by lia.
  destruct (y mod 4 =? 0) eqn:E4; destruct (y mod 100 =? 0) eqn:E100;
    destruct (y mod 400 =? 0) eqn:E400; cbn [andb orb negb];
    rewrite ?Z.eqb_eq, ?Z.eqb_neq in *;
    Z.to_euclidean_division_equations; lia.
Qed.

(** [startup] by the outcome of the two log-in calls. *)
Lemma startup_run (env : Env) (w : World) :
  startup env w
  = match login env "netrc" with
    | Raise (FileNotFoundError _) =>
        (login env "interactive",
         add_log w [EvLogin "netrc"; EvLogin "interactive"])
    | other => (other, add_log w [EvLogin "netrc"])
    end.
Proof.
  unfold startup, earthaccess_login, bind, lift. rewrite emit_add_log.
  destruct (login env "netrc") as [[]|[]]; try reflexivity.
  rewrite emit_add_log, add_log_app. reflexivity.
Qed.

Lemma year_length (year : Z) :
  1 <= year <= 9998 ->
  (next <- Datetime.datetime (year + 1) 1 1 ;;
   this <- Datetime.datetime year 1 1 ;;
   Ok (Datetime.toordinal next - Datetime.toordinal this))%result
  = Ok (if Datetime.is_leap year then 366 else 365).
Proof.
  intros Hy. unfold Datetime.datetime, Datetime.MINYEAR, Datetime.MAXYEAR.
  replace ((year + 1 <? 1) || (9999 <? year + 1)) with false
    by (symmetry; apply orb_false_iff; split; apply Z.ltb_ge; lia).
  replace ((year <? 1) || (9999 <? year)) with false
    by (symmetry; apply orb_false_iff; split; apply Z.ltb_ge; lia).
  change ((1 <? 1) || (12 <? 1)) with false.
  change (Datetime.days_in_month (year + 1) 1) with 31.
  change (Datetime.days_in_month year 1) with 31.
  change ((1 <? 1) || (31 <? 1)) with false. cbn [rbind]. f_equal.
  unfold Datetime.toordinal, Datetime.days_before_month. simpl.
  rewrite <- (days_before_year_succ year) by lia. lia.
Qed.

Lemma doy_list_days (year : Z) :
  map (fun i => Z.of_nat i + 1)
    (seq 0 (Z.to_nat (if Datetime.is_leap year then 366 else 365)))
  = map Z.of_nat (seq 1 (if Datetime.is_leap year then 366 else 365)).
Proof.
  rewrite <- seq_shift, map_map.
  assert (Hz : Z.to_nat (if Datetime.is_leap year then 366 else 365)
               = if Datetime.is_leap year then 366%nat else 365%nat)
    by (destruct (Datetime.is_leap year); reflexivity).
  rewrite Hz. apply map_ext. intros i. lia.
Qed.

(** The yearly driver up to its loop, the two output directories being
    there already. *)
Lemma yearly_setup (env : Env) (fuel : nat) (year_string : string)
  (year : Z) (w : World) :
  1 <= year <= 9998 ->
  In (path_join output_top_dir "snpp-normal") (dirs w) ->
  In (path_join (path_join output_top_dir "snpp-normal") year_string) (dirs w) ->
  ghg_project_production_yearly env fuel year_string year w
  = match startup env
            (add_log w
               [EvMkdir (path_join output_top_dir "snpp-normal");
                EvMkdir (path_join (path_join output_top_dir "snpp-normal")
                           year_string)]) with
    | (Raise e, w3) => (Done (Raise e), w3)
    | (Ok _, w3) =>
        production_loop env fuel "snpp-normal" "SNDRSNIML2CCPRETN" year
          (path_join (path_join (path_join output_top_dir "snpp-normal")
                        year_string))
          (map Z.of_nat (seq 1 (if Datetime.is_leap year then 366 else 365))) w3
    end.
Proof.
  intros Hy Htop Hout. unfold ghg_project_production_yearly.
  change (get_climcaps_short_name "snpp-normal") with (Ok "SNDRSNIML2CCPRETN").
  cbv iota beta zeta. unfold bind at 1.
  rewrite (mkdir_existing _ w Htop). unfold bind at 1.
  rewrite mkdir_existing by exact Hout. rewrite add_log_app. cbn [app].
  unfold lift. rewrite (year_length year Hy), doy_list_days. reflexivity.
Qed.

(** X29: started where its two output directories exist, for a year
    from 1 to 9998 given in decimal, the yearly driver logs in and then
    visits the days 1 to 365 of the year, 1 to 366 in a leap year, in
    this order.  The log-in is the one with the netrc file and, only
    when that raises [FileNotFoundError], the interactive one; any other
    exception of the first log-in, and any exception of the second, ends
    the driver before its first day. *)
Theorem yearly_visits_every_day (env : Env) (fuel : nat) (year_string : string)
  (year : Z) (w : World) :
  1 <= year <= 9998 ->
  year_string = Py.str_of_int year ->
  In (path_join output_top_dir "snpp-normal") (dirs w) ->
  In (path_join (path_join output_top_dir "snpp-normal") year_string) (dirs w) ->
  let top := path_join output_top_dir "snpp-normal" in
  let output_dir := path_join top year_string in
  let days := map Z.of_nat (seq 1 (if Datetime.is_leap year then 366 else 365)) in
  let run := ghg_project_production_yearly env fuel year_string year w in
  let visit :=
    production_loop env fuel "snpp-normal" "SNDRSNIML2CCPRETN" year
      (path_join output_dir) days in
  (login env "netrc" = Ok tt ->
   run = visit (add_log w [EvMkdir top; EvMkdir output_dir; EvLogin "netrc"])) /\
  (forall p,
     login env "netrc" = Raise (FileNotFoundError p) ->
     login env "interactive" = Ok tt ->
     run = visit (add_log w [EvMkdir top; EvMkdir output_dir; EvLogin "netrc";
                             EvLogin "interactive"])) /\
  (forall e,
     login env "netrc" = Raise e ->
     (forall p, e <> FileNotFoundError p) ->
     run = (Done (Raise e),
            add_log w [EvMkdir top; EvMkdir output_dir; EvLogin "netrc"])) /\
  (forall p e,
     login env "netrc" = Raise (FileNotFoundError p) ->
     login env "interactive" = Raise e ->
     run = (Done (Raise e),
            add_log w [EvMkdir top; EvMkdir output_dir; EvLogin "netrc";
                       EvLogin "interactive"])).
Proof.
  intros Hy _ Htop Hout. cbv zeta.
  rewrite (yearly_setup env fuel year_string year w Hy Htop Hout), startup_run.
  rewrite !add_log_app. cbn [app].
  split; [|split; [|split]].
  - intros ->. reflexivity.
  - intros p -> ->. reflexivity.
  - intros e -> Hne. destruct e; try reflexivity. exfalso. eapply Hne. reflexivity.
  - intros p e -> ->. reflexivity.
Qed.

(** The leap year 2016 in a file system that has the two directories:
    366 days after a log-in with the netrc file; and without a log-in no
    day at all. *)
Lemma yearly_visits_every_day_witness :
  let top := path_join output_top_dir "snpp-normal" in
  let output_dir := path_join top "2016" in
  ghg_project_production_yearly streaming_env 0 "2016" 2016 yearly_world
  = production_loop streaming_env 0 "snpp-normal" "SNDRSNIML2CCPRETN" 2016
      (path_join output_dir) (map Z.of_nat (seq 1 366))
      (add_log yearly_world [EvMkdir top; EvMkdir output_dir; EvLogin "netrc"]) /\
  ghg_project_production_yearly offline_env 0 "2016" 2016 yearly_world
  = (Done (Raise (OSError "no credentials")),
     add_log yearly_world [EvMkdir top; EvMkdir output_dir; EvLogin "netrc"]).
Proof.
  cbv zeta. split.
  - destruct (yearly_visits_every_day streaming_env 0 "2016" 2016 yearly_world)
      as (H & _); [lia | reflexivity | left; reflexivity | right; left; reflexivity |].
    apply H. reflexivity.
  - destruct (yearly_visits_every_day offline_env 0 "2016" 2016 yearly_world)
      as (_ & _ & H & _);
      [lia | reflexivity | left; reflexivity | right; left; reflexivity |].
    apply (H (OSError "no credentials")); [reflexivity | discriminate].
Defined.

Lemma append_inj_l (p a b : string) : p +:+ a = p +:+ b -> a = b.
Proof.
  induction p as [|c p IH]; simpl; [auto|]. intros [= H]. apply IH, H.
Qed.

Lemma length_append (a b : string) :
  String.length (a +:+ b) = (String.length a + String.length b)%nat.
Proof. induction a as [|c a IH]; simpl; [reflexivity | rewrite IH; reflexivity]. Qed.

Lemma append_inj_r (a b c : string) : a +:+ c = b +:+ c -> a = b.
Proof.
  revert b. induction a as [|x a IH]; intros [|y b]; simpl.
  - reflexivity.
  - intros H. apply (f_equal String.length) in H.
    rewrite !length_append in H. simpl in H. lia.
  - intros H. apply (f_equal String.length) in H.
    rewrite !length_append in H. simpl in H. lia.
  - intros H. change (String x a +:+ c) with (String x (a +:+ c)) in H.
    change (String y b +:+ c) with (String y (b +:+ c)) in H.
    inversion H as [[Hxy Hab]]. f_equal. apply IH, Hab.
Qed.

Lemma uint_of_string_zeros (k : nat) (s : string) :
  option_map Z.of_uint (NilEmpty.uint_of_string (Py.repeat_char "0" k +:+ s))
  = option_map Z.of_uint (NilEmpty.uint_of_string s).
Proof.
  induction k as [|k IH]; simpl; [reflexivity|].
  destruct (NilEmpty.uint_of_string (Py.repeat_char "0" k +:+ s)) as [d|];
    destruct (NilEmpty.uint_of_string s) as [d'|]; simpl in *;
    try discriminate; [|reflexivity].
  inversion IH as [H]. unfold Z.of_uint in *. simpl. rewrite H. reflexivity.
Qed.

Lemma string_of_uint_head (d : Decimal.uint) :
  d <> Decimal.Nil ->
  exists a t, NilEmpty.string_of_uint d = String a t /\ Ascii.eqb a "-" = false.
Proof. destruct d; intros H; try congruence; simpl; eauto. Qed.

Lemma str_of_int_pos (p : positive) :
  Py.str_of_int (Z.pos p) = NilEmpty.string_of_uint (Pos.to_uint p).
Proof.
  unfold Py.str_of_int. simpl.
  pose proof (Unsigned.to_uint_nonnil p) as H.
  destruct (Pos.to_uint p); [congruence | reflexivity..].
Qed.

Lemma parse_digits (k : nat) (s : string) (d : Decimal.uint) :
  d <> Decimal.Nil -> s = NilEmpty.string_of_uint d ->
  parse_d (Py.repeat_char "0" k +:+ s) = Some (Z.of_uint d).
Proof.
  intros Hd ->.
  assert (Hgo : option_map Z.of_uint
                  (NilEmpty.uint_of_string
                     (Py.repeat_char "0" k +:+ NilEmpty.string_of_uint d))
                = Some (Z.of_uint d)).
  { rewrite uint_of_string_zeros, NilEmpty.usu. reflexivity. }
  destruct k as [|k].
  - change (Py.repeat_char "0" 0 +:+ NilEmpty.string_of_uint d)
      with (NilEmpty.string_of_uint d) in *.
    destruct (string_of_uint_head d Hd) as (a & t & E & Ha).
    rewrite E in *. unfold parse_d. rewrite Ha. exact Hgo.
  - exact Hgo.
Qed.

Lemma parse_fmt_d_zero (w : nat) (z : Z) : parse_d (Py.fmt_d_zero w z) = Some z.
Proof.
  unfold Py.fmt_d_zero. cbv zeta. destruct z as [|p|p].
  - change (0 <? 0) with false. cbv iota.
    apply (parse_digits _ _ (Decimal.D0 Decimal.Nil)); [discriminate | reflexivity].
  - change (Z.pos p <? 0) with false. cbv iota.
    change (Z.abs (Z.pos p)) with (Z.pos p).
    rewrite (parse_digits _ _ (Pos.to_uint p)).
    + unfold Z.of_uint. rewrite DecimalPos.Unsigned.of_to. reflexivity.
    + apply Unsigned.to_uint_nonnil.
    + apply str_of_int_pos.
  - change (Z.neg p <? 0) with true. cbv iota.
    change (Z.abs (Z.neg p)) with (Z.pos p). rewrite str_of_int_pos.
    change ("-" +:+ ?s) with (String "-" s). unfold parse_d.
    change (Ascii.eqb "-" "-") with true. cbv iota.
    pose proof (uint_of_string_zeros
                  (w - 1 - String.length (NilEmpty.string_of_uint (Pos.to_uint p)))
                  (NilEmpty.string_of_uint (Pos.to_uint p))) as H.
    rewrite NilEmpty.usu in H.
    destruct (NilEmpty.uint_of_string _) as [d|]; [|discriminate].
    simpl in *. inversion H as [H']. rewrite H'. unfold Z.of_uint.
    rewrite DecimalPos.Unsigned.of_to. reflexivity.
Qed.

(** X30: the output file names of two different days of a year are
    different, for any short name: no day of a driver loop overwrites or
    hides the output of another. *)
Theorem output_file_name_days_differ (short_name : string) (year doy1 doy2 : Z) :
  doy1 <> doy2 ->
  output_file_name short_name year doy1 <> output_file_name short_name year doy2.
Proof.
  intros Hne Heq. apply Hne. unfold output_file_name in Heq.
  apply append_inj_l in Heq. apply append_inj_l in Heq.
  apply append_inj_l in Heq. apply append_inj_l in Heq.
  apply append_inj_r in Heq.
  pose proof (parse_fmt_d_zero 3 doy1) as H1. rewrite Heq in H1.
  rewrite parse_fmt_d_zero in H1. congruence.
Qed.

Lemma output_file_name_days_differ_witness :
  output_file_name "SNDRSNIML2CCPRETN" 2015 8
  <> output_file_name "SNDRSNIML2CCPRETN" 2015 9.
Proof.
  apply (output_file_name_days_differ "SNDRSNIML2CCPRETN" 2015 8 9). lia.
Defined.
